(** * Nasdaq 100 Analysis dashboard: a shallow embedding of the browser code

    The development follows the three source files of the repository:
    - [charts.js]: colour palette, number formatters, chart adapter;
    - the dashboard script: loaders, renderers, [applyFilters];
    - [stock-detail.js]: the detail page bootstrap.

    JavaScript numbers are IEEE 754 binary64 values and are modelled by the
    kernel's primitive [float]; strings are [string] (8-bit code units, so
    the text of the model is the ASCII repertoire); objects are records; a
    field that may be missing is [nullable].  The document is a finite map
    from element identifiers to elements.  Whatever the engine or the
    charting library provides and the repository does not define
    ([Number::toString], [toLocaleString], [StringToNumber]) is a method of
    the class [Engine]. *)

From Stdlib Require Import ZArith List String Ascii Floats DecimalString.
From Stdlib Require Import Permutation Sorted Lia Bool.
From stdpp Require Import gmap strings list.

Set Warnings "-inexact-float".

Local Open Scope Z_scope.
Local Open Scope string_scope.
Local Open Scope list_scope.

(** * The program *)

(** ** JavaScript values *)

(** A property that may hold [undefined], [null] or a value of type [A]. *)
Inductive nullable (A : Type) : Type :=
  | Undefined
  | Null
  | Val (a : A).
Arguments Undefined {A}.
Arguments Null {A}.
Arguments Val {A} a.

(** [v == null] *)
Definition is_nullish {A} (v : nullable A) : bool :=
  match v with Val _ => false | _ => true end.

(** Truthiness of a nullable string ([s || d] picks [d] on a falsy [s]). *)
Definition str_or (v : nullable string) (d : string) : string :=
  match v with
  | Val s => if String.eqb s "" then d else s
  | _ => d
  end.

(** What the engine supplies. *)
Class Engine := {
  (** [Number::toString(x)] *)
  NumberToString : float -> string;
  (** [x.toLocaleString('en-US', {minimumFractionDigits, maximumFractionDigits})] *)
  toLocaleStringEnUS : float -> nat -> nat -> string;
  (** [x.toLocaleString()] *)
  toLocaleString : float -> string;
  (** [StringToNumber(s)] on the strings that may be numeric literals *)
  StringNumericLiteral : string -> float
}.

(** ** Number.prototype.toFixed *)

Module Number.

(** Decimal digits of a natural number, ["0"] for zero. *)
Definition digits (n : Z) : string :=
  NilZero.string_of_uint (N.to_uint (Z.to_N n)).

Fixpoint zeros (k : nat) : string :=
  match k with O => "" | S k' => String "0" (zeros k') end.

(** The integer [n] for which [n / 10^f - m * 2^e] is closest to zero,
    the larger one when there are two. *)
Definition scaled (m : positive) (e : Z) (f : nat) : Z :=
  let a := Z.pos m * 10 ^ Z.of_nat f in
  if (0 <=? e)%Z then a * 2 ^ e
  else let d := 2 ^ (- e) in (2 * a + d) / (2 * d).

(** [m * 2^e >= 10^21] *)
Definition huge (m : positive) (e : Z) : bool :=
  if (0 <=? e)%Z then (10 ^ 21 <=? Z.pos m * 2 ^ e)%Z
  else (10 ^ 21 * 2 ^ (- e) <=? Z.pos m)%Z.

(** Step 11 of the algorithm, once [n] is found: place the decimal point. *)
Definition place (n : Z) (f : nat) : string :=
  let m := digits n in
  match f with
  | O => m
  | _ =>
    let k := String.length m in
    let m' := if (k <=? f)%nat then zeros (f + 1 - k) +:+ m else m in
    let k' := String.length m' in
    substring 0 (k' - f) m' +:+ "." +:+ substring (k' - f) f m'
  end.

Definition toFixed `{Engine} (x : float) (f : nat) : string :=
  match Prim2SF x with
  | S754_nan => "NaN"
  | S754_infinity false => "Infinity"
  | S754_infinity true => "-Infinity"
  | S754_zero _ => place 0 f
  | S754_finite s m e =>
    if huge m e then NumberToString x
    else (if s then "-" else "") +:+ place (scaled m e f) f
  end.

End Number.

(** ** charts.js: palette and formatters *)

Module COLORS.
Definition gain := "#22c55e".
Definition loss := "#ef4444".
Definition accent := "#3b82f6".
Definition grid := "#1e293b".
Definition text := "#6b7280".
Definition textLight := "#9ca3af".
Definition bg := "#111827".
Definition ma5 := "#f59e0b".
Definition ma10 := "#8b5cf6".
Definition ma20 := "#3b82f6".
Definition ma50 := "#ec4899".
Definition ma200 := "#14b8a6".
Definition bbUpper := "rgba(59, 130, 246, 0.3)".
Definition bbLower := "rgba(59, 130, 246, 0.3)".
Definition bbMid := "#3b82f6".
Definition volume := "rgba(59, 130, 246, 0.3)".
Definition volumeUp := "rgba(34, 197, 94, 0.4)".
Definition volumeDown := "rgba(239, 68, 68, 0.4)".
End COLORS.

Section Formatters.
Context `{Engine}.

Definition formatNumber (num : nullable float) (decimals : nat) : string :=
  match num with
  | Val x => toLocaleStringEnUS x decimals decimals
  | _ => "-"
  end.

Definition formatPercent (num : nullable float) : string :=
  match num with
  | Val x =>
    let pct := Number.toFixed (x * 100)%float 2 in
    (if (0 <=? x)%float then "+" else "") +:+ pct +:+ "%"
  | _ => "-"
  end.

Definition formatMarketCap (num : nullable float) : string :=
  match num with
  | Val x =>
    if (1e12 <=? x)%float then "$" +:+ Number.toFixed (x / 1e12)%float 2 +:+ "T"
    else if (1e9 <=? x)%float then "$" +:+ Number.toFixed (x / 1e9)%float 2 +:+ "B"
    else if (1e6 <=? x)%float then "$" +:+ Number.toFixed (x / 1e6)%float 2 +:+ "M"
    else "$" +:+ toLocaleString x
  | _ => "-"
  end.

Definition formatVolume (num : nullable float) : string :=
  match num with
  | Val x =>
    if (1e9 <=? x)%float then Number.toFixed (x / 1e9)%float 2 +:+ "B"
    else if (1e6 <=? x)%float then Number.toFixed (x / 1e6)%float 2 +:+ "M"
    else if (1e3 <=? x)%float then Number.toFixed (x / 1e3)%float 1 +:+ "K"
    else NumberToString x
  | _ => "-"
  end.

Definition colorForValue (val : nullable float) : string :=
  match val with
  | Val x => if (0 <=? x)%float then COLORS.gain else COLORS.loss
  | _ => COLORS.text
  end.

Definition rsiColor (rsi : nullable float) : string :=
  match rsi with
  | Val x =>
    if (70 <=? x)%float then COLORS.loss
    else if (x <=? 30)%float then COLORS.gain
    else COLORS.textLight
  | _ => COLORS.text
  end.

Definition rsiLabel (rsi : nullable float) : string :=
  match rsi with
  | Val x =>
    if (70 <=? x)%float then "Overbought"
    else if (x <=? 30)%float then "Oversold"
    else "Neutral"
  | _ => "N/A"
  end.

End Formatters.

(** ** Strings *)

Module JsString.

(** [String.prototype.toLowerCase] on ASCII text. *)
Definition lower_ascii (c : ascii) : ascii :=
let n := nat_of_ascii c in
if ((65 <=? n) && (n <=? 90))%nat then ascii_of_nat (n + 32) else c.

Fixpoint toLowerCase (s : string) : string :=
match s with
| EmptyString => EmptyString
| String c s' => String (lower_ascii c) (toLowerCase s')
end.

(** [hay.includes(needle)] *)
Fixpoint includes (hay needle : string) : bool :=
String.prefix needle hay ||
match hay with
| EmptyString => false
| String _ hay' => includes hay' needle
end.

(** [s.split(sep)] for a one-character separator. *)
Fixpoint split_aux (sep : ascii) (s : string) (cur : string) : list string :=
match s with
| EmptyString => [cur]
| String c s' =>
  if Ascii.eqb c sep then cur :: split_aux sep s' ""
  else split_aux sep s' (cur +:+ String c "")
end.

Definition split (s : string) (sep : ascii) : list string := split_aux sep s "".

(** Code units that occur in some [StringNumericLiteral]: white space, digits,
    sign, point, exponent, the radix prefixes with their digits, and the
    letters of [Infinity]. *)
Definition numeric_unit (c : ascii) : bool :=
let n := nat_of_ascii c in
((9 <=? n) && (n <=? 13) || (n =? 32) || (n =? 160) ||
 (48 <=? n) && (n <=? 57) || (n =? 43) || (n =? 45) || (n =? 46) ||
 (65 <=? n) && (n <=? 70) || (97 <=? n) && (n <=? 102) ||
 (n =? 88) || (n =? 120) || (n =? 79) || (n =? 111) ||
 (n =? 73) || (n =? 110) || (n =? 105) || (n =? 116) || (n =? 121))%nat.

Fixpoint all_units (p : ascii -> bool) (s : string) : bool :=
match s with
| EmptyString => true
| String c s' => p c && all_units p s'
end.

(** [StringToNumber]: a string with a code unit outside the numeric alphabet
    is no numeric literal and converts to NaN; the engine parses the rest. *)
Definition StringToNumber `{Engine} (s : string) : float :=
if all_units numeric_unit s then StringNumericLiteral s else nan.

End JsString.

(** ** Dynamically typed values and the relational operators *)

Inductive value : Type :=
| VUndefined
| VNull
| VNum (x : float)
| VStr (s : string)
| VBool (b : bool).

Definition of_num (v : nullable float) : value :=
match v with Undefined => VUndefined | Null => VNull | Val x => VNum x end.

Definition of_str (v : nullable string) : value :=
match v with Undefined => VUndefined | Null => VNull | Val s => VStr s end.

Definition of_bool (v : nullable bool) : value :=
match v with Undefined => VUndefined | Null => VNull | Val b => VBool b end.

Section Relational.
Context `{Engine}.

Definition ToNumber (v : value) : float :=
match v with
| VUndefined => nan
| VNull => 0%float
| VNum x => x
| VStr s => JsString.StringToNumber s
| VBool b => if b then 1%float else 0%float
end.

(** [a < b]: two strings compare by code units, anything else as numbers
    (a comparison with NaN is false). *)
Definition js_lt (a b : value) : bool :=
match a, b with
| VStr s, VStr t => String.ltb s t
| _, _ => (ToNumber a <? ToNumber b)%float
end.

(** [a > b] *)
Definition js_gt (a b : value) : bool := js_lt b a.

End Relational.

(** ** Array.prototype.sort

    The engine's sort is modelled by an insertion sort that takes the
    elements from left to right and places each one before the first element
    of the sorted prefix that the comparator puts after it. *)

Module Array.

Fixpoint insert {A} (comparefn : A -> A -> Z) (x : A) (l : list A) : list A :=
match l with
| [] => [x]
| y :: l' => if (comparefn x y <? 0)%Z then x :: l else y :: insert comparefn x l'
end.

Definition sort {A} (comparefn : A -> A -> Z) (l : list A) : list A :=
fold_left (fun acc x => insert comparefn x acc) l [].

End Array.

(** ** Data model *)

Record Stock := {
  symbol : string;
  name : nullable string;
  sector : nullable string;
  currentPrice : nullable float;
  lastChange : nullable float;
  ytdReturn : nullable float;
  rsi : nullable float;
  macdSignal : nullable string;
  aboveMa50 : nullable bool;
  aboveMa200 : nullable bool
}.

(** [a[field]] *)
Definition get (a : Stock) (field : string) : value :=
if String.eqb field "symbol" then VStr (symbol a)
else if String.eqb field "name" then of_str (name a)
else if String.eqb field "sector" then of_str (sector a)
else if String.eqb field "currentPrice" then of_num (currentPrice a)
else if String.eqb field "lastChange" then of_num (lastChange a)
else if String.eqb field "ytdReturn" then of_num (ytdReturn a)
else if String.eqb field "rsi" then of_num (rsi a)
else if String.eqb field "macdSignal" then of_str (macdSignal a)
else if String.eqb field "aboveMa50" then of_bool (aboveMa50 a)
else if String.eqb field "aboveMa200" then of_bool (aboveMa200 a)
else VUndefined.

(** ** applyFilters: the visible rows *)

Section Filters.
Context `{Engine}.

(** [dir === 'asc'] *)
Definition is_asc (dir : nullable string) : bool :=
match dir with
| Val d => String.eqb d "asc"
| _ => false
end.

(** Lines 186 to 189: lower-case a string key, replace a missing key. *)
Definition sort_key (dir : nullable string) (v : value) : value :=
match v with
| VStr s => VStr (JsString.toLowerCase s)
| VUndefined | VNull => if is_asc dir then VNum infinity else VNum neg_infinity
| _ => v
end.

(** The comparator of line 184. *)
Definition comparator (field : string) (dir : nullable string) (a b : Stock) : Z :=
let va := sort_key dir (get a field) in
let vb := sort_key dir (get b field) in
if is_asc dir then (if js_gt va vb then 1 else -1)
else (if js_lt va vb then 1 else -1).

(** [const [field, dir] = sortBy.split('-')] *)
Definition sort_field (sortBy : string) : string :=
match JsString.split sortBy "-" with
| f :: _ => f
| [] => ""
end.

Definition sort_dir (sortBy : string) : nullable string :=
match JsString.split sortBy "-" with
| _ :: d :: _ => Val d
| _ => Undefined
end.

Definition matches_search (search : string) (s : Stock) : bool :=
JsString.includes (JsString.toLowerCase (symbol s)) search ||
JsString.includes (JsString.toLowerCase (str_or (name s) "")) search.

(** [v === criterion] for a string criterion *)
Definition strict_eq_str (v : nullable string) (criterion : string) : bool :=
match v with
| Val s => String.eqb s criterion
| _ => false
end.

Definition truthy_str (s : string) : bool := negb (String.eqb s "").

(** The value of [filtered] when it is handed to [renderStockTable]:
    [searchText], [sectorSel], [signalSel] and [sortBy] are the [value]s of
    the four controls. *)
Definition filtered (stocks : list Stock)
  (searchText sectorSel signalSel sortBy : string) : list Stock :=
let search := JsString.toLowerCase searchText in
let f0 := stocks in
let f1 := if truthy_str search then List.filter (matches_search search) f0 else f0 in
let f2 := if truthy_str sectorSel
          then List.filter (fun s => strict_eq_str (sector s) sectorSel) f1 else f1 in
let f3 := if truthy_str signalSel
          then List.filter (fun s => strict_eq_str (macdSignal s) signalSel) f2 else f2 in
Array.sort (comparator (sort_field sortBy) (sort_dir sortBy)) f3.

End Filters.

(** ** The documents of the data set *)

Definition series := list (nullable float).

Module Bar.
Record t := {
  date : string;
  open : float;
  high : float;
  low : float;
  close : float;
  volume : float
}.
End Bar.

Module Macd.
Record t := { macd : series; signal : series; histogram : series }.
End Macd.

Module Bollinger.
Record t := { upper : series; middle : series; lower : series }.
End Bollinger.

Module Indicators.
Record t := {
  dates : nullable (list string);
  ma5 : nullable series;
  ma10 : nullable series;
  ma20 : nullable series;
  ma50 : nullable series;
  ma200 : nullable series;
  rsi : nullable series;
  macd : nullable Macd.t;
  bollinger : nullable Bollinger.t
}.
End Indicators.

Module Metrics.
Record t := {
  currentPrice : nullable float;
  lastChange : nullable float;
  ytdReturn : nullable float;
  ytdStartPrice : nullable float;
  maxDrawdown : nullable float;
  volatility : nullable float;
  avgVolume : nullable float;
  high52w : nullable float;
  low52w : nullable float
}.
End Metrics.

Module Technicals.
Record t := {
  rsi : nullable float;
  macdSignal : nullable string;
  aboveMa50 : nullable bool;
  aboveMa200 : nullable bool
}.
End Technicals.

(** The per-symbol detail document. *)
Module Detail.
Record t := {
  symbol : string;
  name : nullable string;
  sector : nullable string;
  priceHistory : nullable (list Bar.t);
  indicators : nullable Indicators.t;
  metrics : nullable Metrics.t;
  technicals : nullable Technicals.t;
  marketCap : nullable float
}.
End Detail.

Module Overview.
Record t := {
  analysisDate : nullable string;
  totalStocks : nullable float;
  avgYtdReturn : nullable float;
  medianYtdReturn : nullable float;
  bullishCount : nullable float;
  bearishCount : nullable float;
  aboveMa50Count : nullable float;
  aboveMa200Count : nullable float
}.
End Overview.

(** [bestPerformer] is a symbol or an object that holds one. *)
Inductive best_performer : Type :=
| BestSymbol (s : string)
| BestObject (symbol : nullable string).

Module SectorStat.
Record t := {
  count : nullable float;
  avgYtdReturn : float;
  bestPerformer : nullable best_performer
}.
End SectorStat.

Module Ranked.
Record t := { symbol : string; ytdReturn : float }.
End Ranked.

Module Rankings.
Record t := {
  topGainers : nullable (list Ranked.t);
  topLosers : nullable (list Ranked.t)
}.
End Rankings.

(** The summary document; [sectorStats] keeps the order of its keys. *)
Module Summary.
Record t := {
  marketOverview : nullable Overview.t;
  sectorStats : nullable (list (string * SectorStat.t));
  rankings : nullable Rankings.t;
  stocks : nullable (list Stock)
}.
End Summary.

(** ** Markup

    What a renderer writes into its container, as the structure the
    template strings spell out. *)

(** A [${...}] slot that holds a number or a missing value. *)
Inductive slot : Type :=
| SlotNum (x : float)
| SlotCount (n : nat)
| SlotMissing (undefined : bool)
| SlotText (s : string).

Definition slot_of (v : nullable float) : slot :=
match v with
| Val x => SlotNum x
| Undefined => SlotMissing true
| Null => SlotMissing false
end.

Module Card.
Record t := { label : string; value : list slot; color : string }.
End Card.

Module Tile.
Record t := {
  sector : string;
  background : bool * float;   (* gain hue?, alpha *)
  border : string;
  color : string;
  percent : string;
  count : slot;
  best : slot
}.
End Tile.

Module TableRow.
Record t := {
  href : string;               (* the symbol in the row's link *)
  rank : nat;
  symbol : string;
  name : string;
  sector : string;
  price : string;
  changeColor : string;
  change : string;
  ytdColor : string;
  ytd : string;
  rsiClass : string;
  rsi : string;
  signalClass : string;
  signal : string;
  ma50Class : string;
  ma50 : string;
  ma200Class : string;
  ma200 : string;
  sparkId : string             (* the symbol in [id="spark-..."] *)
}.
End TableRow.

Module PerformerRow.
Record t := {
  symbol : string;
  barWidth : string;
  color : string;
  percent : string
}.
End PerformerRow.

Module MetricCard.
Record t := { label : string; value : string; sub : string; color : string }.
End MetricCard.

Inductive markup : Type :=
| Static                                  (* the markup of the page file *)
| Message (text : string) (link : bool)   (* the fallback text of [init] *)
| TextContent (text : string)
| OverviewCards (cards : list Card.t)
| SectorTiles (tiles : list Tile.t)
| TableRows (rows : list TableRow.t)
| PerformerRows (rows : list PerformerRow.t)
| MetricCards (cards : list MetricCard.t)
| KeyStats (stats : list (string * slot)).

(** ** Charts *)

(** An element a chart can be drawn in: one that the page file declares, or
    the sparkline cell of the table row of a symbol. *)
Inductive node : Type :=
| TopLevel (id : string)
| Mount (symbol : string).

Module MaLine.
Record t := { name : string; data : series; color : string }.
End MaLine.

(** The data-dependent part of the options object of each chart. *)
Inductive chart_option : Type :=
| NoOption
| SparklineOption (prices : list float) (color : string)
| CandlestickOption (dates : list string)
    (ohlc : list (float * float * float * float))
    (maLines : list MaLine.t) (volumes : list (float * string))
| RSIOption (dates : list string) (rsiData : series)
| MACDOption (dates : list string) (histogram : list (nullable float * string))
    (macd signal : series)
| BollingerOption (dates : list string) (closeData : list float)
    (upper middle lower : series).

Module Chart.
Record t := { dom : node; option : chart_option }.
End Chart.

(** ** The page: document, charting library, globals of the dashboard *)

Module Element.
Record t := { value : string; innerHTML : markup }.
End Element.

(** A callback handed to [requestAnimationFrame]: the arrow function of
    [renderStockTable] with the two arrays it closes over. *)
Inductive frame_callback : Type :=
| DrawSparklines (stocks : list Stock) (fullData : list Detail.t).

Record World := {
  (** the elements that carry an [id], by id *)
  document : gmap string Element.t;
  (** [document.body.innerHTML] once a fallback message replaced the page *)
  body : option markup;
  title : string;
  (** the [_echarts_instance_] attribute of the sparkline cells *)
  mountInstance : gmap string nat;
  (** the charting library: next instance number, live instances, every
      call of [dispose], the charts bound to the window's resize event *)
  idBase : nat;
  instances : gmap nat Chart.t;
  disposed : list nat;
  resizeListeners : list nat;
  (** callbacks waiting for the next paint *)
  frames : list frame_callback;
  (** what [fetch] and [resp.json()] give for [data/stocks/<symbol>.json]
      and for [data/summary.json] *)
  stockFile : string -> option Detail.t;
  summaryFile : option Summary.t;
  (** module-level variables of the dashboard script *)
  allStocks : list Detail.t;
  summaryData : nullable Summary.t;
  sparklineCharts : list nat
}.

Definition set_document (f : gmap string Element.t -> gmap string Element.t)
  (w : World) : World :=
{| document := f (document w); body := body w; title := title w;
   mountInstance := mountInstance w; idBase := idBase w;
   instances := instances w; disposed := disposed w;
   resizeListeners := resizeListeners w; frames := frames w;
   stockFile := stockFile w; summaryFile := summaryFile w;
   allStocks := allStocks w; summaryData := summaryData w;
   sparklineCharts := sparklineCharts w |}.

Definition set_body (m : markup) (w : World) : World :=
{| document := ∅; body := Some m; title := title w;
   mountInstance := ∅; idBase := idBase w;
   instances := instances w; disposed := disposed w;
   resizeListeners := resizeListeners w; frames := frames w;
   stockFile := stockFile w; summaryFile := summaryFile w;
   allStocks := allStocks w; summaryData := summaryData w;
   sparklineCharts := sparklineCharts w |}.

Definition set_title (t : string) (w : World) : World :=
{| document := document w; body := body w; title := t;
   mountInstance := mountInstance w; idBase := idBase w;
   instances := instances w; disposed := disposed w;
   resizeListeners := resizeListeners w; frames := frames w;
   stockFile := stockFile w; summaryFile := summaryFile w;
   allStocks := allStocks w; summaryData := summaryData w;
   sparklineCharts := sparklineCharts w |}.

Definition set_mountInstance (f : gmap string nat -> gmap string nat)
  (w : World) : World :=
{| document := document w; body := body w; title := title w;
   mountInstance := f (mountInstance w); idBase := idBase w;
   instances := instances w; disposed := disposed w;
   resizeListeners := resizeListeners w; frames := frames w;
   stockFile := stockFile w; summaryFile := summaryFile w;
   allStocks := allStocks w; summaryData := summaryData w;
   sparklineCharts := sparklineCharts w |}.

Definition set_charts (n : nat) (f : gmap nat Chart.t -> gmap nat Chart.t)
  (d : list nat -> list nat) (w : World) : World :=
{| document := document w; body := body w; title := title w;
   mountInstance := mountInstance w; idBase := n;
   instances := f (instances w); disposed := d (disposed w);
   resizeListeners := resizeListeners w; frames := frames w;
   stockFile := stockFile w; summaryFile := summaryFile w;
   allStocks := allStocks w; summaryData := summaryData w;
   sparklineCharts := sparklineCharts w |}.

Definition set_resizeListeners (f : list nat -> list nat) (w : World) : World :=
{| document := document w; body := body w; title := title w;
   mountInstance := mountInstance w; idBase := idBase w;
   instances := instances w; disposed := disposed w;
   resizeListeners := f (resizeListeners w); frames := frames w;
   stockFile := stockFile w; summaryFile := summaryFile w;
   allStocks := allStocks w; summaryData := summaryData w;
   sparklineCharts := sparklineCharts w |}.

Definition set_frames (f : list frame_callback -> list frame_callback)
  (w : World) : World :=
{| document := document w; body := body w; title := title w;
   mountInstance := mountInstance w; idBase := idBase w;
   instances := instances w; disposed := disposed w;
   resizeListeners := resizeListeners w; frames := f (frames w);
   stockFile := stockFile w; summaryFile := summaryFile w;
   allStocks := allStocks w; summaryData := summaryData w;
   sparklineCharts := sparklineCharts w |}.

Definition set_sparklineCharts (f : list nat -> list nat) (w : World) : World :=
{| document := document w; body := body w; title := title w;
   mountInstance := mountInstance w; idBase := idBase w;
   instances := instances w; disposed := disposed w;
   resizeListeners := resizeListeners w; frames := frames w;
   stockFile := stockFile w; summaryFile := summaryFile w;
   allStocks := allStocks w; summaryData := summaryData w;
   sparklineCharts := f (sparklineCharts w) |}.

Definition set_globals (all : list Detail.t) (summary : nullable Summary.t)
  (w : World) : World :=
{| document := document w; body := body w; title := title w;
   mountInstance := mountInstance w; idBase := idBase w;
   instances := instances w; disposed := disposed w;
   resizeListeners := resizeListeners w; frames := frames w;
   stockFile := stockFile w; summaryFile := summaryFile w;
   allStocks := all; summaryData := summary;
   sparklineCharts := sparklineCharts w |}.

(** ** Completions: a statement returns or throws *)

Inductive error : Type :=
| TypeError (reading : string)     (* a property of [null] or [undefined] *)
| Error (message : string).

Inductive completion (A : Type) : Type :=
| Normal (a : A)
| Throw (e : error).
Arguments Normal {A} a.
Arguments Throw {A} e.

(** A piece of script: it runs in a world and leaves a world, whether it
    returns or throws. *)
Definition JS (A : Type) : Type := World -> completion A * World.

Definition ret {A} (a : A) : JS A := fun w => (Normal a, w).

Definition throw {A} (e : error) : JS A := fun w => (Throw e, w).

Definition bind {A B} (m : JS A) (k : A -> JS B) : JS B :=
fun w =>
  match m w with
  | (Normal a, w') => k a w'
  | (Throw e, w') => (Throw e, w')
  end.

Definition modify (f : World -> World) : JS unit := fun w => (Normal tt, f w).

Definition read {A} (f : World -> A) : JS A := fun w => (Normal (f w), w).

Declare Scope js_scope.
Delimit Scope js_scope with js.
Notation "'let*' x ':=' m 'in' k" := (bind m (fun x => k))
  (at level 10, x name, m at level 100, k at level 200) : js_scope.
Notation "'do' m 'then' k" := (bind m (fun _ => k))
  (at level 10, m at level 100, k at level 200) : js_scope.

(** [try { m } catch (e) { h }] *)
Definition try_catch {A} (m : JS A) (h : JS A) : JS A :=
fun w =>
  match m w with
  | (Normal a, w') => (Normal a, w')
  | (Throw _, w') => h w'
  end.

(** [l.forEach(f)] *)
Fixpoint forEach {A} (l : list A) (f : A -> JS unit) : JS unit :=
match l with
| [] => ret tt
| x :: l' => bind (f x) (fun _ => forEach l' f)
end.

(** [o.p] for an object that may be missing *)
Definition member {R} (o : nullable R) (reading : string) : JS R :=
match o with
| Val r => ret r
| _ => throw (TypeError reading)
end.

(** ** The document *)

Section Dom.
Local Open Scope js_scope.

(** The symbol in the id of a sparkline cell, [spark-<symbol>]. *)
Definition mount_symbol (id : string) : option string :=
if String.prefix "spark-" id
then Some (substring 6 (String.length id - 6) id)
else None.

(** The rows that the table body shows. *)
Definition rendered_rows (w : World) : list TableRow.t :=
match document w !! "stock-table-body" with
| Some e => match Element.innerHTML e with TableRows rows => rows | _ => [] end
| None => []
end.

Definition has_mount (w : World) (sym : string) : bool :=
existsb (fun r => String.eqb (TableRow.sparkId r) sym) (rendered_rows w).

(** [document.getElementById(id)]: the element, or [null]. *)
Definition getElementById (id : string) : JS (option node) :=
read (fun w =>
  match document w !! id with
  | Some _ => Some (TopLevel id)
  | None =>
    match mount_symbol id with
    | Some sym => if has_mount w sym then Some (Mount sym) else None
    | None => None
    end
  end).

(** [el.value]; the scripts read it from controls only (the cell of a
    sparkline has no value). *)
Definition get_value (el : option node) : JS string :=
match el with
| None => throw (TypeError "value")
| Some (TopLevel id) =>
  read (fun w => match document w !! id with
                 | Some e => Element.value e
                 | None => ""
                 end)
| Some (Mount _) => ret ""
end.

(** [el.innerHTML = m] (and [el.textContent = ...]): the children of the
    element go, and with the rows of the table their sparkline cells. *)
Definition set_innerHTML (el : option node) (m : markup) : JS unit :=
match el with
| None => throw (TypeError "innerHTML")
| Some (TopLevel id) =>
  modify (fun w =>
    let w' := set_document
                (alter (fun e => {| Element.value := Element.value e;
                                    Element.innerHTML := m |}) id) w in
    if String.eqb id "stock-table-body"
    then set_mountInstance (fun _ => ∅) w' else w')
| Some (Mount _) => ret tt
end.

(** [document.body.innerHTML = m] *)
Definition set_body_innerHTML (m : markup) : JS unit := modify (set_body m).

End Dom.

(** ** The charting library

    The library is an external collaborator of the repository; what follows
    models the calls the scripts make.  [echarts.init] gives the instance an
    element already carries, or makes a new one and marks the element with
    its number; [setOption] stores the options of an instance; [dispose]
    ends an instance and unmarks its element, and every call of it is
    logged. *)

Module echarts.
Section Library.
Local Open Scope js_scope.

(** The live instance drawn in the element [id] of the page file. *)
Definition containerInstance (w : World) (id : string) : option nat :=
fst <$> List.find (fun kv => match Chart.dom (snd kv) with
                             | TopLevel i => String.eqb i id
                             | Mount _ => false
                             end)
          (map_to_list (instances w)).

(** The instance an element carries. *)
Definition getInstanceByDom (n : node) (w : World) : option nat :=
match n with
| Mount sym => mountInstance w !! sym
| TopLevel id => containerInstance w id
end.

(** [echarts.init(dom, null, {renderer: 'canvas'})] *)
Definition init (dom : option node) : JS nat :=
match dom with
| None => throw (Error "Initialize failed: invalid dom.")
| Some n => fun w =>
  match getInstanceByDom n w with
  | Some existInstance => (Normal existInstance, w)
  | None =>
    let id := idBase w in
    let w1 := set_charts (S id)
                (insert id {| Chart.dom := n; Chart.option := NoOption |})
                (fun d => d) w in
    let w2 := match n with
              | Mount sym => set_mountInstance (insert sym id) w1
              | TopLevel _ => w1
              end in
    (Normal id, w2)
  end
end.

(** [chart.setOption(o)] *)
Definition setOption (chart : nat) (o : chart_option) : JS unit :=
modify (fun w =>
  set_charts (idBase w)
    (alter (fun c => {| Chart.dom := Chart.dom c; Chart.option := o |}) chart)
    (fun d => d) w).

(** [chart.dispose()] *)
Definition dispose (chart : nat) : JS unit :=
modify (fun w =>
  let w1 := set_charts (idBase w) (delete chart) (fun d => d ++ [chart]) w in
  match instances w !! chart with
  | Some c =>
    match Chart.dom c with
    | Mount sym =>
      if decide (mountInstance w !! sym = Some chart)
      then set_mountInstance (delete sym) w1 else w1
    | TopLevel _ => w1
    end
  | None => w1
  end).

(** [window.addEventListener('resize', () => chart.resize())] *)
Definition onResize (chart : nat) : JS unit :=
modify (set_resizeListeners (fun l => l ++ [chart])).

End Library.
End echarts.

(** ** charts.js: the chart adapter *)

Section ChartAdapter.
Context `{Engine}.
Local Open Scope js_scope.

Definition drawSparkline (container : option node) (prices : list float)
  (color : string) : JS nat :=
let* chart := echarts.init container in
do echarts.setOption chart (SparklineOption prices color) then
ret chart.

Definition maConfigs : list (string * (Indicators.t -> nullable series) * string * string) :=
[ ("ma5", Indicators.ma5, "MA5", COLORS.ma5);
  ("ma20", Indicators.ma20, "MA20", COLORS.ma20);
  ("ma50", Indicators.ma50, "MA50", COLORS.ma50) ].

(** The volume bar of a day, coloured by the day's direction. *)
Definition volume_bar (d : Bar.t) : float * string :=
(Bar.volume d,
 if (Bar.open d <=? Bar.close d)%float then COLORS.volumeUp else COLORS.volumeDown).

Definition ma_line (ind : Indicators.t)
  (ma : string * (Indicators.t -> nullable series) * string * string) : list MaLine.t :=
let '(_, key, name, color) := ma in
match key ind with
| Val data => [ {| MaLine.name := name; MaLine.data := data; MaLine.color := color |} ]
| _ => []
end.

Definition drawCandlestickChart (container : option node) (data : Detail.t) : JS nat :=
let* chart := echarts.init container in
let* history := member (Detail.priceHistory data) "map" in
let dates := map Bar.date history in
let ohlc := map (fun d => (Bar.open d, Bar.close d, Bar.low d, Bar.high d)) history in
let volumes := map volume_bar history in
let* indicators := member (Detail.indicators data) "ma5" in
let maLines := concat (map (ma_line indicators) maConfigs) in
do echarts.setOption chart (CandlestickOption dates ohlc maLines volumes) then
do echarts.onResize chart then
ret chart.

Definition drawRSIChart (container : option node) (dates : list string)
  (rsiData : series) : JS nat :=
let* chart := echarts.init container in
do echarts.setOption chart (RSIOption dates rsiData) then
do echarts.onResize chart then
ret chart.

(** [v >= 0] on an entry of a series *)
Definition ge_zero (v : nullable float) : bool :=
match v with
| Val x => (0 <=? x)%float
| Null => true
| Undefined => false
end.

Definition drawMACDChart (container : option node) (dates : list string)
  (macdData : Macd.t) : JS nat :=
let* chart := echarts.init container in
let histogram :=
  map (fun v => (v, if ge_zero v then COLORS.gain else COLORS.loss))
      (Macd.histogram macdData) in
do echarts.setOption chart
     (MACDOption dates histogram (Macd.macd macdData) (Macd.signal macdData)) then
do echarts.onResize chart then
ret chart.

Definition drawBollingerChart (container : option node) (dates : list string)
  (closeData : list float) (bollinger : Bollinger.t) : JS nat :=
let* chart := echarts.init container in
do echarts.setOption chart
     (BollingerOption dates closeData (Bollinger.upper bollinger)
        (Bollinger.middle bollinger) (Bollinger.lower bollinger)) then
do echarts.onResize chart then
ret chart.

End ChartAdapter.

(** ** The dashboard script *)

(** [ToNumber] of a numeric property, as the relational operators see it. *)
Definition number_of (v : nullable float) : float :=
match v with
| Val x => x
| Null => 0%float
| Undefined => nan
end.

(** [Math.min(a, b)] *)
Definition Math_min (a b : float) : float :=
if (is_nan a || is_nan b)%bool then nan
else if (a <? b)%float then a
else if (b <? a)%float then b
else if get_sign a then a else b.

(** [Math.max(a, b)] *)
Definition Math_max (a b : float) : float :=
if (is_nan a || is_nan b)%bool then nan
else if (a <? b)%float then b
else if (b <? a)%float then a
else if get_sign a then b else a.

(** [Math.max(...l)] *)
Definition Math_max_all (l : list float) : float := fold_left Math_max l neg_infinity.

(** The sign of a comparator's result ([NaN] counts as zero). *)
Definition sign_of (x : float) : Z :=
if (x <? 0)%float then -1 else if (0 <? x)%float then 1 else 0.

(** [v === true ? yes : v === false ? no : unknown] *)
Definition tri_state {A} (v : nullable bool) (yes no unknown : A) : A :=
match v with
| Val true => yes
| Val false => no
| _ => unknown
end.

(** [l.map(f)] for a callback that may throw *)
Fixpoint map_js {A B} (f : A -> JS B) (l : list A) : JS (list B) :=
match l with
| [] => ret []
| x :: l' => bind (f x) (fun y => bind (map_js f l') (fun ys => ret (y :: ys)))
end.

(** The values of the slots once every slot is filled. *)
Fixpoint all_settled {A} (slots : list (option A)) : option (list A) :=
match slots with
| [] => Some []
| Some v :: slots' =>
  match all_settled slots' with
  | Some vs => Some (v :: vs)
  | None => None
  end
| None :: _ => None
end.

Section Dashboard.
Context `{Engine}.
Local Open Scope js_scope.

(** [loadSummary()] *)
Definition loadSummary : JS (nullable Summary.t) :=
fun w =>
  match summaryFile w with
  | Some s => (Normal (Val s), set_globals (allStocks w) (Val s) w)
  | None => (Normal Null, w)
  end.

(** The promise of one arrow function of [loadAllStockData], settled: the
    document, or [null] after the [catch]. *)
Definition load_one (fetch : string -> option Detail.t) (s : Stock) : nullable Detail.t :=
match fetch (symbol s) with
| Some data => Val data
| None => Null
end.

(** [Promise.all]: each value is stored at the index of its promise when
    the promise settles; [schedule] is the order in which they settle.  The
    result is there once no slot is empty. *)
Definition Promise_all {A} (promises : list A) (schedule : list nat) : option (list A) :=
let slots :=
  fold_left (fun values i =>
               match promises !! i with
               | Some v => <[i := Some v]> values
               | None => values
               end) schedule (replicate (List.length promises) None) in
all_settled slots.

(** [.filter(Boolean)] *)
Definition filter_Boolean {A} (l : list (nullable A)) : list A :=
omap (fun v => match v with Val a => Some a | _ => None end) l.

(** [loadAllStockData()], given the order in which the fetches settle. *)
Definition loadAllStockData (schedule : list nat) : JS (option (list Detail.t)) :=
read (fun w =>
  match summaryData w with
  | Val summary =>
    match Summary.stocks summary with
    | Val stocks =>
      filter_Boolean <$> Promise_all (map (load_one (stockFile w)) stocks) schedule
    | _ => Some []
    end
  | _ => Some []
  end).

Definition renderOverviewCards (summary : Summary.t) : JS unit :=
let overview := Summary.marketOverview summary in
let* container := getElementById "overview-cards" in
let* o := member overview "totalStocks" in
let card label value color :=
  {| Card.label := label; Card.value := value;
     Card.color := if String.eqb color "" then "#f9fafb" else color |} in
let cards :=
  [ card "Total Stocks" [slot_of (Overview.totalStocks o)] "";
    card "Avg YTD Return" [SlotText (formatPercent (Overview.avgYtdReturn o))]
         (colorForValue (Overview.avgYtdReturn o));
    card "Median YTD" [SlotText (formatPercent (Overview.medianYtdReturn o))]
         (colorForValue (Overview.medianYtdReturn o));
    card "Bullish / Bearish"
         [slot_of (Overview.bullishCount o); SlotText " / ";
          slot_of (Overview.bearishCount o)] "";
    card "Above MA50"
         [slot_of (Overview.aboveMa50Count o); SlotText " / ";
          slot_of (Overview.totalStocks o)] "";
    card "Above MA200"
         [slot_of (Overview.aboveMa200Count o); SlotText " / ";
          slot_of (Overview.totalStocks o)] "" ] in
set_innerHTML container (OverviewCards cards).

(** One tile of the heatmap; reading [bestPerformer.symbol] throws when
    [bestPerformer] is [null]. *)
Definition sector_tile (entry : string * SectorStat.t) : JS Tile.t :=
let '(sector, stats) := entry in
let pct := SectorStat.avgYtdReturn stats in
let color := if (0 <=? pct)%float then COLORS.gain else COLORS.loss in
let bgOpacity := Math_min (abs pct * 3)%float 0.4%float in
let* best :=
  match SectorStat.bestPerformer stats with
  | Null => throw (TypeError "symbol")
  | Undefined => ret (SlotMissing true)
  | Val (BestObject (Val s)) => ret (SlotText s)
  | Val (BestObject Undefined) => ret (SlotMissing true)
  | Val (BestObject Null) => ret (SlotMissing false)
  | Val (BestSymbol s) => ret (SlotText s)
  end in
ret {| Tile.sector := sector;
       Tile.background := ((0 <=? pct)%float, bgOpacity);
       Tile.border := color +:+ "30";
       Tile.color := color;
       Tile.percent := formatPercent (Val pct);
       Tile.count := slot_of (SectorStat.count stats);
       Tile.best := best |}.

Definition renderSectorHeatmap (summary : Summary.t) : JS unit :=
let* container := getElementById "sector-heatmap" in
match Summary.sectorStats summary with
| Val sectorStats =>
  let sectors :=
    Array.sort (fun a b => sign_of (SectorStat.avgYtdReturn (snd b)
                                    - SectorStat.avgYtdReturn (snd a))%float)
               sectorStats in
  let* tiles := map_js sector_tile sectors in
  set_innerHTML container (SectorTiles tiles)
| _ => ret tt
end.

Definition stock_row (idx : nat) (s : Stock) : TableRow.t :=
{| TableRow.href := symbol s;
   TableRow.rank := idx + 1;
   TableRow.symbol := symbol s;
   TableRow.name := str_or (name s) "";
   TableRow.sector := str_or (sector s) "";
   TableRow.price := "$" +:+ formatNumber (currentPrice s) 2;
   TableRow.changeColor := colorForValue (lastChange s);
   TableRow.change := formatPercent (lastChange s);
   TableRow.ytdColor := colorForValue (ytdReturn s);
   TableRow.ytd := formatPercent (ytdReturn s);
   TableRow.rsiClass :=
     if (70 <=? number_of (rsi s))%float then "rsi-overbought"
     else if (number_of (rsi s) <=? 30)%float then "rsi-oversold"
     else "rsi-neutral";
   TableRow.rsi := match rsi s with Val x => Number.toFixed x 1 | _ => "-" end;
   TableRow.signalClass :=
     if strict_eq_str (macdSignal s) "bullish" then "badge-bullish"
     else if strict_eq_str (macdSignal s) "bearish" then "badge-bearish"
     else "badge-neutral";
   TableRow.signal := str_or (macdSignal s) "-";
   TableRow.ma50Class := tri_state (aboveMa50 s) "ma-above" "ma-below" "ma-unknown";
   TableRow.ma50 := tri_state (aboveMa50 s) "Above" "Below" "-";
   TableRow.ma200Class := tri_state (aboveMa200 s) "ma-above" "ma-below" "ma-unknown";
   TableRow.ma200 := tri_state (aboveMa200 s) "Above" "Below" "-";
   TableRow.sparkId := symbol s |}.

(** [(s.ytdReturn || 0) >= 0] *)
Definition sparkline_gain (s : Stock) : bool :=
match ytdReturn s with
| Val x => if (is_nan x || (x =? 0)%float)%bool then true else (0 <=? x)%float
| _ => true
end.

(** The body of the [forEach] in the animation frame callback. *)
Definition draw_row_sparkline (fullData : list Detail.t) (s : Stock) : JS unit :=
let* el := getElementById ("spark-" +:+ symbol s) in
match el with
| None => ret tt
| Some _ =>
  match List.find (fun d => String.eqb (Detail.symbol d) (symbol s)) fullData with
  | None => ret tt
  | Some stockData =>
    match Detail.priceHistory stockData with
    | Val priceHistory =>
      let prices := map Bar.close priceHistory in
      let color := if sparkline_gain s then COLORS.gain else COLORS.loss in
      let* chart := drawSparkline el prices color in
      modify (set_sparklineCharts (fun l => l ++ [chart]))
    | _ => ret tt
    end
  end
end.

Definition run_callback (cb : frame_callback) : JS unit :=
match cb with
| DrawSparklines stocks fullData => forEach stocks (draw_row_sparkline fullData)
end.

Definition requestAnimationFrame (cb : frame_callback) : JS unit :=
modify (set_frames (fun q => q ++ [cb])).

(** The browser paints: every callback that waits is run; one that throws
    does not stop the others. *)
Definition animationFrame : JS unit :=
let* queue := read frames in
do modify (set_frames (fun _ => [])) then
forEach queue (fun cb => try_catch (run_callback cb) (ret tt)).

Definition renderStockTable (stocks : list Stock) (fullData : list Detail.t) : JS unit :=
let* tbody := getElementById "stock-table-body" in
do set_innerHTML tbody (TableRows (imap stock_row stocks)) then
requestAnimationFrame (DrawSparklines stocks fullData).

Definition performer_row (isGainer : bool) (maxAbs : float) (s : Ranked.t) : PerformerRow.t :=
let color := if isGainer then COLORS.gain else COLORS.loss in
{| PerformerRow.symbol := Ranked.symbol s;
   PerformerRow.barWidth :=
     Number.toFixed (abs (Ranked.ytdReturn s) / maxAbs * 100)%float 1;
   PerformerRow.color := color;
   PerformerRow.percent := formatPercent (Val (Ranked.ytdReturn s)) |}.

Definition renderList (containerId : string) (stocks : nullable (list Ranked.t))
  (isGainer : bool) : JS unit :=
let* container := getElementById containerId in
match stocks with
| Val (s :: l) =>
  let maxAbs := Math_max_all (map (fun s => abs (Ranked.ytdReturn s)) (s :: l)) in
  set_innerHTML container (PerformerRows (map (performer_row isGainer maxAbs) (s :: l)))
| _ => ret tt
end.

Definition renderPerformers (summary : Summary.t) : JS unit :=
match Summary.rankings summary with
| Val rankings =>
  do renderList "top-gainers" (Rankings.topGainers rankings) true then
  renderList "top-losers" (Rankings.topLosers rankings) false
| _ => ret tt
end.

Definition applyFilters : JS unit :=
let* data := read summaryData in
match data with
| Val summary =>
  let* searchInput := getElementById "search-input" in
  let* searchText := get_value searchInput in
  let* sectorFilter := getElementById "sector-filter" in
  let* sectorSel := get_value sectorFilter in
  let* signalFilter := getElementById "signal-filter" in
  let* signalSel := get_value signalFilter in
  let* sortSelect := getElementById "sort-by" in
  let* sortBy := get_value sortSelect in
  let* stocks := member (Summary.stocks summary) "Symbol.iterator" in
  let rows := filtered stocks searchText sectorSel signalSel sortBy in
  let* charts := read sparklineCharts in
  do forEach charts echarts.dispose then
  do modify (set_sparklineCharts (fun _ => [])) then
  let* fullData := read allStocks in
  renderStockTable rows fullData
| _ => ret tt
end.

End Dashboard.

(** ** stock-detail.js *)

(** [${v}] for a string that may be missing *)
Definition template_str (v : nullable string) : string :=
match v with
| Val s => s
| Null => "null"
| Undefined => "undefined"
end.

Section DetailPage.
Context `{Engine}.
Local Open Scope js_scope.

(** [loadStockData(symbol)] *)
Definition loadStockData (symbol : string) : JS (nullable Detail.t) :=
read (fun w => match stockFile w symbol with
               | Some data => Val data
               | None => Null
               end).

Definition renderMetricCards (data : Detail.t) : JS unit :=
let m := Detail.metrics data in
let t := Detail.technicals data in
let* container := getElementById "metric-cards" in
let* m := member m "ytdReturn" in
let ytdColor := colorForValue (Metrics.ytdReturn m) in
let changeColor := colorForValue (Metrics.lastChange m) in
let* t := member t "rsi" in
let rsiCol := rsiColor (Technicals.rsi t) in
let card label value sub color :=
  {| MetricCard.label := label; MetricCard.value := value;
     MetricCard.sub := sub; MetricCard.color := color |} in
let cards :=
  [ card "Price" ("$" +:+ formatNumber (Metrics.currentPrice m) 2)
         (changeColor +:+ ":" +:+ formatPercent (Metrics.lastChange m) +:+ " today")
         "#f9fafb";
    card "YTD Return" (formatPercent (Metrics.ytdReturn m))
         ("from $" +:+ formatNumber (Metrics.ytdStartPrice m) 2) ytdColor;
    card "RSI (14)"
         (match Technicals.rsi t with Val x => Number.toFixed x 1 | _ => "-" end)
         (rsiLabel (Technicals.rsi t)) rsiCol;
    card "MACD Signal" (str_or (Technicals.macdSignal t) "-") ""
         (if strict_eq_str (Technicals.macdSignal t) "bullish" then COLORS.gain
          else if strict_eq_str (Technicals.macdSignal t) "bearish" then COLORS.loss
          else COLORS.text);
    card "Max Drawdown" (formatPercent (Metrics.maxDrawdown m)) "" COLORS.loss;
    card "Volatility" (formatPercent (Metrics.volatility m)) "annualized" "#f9fafb";
    card "Avg Volume" (formatVolume (Metrics.avgVolume m)) "" "#f9fafb" ] in
set_innerHTML container (MetricCards cards).

Definition renderKeyStats (data : Detail.t) : JS unit :=
let m := Detail.metrics data in
let* container := getElementById "key-stats" in
let marketCap := formatMarketCap (Detail.marketCap data) in
let* m := member m "high52w" in
let* t := member (Detail.technicals data) "aboveMa50" in
let stats :=
  [ ("Market Cap", SlotText marketCap);
    ("52W High", SlotText ("$" +:+ formatNumber (Metrics.high52w m) 2));
    ("52W Low", SlotText ("$" +:+ formatNumber (Metrics.low52w m) 2));
    ("Above MA50", SlotText (tri_state (Technicals.aboveMa50 t) "Yes" "No" "-"));
    ("Above MA200", SlotText (tri_state (Technicals.aboveMa200 t) "Yes" "No" "-"));
    ("YTD Start", SlotText ("$" +:+ formatNumber (Metrics.ytdStartPrice m) 2));
    ("Trading Days",
     match Detail.priceHistory data with
     | Val h => SlotCount (List.length h)
     | _ => SlotText "-"
     end);
    ("Sector", SlotText (str_or (Detail.sector data) "-")) ] in
set_innerHTML container (KeyStats stats).

(** [init()] of the detail page; [param] is the [symbol] query parameter. *)
Definition init (param : nullable string) : JS unit :=
match param with
| Val (String c symbol') =>
  let symbol := String c symbol' in
  do modify (set_title (symbol +:+ " - Nasdaq 100 Analysis")) then
  let* loaded := loadStockData symbol in
  match loaded with
  | Val data =>
    let* stockTitle := getElementById "stock-title" in
    do set_innerHTML stockTitle
         (TextContent (Detail.symbol data +:+ " - " +:+ template_str (Detail.name data))) then
    let* stockSector := getElementById "stock-sector" in
    do set_innerHTML stockSector (TextContent (str_or (Detail.sector data) "")) then
    do renderMetricCards data then
    let* dates :=
      match Detail.indicators data with
      | Val {| Indicators.dates := Val dates |} => ret dates
      | _ =>
        let* history := member (Detail.priceHistory data) "map" in
        ret (map Bar.date history)
      end in
    let* history := member (Detail.priceHistory data) "map" in
    let closes := map Bar.close history in
    let* candlestick := getElementById "candlestick-chart" in
    let* _ := drawCandlestickChart candlestick data in
    let indicator {A} (f : Indicators.t -> nullable A) : nullable A :=
      match Detail.indicators data with
      | Val i => f i
      | _ => Undefined
      end in
    do match indicator Indicators.rsi with
       | Val rsi =>
         let* el := getElementById "rsi-chart" in
         let* _ := drawRSIChart el dates rsi in ret tt
       | _ => ret tt
       end then
    do match indicator Indicators.macd with
       | Val macd =>
         let* el := getElementById "macd-chart" in
         let* _ := drawMACDChart el dates macd in ret tt
       | _ => ret tt
       end then
    do match indicator Indicators.bollinger with
       | Val bollinger =>
         let* el := getElementById "bollinger-chart" in
         let* _ := drawBollingerChart el dates closes bollinger in ret tt
       | _ => ret tt
       end then
    renderKeyStats data
  | _ =>
    set_body_innerHTML
      (Message ("Failed to load data for " +:+ symbol +:+ ".") true)
  end
| _ => set_body_innerHTML (Message "No symbol specified." true)
end.

End DetailPage.

(** ** Filter and sort events *)

(** A change of one of the four controls by the user. *)
Inductive event : Type :=
| SearchInput (text : string)
| SectorChange (value : string)
| SignalChange (value : string)
| SortChange (value : string).

Definition event_target (e : event) : string :=
match e with
| SearchInput _ => "search-input"
| SectorChange _ => "sector-filter"
| SignalChange _ => "signal-filter"
| SortChange _ => "sort-by"
end.

Definition event_value (e : event) : string :=
match e with
| SearchInput v | SectorChange v | SignalChange v | SortChange v => v
end.

(** The browser stores the new value in the control. *)
Definition set_value (id value : string) : JS unit :=
modify (set_document
  (alter (fun e => {| Element.value := value;
                      Element.innerHTML := Element.innerHTML e |}) id)).

Section Events.
Context `{Engine}.
Local Open Scope js_scope.

(** The control changes and its listener, [applyFilters], runs. *)
Definition dispatch (e : event) : JS unit :=
do set_value (event_target e) (event_value e) then applyFilters.

(** An event that is followed by a paint before the next event. *)
Definition cycle (e : event) : JS unit :=
do dispatch e then animationFrame.

Definition cycles (events : list event) : JS unit := forEach events cycle.

End Events.

(** ** The dashboard script: sector options, listeners and init

    [populateSectorFilter] and [init] touch two parts of the page that the
    other scripts do not: the options of the sector select and the
    listeners of the controls.  [DashboardPage.t] adds them to the world. *)

Module DashboardPage.

Record t := {
  world : World;
  (** the options appended to the sector select, in order *)
  sectorOptions : list string;
  (** the listeners added to the controls: element id and event type, each
      with [applyFilters] as its handler *)
  listeners : list (string * string)
}.

(** How far an [async] function has come when the fetches it awaits have
    settled as far as they will: it has returned, or it still waits. *)
Inductive progress : Type :=
| Finished
| Pending.

(** A piece of the dashboard script on the extended page. *)
Definition Script (A : Type) : Type := t -> completion A * t.

Definition lift {A} (m : JS A) : Script A :=
fun d =>
  let (r, w') := m (world d) in
  (r, {| world := w'; sectorOptions := sectorOptions d; listeners := listeners d |}).

Definition pure {A} (a : A) : Script A := fun d => (Normal a, d).

Definition fail {A} (e : error) : Script A := fun d => (Throw e, d).

Definition andThen {A B} (m : Script A) (k : A -> Script B) : Script B :=
fun d =>
  match m d with
  | (Normal a, d') => k a d'
  | (Throw e, d') => (Throw e, d')
  end.

Declare Scope dash_scope.
Delimit Scope dash_scope with dash.
Notation "'let*' x ':=' m 'in' k" := (andThen m (fun x => k))
  (at level 10, x name, m at level 100, k at level 200) : dash_scope.
Notation "'do' m 'then' k" := (andThen m (fun _ => k))
  (at level 10, m at level 100, k at level 200) : dash_scope.

Fixpoint each {A} (l : list A) (f : A -> Script unit) : Script unit :=
match l with
| [] => pure tt
| x :: l' => andThen (f x) (fun _ => each l' f)
end.

(** The comparison of [Array.prototype.sort] without a comparator: strings
    by their code units. *)
Definition default_compare (a b : string) : Z :=
match String.compare a b with
| Lt => -1
| Eq => 0
| Gt => 1
end.

(** The body of the [forEach] of [populateSectorFilter]: a new option with
    value and text [s], appended to the select. *)
Definition appendOption (select : option node) (s : string) : Script unit :=
match select with
| None => fail (TypeError "appendChild")
| Some _ =>
  fun d => (Normal tt, {| world := world d;
                          sectorOptions := sectorOptions d ++ [s];
                          listeners := listeners d |})
end.

(** [el.textContent = text] *)
Definition set_textContent (el : option node) (text : string) : JS unit :=
match el with
| None => throw (TypeError "textContent")
| Some _ => set_innerHTML el (TextContent text)
end.

(** [document.getElementById(id).addEventListener(type, applyFilters)] *)
Definition addEventListener (id type : string) : Script unit :=
andThen (lift (getElementById id)) (fun el =>
  match el with
  | None => fail (TypeError "addEventListener")
  | Some _ =>
    fun d => (Normal tt, {| world := world d;
                            sectorOptions := sectorOptions d;
                            listeners := listeners d ++ [(id, type)] |})
  end).

Section Script.
Context `{Engine}.
Local Open Scope dash_scope.

Definition populateSectorFilter (summary : Summary.t) : Script unit :=
let* select := lift (getElementById "sector-filter") in
match Summary.sectorStats summary with
| Val sectorStats =>
  let sectors := Array.sort default_compare (map fst sectorStats) in
  each sectors (appendOption select)
| _ => pure tt
end.

(** [summary.marketOverview?.analysisDate || ''] *)
Definition analysis_date (summary : Summary.t) : string :=
match Summary.marketOverview summary with
| Val o => str_or (Overview.analysisDate o) ""
| _ => ""
end.

(** [`${summary.marketOverview?.totalStocks || 0} stocks`] *)
Definition stock_count (summary : Summary.t) : string :=
(match Summary.marketOverview summary with
 | Val o =>
   match Overview.totalStocks o with
   | Val x => if (is_nan x || (x =? 0)%float)%bool then "0" else NumberToString x
   | _ => "0"
   end
 | _ => "0"
 end) +:+ " stocks".

(** [init()] of the dashboard; [schedule] is the order in which the fetches
    of [loadAllStockData] settle.  While one of them has not settled, the
    [await] of line 212 does not resume: [init] is [Pending]. *)
Definition init (schedule : list nat) : Script progress :=
let* summary := lift loadSummary in
match summary with
| Val summary =>
  let* analysisDate := lift (getElementById "analysis-date") in
  do lift (set_textContent analysisDate (analysis_date summary)) then
  let* stockCount := lift (getElementById "stock-count") in
  do lift (set_textContent stockCount (stock_count summary)) then
  let* loaded := lift (loadAllStockData schedule) in
  match loaded with
  | Some data =>
    do lift (modify (fun w => set_globals data (summaryData w) w)) then
    do lift (renderOverviewCards summary) then
    do lift (renderSectorHeatmap summary) then
    do populateSectorFilter summary then
    do lift (renderPerformers summary) then
    do lift applyFilters then
    do addEventListener "search-input" "input" then
    do addEventListener "sector-filter" "change" then
    do addEventListener "signal-filter" "change" then
    do addEventListener "sort-by" "change" then
    pure Finished
  | None => pure Pending
  end
| _ =>
  do lift (set_body_innerHTML
             (Message "Failed to load data. Make sure the server is running and data/summary.json exists."
                      false)) then
  pure Finished
end.

End Script.
End DashboardPage.

(** * Vocabulary of the specification *)

(** ** Filtering and sorting *)

Section FilterVocabulary.

(** [needle] occurs in [hay] when letter case is ignored. *)
Definition ci_substring (needle hay : string) : Prop :=
  exists pre post,
    JsString.toLowerCase hay = pre +:+ JsString.toLowerCase needle +:+ post.

(** The three tests of the specification; an empty criterion passes. *)
Definition passes_search (text : string) (r : Stock) : Prop :=
  text = "" \/ ci_substring text (symbol r) \/
  exists n, name r = Val n /\ ci_substring text n.

Definition passes_sector (criterion : string) (r : Stock) : Prop :=
  criterion = "" \/ sector r = Val criterion.

Definition passes_signal (criterion : string) (r : Stock) : Prop :=
  criterion = "" \/ macdSignal r = Val criterion.

End FilterVocabulary.

(** ** The order of binary64 values *)

(** The order of the non-NaN binary64 values, read off their sign, exponent
    and mantissa: [rank] places a value in the lexicographic order [lt3]. *)
Module FloatOrder.

Definition rank (f : spec_float) : Z * Z * Z :=
match f with
| S754_zero _ => (0, 0, 0)
| S754_infinity false => (2, 0, 0)
| S754_infinity true => (-2, 0, 0)
| S754_nan => (3, 0, 0)
| S754_finite false m e => (1, e, Z.pos m)
| S754_finite true m e => (-1, - e, - Z.pos m)
end.

Definition lt3 (p q : Z * Z * Z) : Prop :=
let '(a, b, c) := p in
let '(a', b', c') := q in
a < a' \/ (a = a' /\ (b < b' \/ (b = b' /\ c < c'))).

Definition frank (x : float) : Z * Z * Z := rank (Prim2SF x).

Definition not_nan (x : float) : Prop := is_nan x = false.

(** A JSON number: neither NaN nor an infinity. *)
Definition finite (x : float) : Prop := is_finite x = true.

End FloatOrder.

Section SortVocabulary.
Context `{Engine}.

(** The key is missing: [null] or [undefined]. *)
Definition missing (v : value) : Prop :=
match v with VUndefined | VNull => True | _ => False end.

(** A key that takes part in the comparison as a number other than NaN:
    a JSON number, a boolean, or a missing value. *)
Definition numeric_or_missing (v : value) : Prop :=
match v with
| VNum x => FloatOrder.finite x
| VStr _ => False
| _ => True
end.

(** The number a record is compared by under direction [dir]. *)
Definition sort_number (field : string) (dir : nullable string) (s : Stock) : float :=
ToNumber (sort_key dir (get s field)).

(** [a] may stand before [b]: its key is not greater (ascending), or not
    smaller (descending). *)
Definition in_order (field : string) (dir : nullable string) (a b : Stock) : Prop :=
if is_asc dir
then ~ FloatOrder.lt3 (FloatOrder.frank (sort_number field dir b))
                      (FloatOrder.frank (sort_number field dir a))
else ~ FloatOrder.lt3 (FloatOrder.frank (sort_number field dir a))
                      (FloatOrder.frank (sort_number field dir b)).

End SortVocabulary.

(** ** Renderers and their containers *)





(** ** The registry of sparkline charts *)

(** The value of a control, as [applyFilters] reads it. *)
Definition control_value (w : World) (id : string) : string :=
match document w !! id with
| Some e => Element.value e
| None => ""
end.

(** The rows [applyFilters] computes from the page. *)
Definition current_rows `{Engine} (w : World) (stocks : list Stock) : list Stock :=
filtered stocks (control_value w "search-input") (control_value w "sector-filter")
  (control_value w "signal-filter") (control_value w "sort-by").

(** The symbol has a loaded detail document with a price history. *)
Definition has_history (fullData : list Detail.t) (s : Stock) : bool :=
match List.find (fun d => String.eqb (Detail.symbol d) (symbol s)) fullData with
| Some d => negb (is_nullish (Detail.priceHistory d))
| None => false
end.

(** A chart instance is live. *)
Definition live (w : World) (h : nat) : Prop := is_Some (instances w !! h).

(** The registry and the charting library agree: the registry lists the
    live instances, each once; no instance was disposed twice; every
    instance ever made is live or disposed, not both. *)
Record charts_ok (w : World) : Prop := {
  registry_NoDup : NoDup (sparklineCharts w);
  registry_live : forall h, h ∈ sparklineCharts w <-> live w h;
  disposed_NoDup : NoDup (disposed w);
  made_live_or_disposed : forall h, (h < idBase w)%nat <-> live w h \/ h ∈ disposed w;
  live_not_disposed : forall h, live w h -> h ∉ disposed w
}.

(** The dashboard after [init]: the summary is loaded, the controls and the
    table body are in the document, no element of the page file has the id
    of a sparkline cell, and no callback waits for a paint. *)
Record dashboard_ready (w : World) (stocks : list Stock) : Prop := {
  ready_summary : exists summary,
    summaryData w = Val summary /\ Summary.stocks summary = Val stocks;
  ready_elements : forall id,
    In id ["search-input"; "sector-filter"; "signal-filter"; "sort-by";
           "stock-table-body"] -> is_Some (document w !! id);
  ready_ids : forall id, is_Some (document w !! id) -> mount_symbol id = None;
  ready_frames : frames w = [];
  ready_charts : charts_ok w
}.

(** After a cycle: the table shows the current rows, and the registry has
    one handle for each of them that has a price history. *)
Definition registry_matches `{Engine} (w : World) (stocks : list Stock) : Prop :=
rendered_rows w = imap stock_row (current_rows w stocks) /\
List.length (sparklineCharts w)
= List.length (List.filter (has_history (allStocks w)) (current_rows w stocks)).

(** What a step of the page leaves alone. *)
Record unchanged (w w' : World) : Prop := {
  same_document : document w' = document w;
  same_disposed : disposed w' = disposed w;
  same_frames : frames w' = frames w;
  same_allStocks : allStocks w' = allStocks w;
  same_summaryData : summaryData w' = summaryData w
}.

(** The table body once [renderStockTable] wrote the rows into it. *)
Definition table_markup `{Engine} (rows : list Stock) (e : Element.t) : Element.t :=
{| Element.value := Element.value e;
   Element.innerHTML := TableRows (imap stock_row rows) |}.

(** ** The detail page *)

(** The script returns, with a result and a world that satisfy [Q]. *)
Definition returns {A} (m : JS A) (w : World) (Q : A -> World -> Prop) : Prop :=
exists a w', m w = (Normal a, w') /\ Q a w'.

(** The elements [ids] are as they were in [w0]: same content, no chart
    instance that [w0] did not have; and the page has the same elements and
    the same files. *)
Record kept (ids : list string) (w0 w : World) : Prop := {
  kept_elements : forall id, is_Some (document w !! id) <-> is_Some (document w0 !! id);
  kept_content : forall id, In id ids -> document w !! id = document w0 !! id;
  kept_instances : forall id h c,
    In id ids -> instances w !! h = Some c -> Chart.dom c = TopLevel id ->
    exists c0, instances w0 !! h = Some c0 /\ Chart.dom c0 = TopLevel id;
  kept_files : stockFile w = stockFile w0
}.

(** The script throws [e], in a world that satisfies [Q]. *)
Definition throws {A} (m : JS A) (w : World) (e : error) (Q : World -> Prop) : Prop :=
exists w', m w = (Throw e, w') /\ Q w'.

(** The elements of the detail page. *)
Definition detail_elements : list string :=
["stock-title"; "stock-sector"; "metric-cards"; "candlestick-chart";
 "rsi-chart"; "macd-chart"; "bollinger-chart"; "key-stats"].

(** The containers of the charts whose series the document leaves out. *)
Definition skipped (ind : Indicators.t) : list string :=
(if is_nullish (Indicators.rsi ind) then ["rsi-chart"] else []) ++
(if is_nullish (Indicators.macd ind) then ["macd-chart"] else []) ++
(if is_nullish (Indicators.bollinger ind) then ["bollinger-chart"] else []).

(** ** The dashboard and its init *)

(** A sector whose [bestPerformer] is [null]. *)
Definition null_best (entry : string * SectorStat.t) : bool :=
match SectorStat.bestPerformer (snd entry) with
| Null => true
| _ => false
end.

(** Under [schedule] every fetch of [loadAllStockData] settles. *)
Definition settles (schedule : list nat) (summary : Summary.t) : Prop :=
match Summary.stocks summary with
| Val stocks => forall i, (i < List.length stocks)%nat -> i ∈ schedule
| _ => True
end.

(** The elements that [init] of the dashboard looks up. *)
Definition dashboard_elements : list string :=
["analysis-date"; "stock-count"; "overview-cards"; "sector-heatmap";
 "top-gainers"; "top-losers"; "search-input"; "sector-filter";
 "signal-filter"; "sort-by"; "stock-table-body"].

(** A step that writes the content of elements and nothing else: the page
    has the same elements, the controls hold the same values, the table
    body is as it was, and the charts, the waiting callbacks, the files
    and the globals are untouched. *)
Record repainted (w w' : World) : Prop := {
  repainted_elements : forall id, is_Some (document w' !! id) <-> is_Some (document w !! id);
  repainted_controls : forall id, control_value w' id = control_value w id;
  repainted_table : document w' !! "stock-table-body" = document w !! "stock-table-body";
  repainted_body : body w' = body w;
  repainted_mounts : mountInstance w' = mountInstance w;
  repainted_idBase : idBase w' = idBase w;
  repainted_instances : instances w' = instances w;
  repainted_disposed : disposed w' = disposed w;
  repainted_registry : sparklineCharts w' = sparklineCharts w;
  repainted_frames : frames w' = frames w;
  repainted_stockFile : stockFile w' = stockFile w;
  repainted_summaryData : summaryData w' = summaryData w;
  repainted_allStocks : allStocks w' = allStocks w;
  repainted_resize : resizeListeners w' = resizeListeners w;
  repainted_title : title w' = title w
}.

(** The content of an element. *)
Definition content (w : World) (id : string) : option markup :=
Element.innerHTML <$> document w !! id.

(** The page with another world. *)
Definition with_world (d : DashboardPage.t) (w : World) : DashboardPage.t :=
{| DashboardPage.world := w;
   DashboardPage.sectorOptions := DashboardPage.sectorOptions d;
   DashboardPage.listeners := DashboardPage.listeners d |}.

(** A script of the dashboard page returns, with a result and a page that
    satisfy [Q]. *)
Definition runs {A} (m : DashboardPage.Script A) (d : DashboardPage.t)
  (Q : A -> DashboardPage.t -> Prop) : Prop :=
exists a d', m d = (Normal a, d') /\ Q a d'.

(** A script of the dashboard page throws [e], on a page that satisfies [Q]. *)
Definition fails {A} (m : DashboardPage.Script A) (d : DashboardPage.t)
  (e : error) (Q : DashboardPage.t -> Prop) : Prop :=
exists d', m d = (Throw e, d') /\ Q d'.

(** The four listeners of [init], in the order of their registration. *)
Definition filter_listeners : list (string * string) :=
[("search-input", "input"); ("sector-filter", "change");
 ("signal-filter", "change"); ("sort-by", "change")].





(** The sector names of a summary, in the order of its [sectorStats]. *)
Definition sector_names (summary : Summary.t) : list string :=
match Summary.sectorStats summary with
| Val sectorStats => map fst sectorStats
| _ => []
end.

(** A summary whose heatmap can be rendered: no sector has a [null]
    [bestPerformer]. *)
Definition heatmap_ok (summary : Summary.t) : Prop :=
match Summary.sectorStats summary with
| Val sectorStats => existsb null_best sectorStats = false
| _ => True
end.

(** The stock records of a summary; none when it has no [stocks]. *)
Definition stock_list (summary : Summary.t) : list Stock :=
match Summary.stocks summary with
| Val stocks => stocks
| _ => []
end.

(** The value of a control once the event [e] has changed its target. *)
Definition value_after (e : event) (w : World) (id : string) : string :=
if String.eqb id (event_target e) then event_value e else control_value w id.

(** A string without the character [sep]. *)
Definition lacks (sep : ascii) (s : string) : Prop :=
JsString.all_units (fun c => negb (Ascii.eqb c sep)) s = true.

(** * Sample data

    The two records of the specification's end-to-end scenario, two records
    for sorting by name, pages and documents to run the scripts on, and an
    engine to run them with.  The engine's methods are placeholders: what
    the examples state does not depend on them, and the general theorems
    hold for every engine. *)
Module Sample.

Definition engine : Engine := {|
  NumberToString := fun _ => "";
  toLocaleStringEnUS := fun _ _ _ => "";
  toLocaleString := fun _ => "";
  StringNumericLiteral := fun _ => nan
|}.

Definition AAA : Stock := {|
  symbol := "AAA"; name := Undefined; sector := Val "Tech";
  currentPrice := Undefined; lastChange := Undefined;
  ytdReturn := Val 0.20%float; rsi := Undefined;
  macdSignal := Val "bullish"; aboveMa50 := Undefined; aboveMa200 := Undefined
|}.

Definition BBB : Stock := {|
  symbol := "BBB"; name := Undefined; sector := Val "Health";
  currentPrice := Undefined; lastChange := Undefined;
  ytdReturn := Val (-0.10)%float; rsi := Undefined;
  macdSignal := Val "bearish"; aboveMa50 := Undefined; aboveMa200 := Undefined
|}.

Definition AAPL : Stock := {|
  symbol := "AAPL"; name := Val "Apple Inc."; sector := Val "Technology";
  currentPrice := Val 189.5%float; lastChange := Val 0.0125%float;
  ytdReturn := Val 0.20%float; rsi := Val 55%float;
  macdSignal := Val "bullish"; aboveMa50 := Val true; aboveMa200 := Val true
|}.

(** A record whose [name] is missing. *)
Definition XYZ : Stock := {|
  symbol := "XYZ"; name := Undefined; sector := Val "Technology";
  currentPrice := Val 10%float; lastChange := Val 0%float;
  ytdReturn := Val (-0.10)%float; rsi := Val 45%float;
  macdSignal := Val "bearish"; aboveMa50 := Val false; aboveMa200 := Val false
|}.

End Sample.

Module SampleBars.

(** A day that closes where it opened. *)
Definition flat_day : Bar.t := {|
  Bar.date := "2024-01-02"; Bar.open := 100%float; Bar.high := 101%float;
  Bar.low := 99%float; Bar.close := 100%float; Bar.volume := 1500000%float
|}.

Definition up_day : Bar.t := {|
  Bar.date := "2024-01-03"; Bar.open := 100%float; Bar.high := 103%float;
  Bar.low := 99.5%float; Bar.close := 102%float; Bar.volume := 2000000%float
|}.

End SampleBars.

Module SamplePage.

Definition overview : Overview.t := {|
  Overview.analysisDate := Val "2024-06-28";
  Overview.totalStocks := Val 2%float;
  Overview.avgYtdReturn := Val 0.05%float;
  Overview.medianYtdReturn := Val 0.05%float;
  Overview.bullishCount := Val 1%float;
  Overview.bearishCount := Val 1%float;
  Overview.aboveMa50Count := Val 1%float;
  Overview.aboveMa200Count := Val 1%float
|}.

Definition summary : Summary.t := {|
  Summary.marketOverview := Val overview;
  Summary.sectorStats := Val [
    ("Tech", {| SectorStat.count := Val 1%float;
                SectorStat.avgYtdReturn := 0.20%float;
                SectorStat.bestPerformer := Val (BestSymbol "AAA") |});
    ("Health", {| SectorStat.count := Val 1%float;
                  SectorStat.avgYtdReturn := (-0.10)%float;
                  SectorStat.bestPerformer := Val (BestObject (Val "BBB")) |}) ];
  Summary.rankings := Val {|
    Rankings.topGainers := Val [ {| Ranked.symbol := "AAA"; Ranked.ytdReturn := 0.20%float |} ];
    Rankings.topLosers := Val [ {| Ranked.symbol := "BBB"; Ranked.ytdReturn := (-0.10)%float |} ] |};
  Summary.stocks := Val [Sample.AAA; Sample.BBB]
|}.

(** The detail document of AAA: two days of prices, no indicators. *)
Definition AAA_detail : Detail.t := {|
  Detail.symbol := "AAA"; Detail.name := Val "Triple A"; Detail.sector := Val "Tech";
  Detail.priceHistory := Val [SampleBars.flat_day; SampleBars.up_day];
  Detail.indicators := Undefined;
  Detail.metrics := Val {|
    Metrics.currentPrice := Val 102%float; Metrics.lastChange := Val 0.02%float;
    Metrics.ytdReturn := Val 0.20%float; Metrics.ytdStartPrice := Val 85%float;
    Metrics.maxDrawdown := Val (-0.08)%float; Metrics.volatility := Val 0.25%float;
    Metrics.avgVolume := Val 1750000%float; Metrics.high52w := Val 103%float;
    Metrics.low52w := Val 80%float |};
  Detail.technicals := Val {|
    Technicals.rsi := Val 55%float; Technicals.macdSignal := Val "bullish";
    Technicals.aboveMa50 := Val true; Technicals.aboveMa200 := Val true |};
  Detail.marketCap := Val 2.5e12%float
|}.

(** A page whose document has none of the expected elements. *)
Definition blank : World := {|
  document := ∅; body := None; title := "";
  mountInstance := ∅; idBase := 0; instances := ∅; disposed := [];
  resizeListeners := []; frames := [];
  stockFile := fun symbol => if String.eqb symbol "AAA" then Some AAA_detail else None;
  summaryFile := Some summary;
  allStocks := []; summaryData := Null; sparklineCharts := []
|}.

Definition control (v : string) : Element.t :=
{| Element.value := v; Element.innerHTML := Static |}.

(** The dashboard page as its file declares it, the summary loaded and the
    detail document of BBB missing. *)
Definition dashboard : World := {|
  document := list_to_map [
    ("overview-cards", control ""); ("sector-heatmap", control "");
    ("stock-table-body", control ""); ("top-gainers", control "");
    ("top-losers", control ""); ("search-input", control "");
    ("sector-filter", control ""); ("signal-filter", control "");
    ("sort-by", control "ytdReturn-desc") ];
  body := None; title := "";
  mountInstance := ∅; idBase := 0; instances := ∅; disposed := [];
  resizeListeners := []; frames := [];
  stockFile := stockFile blank;
  summaryFile := Some summary;
  allStocks := [AAA_detail]; summaryData := Val summary; sparklineCharts := []
|}.

End SamplePage.

Module SampleDetail.

(** A detail document with indicators, the Bollinger bands left out. *)
Definition BBB_detail : Detail.t := {|
  Detail.symbol := "BBB"; Detail.name := Val "Triple B"; Detail.sector := Val "Health";
  Detail.priceHistory := Val [SampleBars.flat_day; SampleBars.up_day];
  Detail.indicators := Val {|
    Indicators.dates := Val ["2024-01-02"; "2024-01-03"];
    Indicators.ma5 := Val [Null; Val 101%float];
    Indicators.ma10 := Undefined;
    Indicators.ma20 := Undefined;
    Indicators.ma50 := Undefined;
    Indicators.ma200 := Undefined;
    Indicators.rsi := Val [Null; Val 55%float];
    Indicators.macd := Val {| Macd.macd := [Null; Val 0.5%float];
                              Macd.signal := [Null; Val 0.4%float];
                              Macd.histogram := [Null; Val 0.1%float] |};
    Indicators.bollinger := Undefined |};
  Detail.metrics := Detail.metrics SamplePage.AAA_detail;
  Detail.technicals := Detail.technicals SamplePage.AAA_detail;
  Detail.marketCap := Val 3.1e9%float
|}.

(** The detail page as its file declares it. *)
Definition page : World := {|
  document := list_to_map [
    ("stock-title", SamplePage.control ""); ("stock-sector", SamplePage.control "");
    ("metric-cards", SamplePage.control ""); ("candlestick-chart", SamplePage.control "");
    ("rsi-chart", SamplePage.control ""); ("macd-chart", SamplePage.control "");
    ("bollinger-chart", SamplePage.control ""); ("key-stats", SamplePage.control "") ];
  body := None; title := "";
  mountInstance := ∅; idBase := 0; instances := ∅; disposed := [];
  resizeListeners := []; frames := [];
  stockFile := fun symbol =>
    if String.eqb symbol "AAA" then Some SamplePage.AAA_detail
    else if String.eqb symbol "BBB" then Some BBB_detail
    else None;
  summaryFile := None;
  allStocks := []; summaryData := Null; sparklineCharts := []
|}.

End SampleDetail.

Module SampleIndex.

(** The dashboard page as its file declares it, before [init] has run;
    [file] is what the fetch of the summary gives. *)
Definition page (file : option Summary.t) : World := {|
  document := list_to_map [
    ("analysis-date", SamplePage.control ""); ("stock-count", SamplePage.control "");
    ("overview-cards", SamplePage.control ""); ("sector-heatmap", SamplePage.control "");
    ("stock-table-body", SamplePage.control ""); ("top-gainers", SamplePage.control "");
    ("top-losers", SamplePage.control ""); ("search-input", SamplePage.control "");
    ("sector-filter", SamplePage.control ""); ("signal-filter", SamplePage.control "");
    ("sort-by", SamplePage.control "ytdReturn-desc") ];
  body := None; title := "";
  mountInstance := ∅; idBase := 0; instances := ∅; disposed := [];
  resizeListeners := []; frames := [];
  stockFile := stockFile SamplePage.blank;
  summaryFile := file;
  allStocks := []; summaryData := Null; sparklineCharts := []
|}.

Definition start (file : option Summary.t) : DashboardPage.t := {|
  DashboardPage.world := page file;
  DashboardPage.sectorOptions := [];
  DashboardPage.listeners := []
|}.

(** A summary without its stock list, and one without its market overview. *)
Definition no_stocks : Summary.t := {|
  Summary.marketOverview := Summary.marketOverview SamplePage.summary;
  Summary.sectorStats := Summary.sectorStats SamplePage.summary;
  Summary.rankings := Summary.rankings SamplePage.summary;
  Summary.stocks := Undefined
|}.

Definition no_overview : Summary.t := {|
  Summary.marketOverview := Undefined;
  Summary.sectorStats := Summary.sectorStats SamplePage.summary;
  Summary.rankings := Summary.rankings SamplePage.summary;
  Summary.stocks := Summary.stocks SamplePage.summary
|}.

(** A summary loaded on a page without any element. *)
Definition loaded_blank : World :=
set_globals [] (Val SamplePage.summary) SamplePage.blank.

(** The dashboard once the table is written and before the paint. *)
Definition table_written : World :=
snd (@renderStockTable Sample.engine [Sample.AAA; Sample.BBB]
       [SamplePage.AAA_detail] SamplePage.dashboard).

(** The sector statistics of the sample summary. *)
Definition sectors : list (string * SectorStat.t) :=
match Summary.sectorStats SamplePage.summary with
| Val sectorStats => sectorStats
| _ => []
end.

(** A performer whose return is zero. *)
Definition flat : Ranked.t := {| Ranked.symbol := "AAA"; Ranked.ytdReturn := 0%float |}.

End SampleIndex.

Module SampleDocuments.

(** The parts of the sample documents. *)
Definition metrics : Metrics.t := {|
  Metrics.currentPrice := Val 102%float; Metrics.lastChange := Val 0.02%float;
  Metrics.ytdReturn := Val 0.20%float; Metrics.ytdStartPrice := Val 85%float;
  Metrics.maxDrawdown := Val (-0.08)%float; Metrics.volatility := Val 0.25%float;
  Metrics.avgVolume := Val 1750000%float; Metrics.high52w := Val 103%float;
  Metrics.low52w := Val 80%float |}.

Definition technicals : Technicals.t := {|
  Technicals.rsi := Val 55%float; Technicals.macdSignal := Val "bullish";
  Technicals.aboveMa50 := Val true; Technicals.aboveMa200 := Val true |}.

Definition BBB_indicators : Indicators.t := {|
  Indicators.dates := Val ["2024-01-02"; "2024-01-03"];
  Indicators.ma5 := Val [Null; Val 101%float];
  Indicators.ma10 := Undefined;
  Indicators.ma20 := Undefined;
  Indicators.ma50 := Undefined;
  Indicators.ma200 := Undefined;
  Indicators.rsi := Val [Null; Val 55%float];
  Indicators.macd := Val {| Macd.macd := [Null; Val 0.5%float];
                            Macd.signal := [Null; Val 0.4%float];
                            Macd.histogram := [Null; Val 0.1%float] |};
  Indicators.bollinger := Undefined |}.

(** A detail document without a price history. *)
Definition CCC_detail : Detail.t := {|
  Detail.symbol := "CCC"; Detail.name := Val "Triple C"; Detail.sector := Val "Energy";
  Detail.priceHistory := Undefined;
  Detail.indicators := Val BBB_indicators;
  Detail.metrics := Val metrics;
  Detail.technicals := Val technicals;
  Detail.marketCap := Undefined
|}.

(** The series of a complete document. *)
Definition macd : Macd.t := {|
  Macd.macd := [Null; Val 0.5%float];
  Macd.signal := [Null; Val 0.4%float];
  Macd.histogram := [Null; Val 0.1%float] |}.

Definition bands : Bollinger.t := {|
  Bollinger.upper := [Null; Val 104%float];
  Bollinger.middle := [Null; Val 101%float];
  Bollinger.lower := [Null; Val 98%float] |}.

Definition full_indicators : Indicators.t := {|
  Indicators.dates := Undefined;
  Indicators.ma5 := Val [Null; Val 101%float];
  Indicators.ma10 := Val [Null; Val 101%float];
  Indicators.ma20 := Undefined;
  Indicators.ma50 := Val [Null; Null];
  Indicators.ma200 := Undefined;
  Indicators.rsi := Val [Null; Val 55%float];
  Indicators.macd := Val macd;
  Indicators.bollinger := Val bands |}.

(** A detail document with every part. *)
Definition DDD_detail : Detail.t := {|
  Detail.symbol := "DDD"; Detail.name := Val "Triple D"; Detail.sector := Val "Energy";
  Detail.priceHistory := Val [SampleBars.flat_day; SampleBars.up_day];
  Detail.indicators := Val full_indicators;
  Detail.metrics := Val metrics;
  Detail.technicals := Val technicals;
  Detail.marketCap := Val 3.1e9%float
|}.

(** The detail page, with the documents of CCC and DDD among its files. *)
Definition page : World := {|
  document := document SampleDetail.page;
  body := None; title := "";
  mountInstance := ∅; idBase := 0; instances := ∅; disposed := [];
  resizeListeners := []; frames := [];
  stockFile := fun symbol =>
    if String.eqb symbol "CCC" then Some CCC_detail
    else if String.eqb symbol "DDD" then Some DDD_detail
    else stockFile SampleDetail.page symbol;
  summaryFile := None;
  allStocks := []; summaryData := Null; sparklineCharts := []
|}.

End SampleDocuments.

(** * Properties *)

(** ** Array.prototype.sort *)

Module ArrayFacts.
Import Array.

Section Insert.
Context {A : Type} (comparefn : A -> A -> Z).

Lemma insert_Permutation (x : A) (l : list A) :
  Permutation (insert comparefn x l) (x :: l).
Proof.
  induction l as [|y l IH]; simpl.
  - apply Permutation_refl.
  - destruct (comparefn x y <? 0)%Z.
    + apply Permutation_refl.
    + apply Permutation_trans with (y :: x :: l).
      * apply perm_skip, IH.
      * apply perm_swap.
Qed.

Lemma fold_insert_Permutation (l acc : list A) :
  Permutation (fold_left (fun a x => insert comparefn x a) l acc) (l ++ acc).
Proof.
  revert acc. induction l as [|x l IH]; intros acc; simpl.
  - apply Permutation_refl.
  - apply Permutation_trans with (l ++ insert comparefn x acc).
    + apply IH.
    + apply Permutation_trans with (l ++ x :: acc).
      * apply Permutation_app_head, insert_Permutation.
      * apply Permutation_sym, Permutation_middle.
Qed.

Lemma sort_Permutation (l : list A) : Permutation (sort comparefn l) l.
Proof.
  unfold sort.
  apply Permutation_trans with (l ++ []).
  - apply fold_insert_Permutation.
  - rewrite app_nil_r. apply Permutation_refl.
Qed.

Lemma sort_In (l : list A) (x : A) : In x (sort comparefn l) <-> In x l.
Proof.
  split; apply Permutation_in.
  - apply sort_Permutation.
  - apply Permutation_sym, sort_Permutation.
Qed.

Lemma sort_length (l : list A) : List.length (sort comparefn l) = List.length l.
Proof. apply Permutation_length, sort_Permutation. Qed.

End Insert.
End ArrayFacts.

(** ** Substrings *)

Module StringFacts.
Import JsString.

Lemma prefix_iff (p s : string) :
  String.prefix p s = true <-> exists post, s = p +:+ post.
Proof.
  revert s. induction p as [|c p IH]; intros s; simpl.
  - split; [intros _; exists s; reflexivity | intros _; destruct s; reflexivity].
  - destruct s as [|d s].
    + split; [discriminate | intros [post Hp]; discriminate].
    + simpl. destruct (Ascii.ascii_dec c d) as [->|Hne].
      * rewrite IH. split; intros [post Hp]; exists post.
        -- simpl. now rewrite Hp.
        -- simpl in Hp. now inversion Hp.
      * split; [discriminate | intros [post Hp]; inversion Hp; congruence].
Qed.

(** [hay.includes(needle)] holds exactly when [needle] occurs in [hay]. *)
Lemma includes_iff (hay needle : string) :
  includes hay needle = true <-> exists pre post, hay = pre +:+ needle +:+ post.
Proof.
  induction hay as [|c hay IH].
  - unfold includes. rewrite orb_false_r, prefix_iff. split.
    + intros [post Hp]. exists "", post. exact Hp.
    + intros [pre [post Hp]]. destruct pre; [exists post; exact Hp | discriminate].
  - change (includes (String c hay) needle)
      with (String.prefix needle (String c hay) || includes hay needle).
    rewrite orb_true_iff, prefix_iff, IH. split.
    + intros [[post Hp] | [pre [post Hp]]].
      * exists "", post. exact Hp.
      * exists (String c pre), post. rewrite Hp. reflexivity.
    + intros [pre [post Hp]]. destruct pre as [|d pre].
      * left. exists post. exact Hp.
      * right. inversion Hp. exists pre, post. reflexivity.
Qed.

Lemma toLowerCase_empty (s : string) : toLowerCase s = "" <-> s = "".
Proof. destruct s; simpl; split; congruence. Qed.

Lemma empty_decomposition (pre mid post : string) :
  "" = pre +:+ mid +:+ post -> mid = "".
Proof.
  destruct pre; [|discriminate].
  destruct mid; [reflexivity|discriminate].
Qed.

End StringFacts.

(** ** Filtering *)

Section FilterSpec.
Context `{Engine}.

Lemma truthy_str_false (s : string) : truthy_str s = false <-> s = "".
Proof.
  unfold truthy_str. rewrite negb_false_iff. apply String.eqb_eq.
Qed.

Lemma truthy_str_true (s : string) : truthy_str s = true <-> s <> "".
Proof.
  unfold truthy_str. rewrite negb_true_iff. apply String.eqb_neq.
Qed.

Lemma strict_eq_str_iff (v : nullable string) (c : string) :
  strict_eq_str v c = true <-> v = Val c.
Proof.
  destruct v as [| |s]; simpl; try (split; [discriminate | congruence]).
  rewrite String.eqb_eq. split; congruence.
Qed.

Lemma matches_search_iff (text : string) (r : Stock) :
  text <> "" ->
  (matches_search (JsString.toLowerCase text) r = true <->
   ci_substring text (symbol r) \/
   exists n, name r = Val n /\ ci_substring text n).
Proof.
  intros Hne. unfold matches_search, ci_substring.
  rewrite orb_true_iff, !StringFacts.includes_iff.
  apply or_iff_compat_l. split.
  - intros [pre [post Hp]]. unfold str_or in Hp.
    destruct (name r) as [| |n] eqn:En.
    + apply StringFacts.empty_decomposition in Hp.
      apply (proj1 (StringFacts.toLowerCase_empty text)) in Hp. contradiction.
    + apply StringFacts.empty_decomposition in Hp.
      apply (proj1 (StringFacts.toLowerCase_empty text)) in Hp. contradiction.
    + destruct (String.eqb n "") eqn:E0.
      * apply String.eqb_eq in E0. subst n.
        exists "". split; [reflexivity|]. exists pre, post. exact Hp.
      * exists n. split; [reflexivity|]. exists pre, post. exact Hp.
  - intros [n [En [pre [post Hp]]]]. rewrite En. unfold str_or.
    destruct (String.eqb n "") eqn:E0.
    + apply String.eqb_eq in E0. subst n. exists pre, post. exact Hp.
    + exists pre, post. exact Hp.
Qed.

(** C1. A record of the stock list is among the rows that [applyFilters]
    hands to the table exactly when it passes the case-insensitive search
    test on symbol or name, the sector test and the signal test, an empty
    criterion passing every record. *)
Theorem filtered_conjunctive
    (stocks : list Stock) (searchText sectorSel signalSel sortBy : string)
    (r : Stock) :
  In r stocks ->
  (In r (filtered stocks searchText sectorSel signalSel sortBy) <->
   passes_search searchText r /\ passes_sector sectorSel r /\
   passes_signal signalSel r).
Proof.
  intros Hin. unfold filtered. rewrite ArrayFacts.sort_In.
  assert (Hsearch :
    In r (if truthy_str (JsString.toLowerCase searchText)
          then List.filter (matches_search (JsString.toLowerCase searchText)) stocks
          else stocks) <-> passes_search searchText r).
  { unfold passes_search.
    destruct (truthy_str (JsString.toLowerCase searchText)) eqn:Et.
    - apply truthy_str_true in Et.
      assert (Hne : searchText <> "")
        by (intros ->; apply Et; reflexivity).
      rewrite filter_In, (matches_search_iff _ _ Hne). tauto.
    - apply truthy_str_false in Et.
      apply (proj1 (StringFacts.toLowerCase_empty searchText)) in Et. tauto. }
  set (f1 := if truthy_str (JsString.toLowerCase searchText) then _ else _) in *.
  assert (Hsector :
    In r (if truthy_str sectorSel
          then List.filter (fun s => strict_eq_str (sector s) sectorSel) f1
          else f1) <-> passes_search searchText r /\ passes_sector sectorSel r).
  { unfold passes_sector. destruct (truthy_str sectorSel) eqn:Et.
    - apply truthy_str_true in Et.
      rewrite filter_In, strict_eq_str_iff, Hsearch. tauto.
    - apply truthy_str_false in Et. rewrite Hsearch. tauto. }
  set (f2 := if truthy_str sectorSel then _ else _) in *.
  unfold passes_signal. destruct (truthy_str signalSel) eqn:Et.
  - apply truthy_str_true in Et.
    rewrite filter_In, strict_eq_str_iff, Hsector. tauto.
  - apply truthy_str_false in Et. rewrite Hsector. tauto.
Qed.

End FilterSpec.

(** ** The order of binary64 values *)

Module FloatOrderFacts.
Import FloatOrder.

Lemma SFcompare_rank (x y : spec_float) :
  x <> S754_nan -> y <> S754_nan ->
  match SFcompare x y with
  | Some Lt => lt3 (rank x) (rank y)
  | Some Eq => rank x = rank y
  | Some Gt => lt3 (rank y) (rank x)
  | None => False
  end.
Proof.
  intros Hx Hy.
  destruct x as [sx|sx| |sx mx ex], y as [sy|sy| |sy my ey];
    try congruence; unfold lt3, rank, SFcompare;
    try reflexivity;
    try (destruct sx; simpl; lia); try (destruct sy; simpl; lia);
    try (destruct sx, sy; simpl; first [reflexivity | lia]).
  change (PosDef.Pos.compare_cont Eq mx my) with (Pos.compare mx my).
  destruct sx, sy; try lia.
  - destruct (Z.compare_spec ex ey); simpl; try lia.
    destruct (Pos.compare_spec mx my); simpl; subst; try lia. reflexivity.
  - destruct (Z.compare_spec ex ey); simpl; try lia.
    destruct (Pos.compare_spec mx my); simpl; subst; try lia. reflexivity.
Qed.

Lemma not_nan_spec (x : float) : not_nan x -> Prim2SF x <> S754_nan.
Proof.
  unfold not_nan. intros Hx. unfold Prim2SF. rewrite Hx.
  destruct (is_zero x); [discriminate|].
  destruct (is_infinity x); [discriminate|].
  destruct (Z.frexp x) as [r e].
  destruct (shr_fexp _ _ _ _ _) as [shr e'].
  destruct (shr_m shr); discriminate.
Qed.

Lemma ltb_rank (x y : float) :
  not_nan x -> not_nan y -> ((x <? y)%float = true <-> lt3 (frank x) (frank y)).
Proof.
  intros Hx Hy. rewrite FloatAxioms.ltb_spec. unfold SFltb, frank.
  pose proof (SFcompare_rank _ _ (not_nan_spec _ Hx) (not_nan_spec _ Hy)) as Hc.
  destruct (SFcompare (Prim2SF x) (Prim2SF y)) as [[]|]; try contradiction.
  - rewrite Hc. split; [discriminate|].
    destruct (rank (Prim2SF y)) as [[a b] c]. simpl. lia.
  - tauto.
  - split; [discriminate|].
    destruct (rank (Prim2SF x)) as [[a b] c], (rank (Prim2SF y)) as [[a' b'] c'].
    simpl in *. lia.
Qed.

Lemma leb_rank (x y : float) :
  not_nan x -> not_nan y ->
  ((x <=? y)%float = true <-> ~ lt3 (frank y) (frank x)).
Proof.
  intros Hx Hy. rewrite FloatAxioms.leb_spec. unfold SFleb, frank.
  pose proof (SFcompare_rank _ _ (not_nan_spec _ Hx) (not_nan_spec _ Hy)) as Hc.
  destruct (SFcompare (Prim2SF x) (Prim2SF y)) as [[]|]; try contradiction.
  - rewrite Hc. split; [intros _|reflexivity].
    destruct (rank (Prim2SF y)) as [[a b] c]. simpl. lia.
  - split; [intros _|reflexivity].
    destruct (rank (Prim2SF x)) as [[a b] c], (rank (Prim2SF y)) as [[a' b'] c'].
    simpl in *. lia.
  - split; [discriminate|]. intros Hn. contradiction.
Qed.

Lemma eqb_rank (x y : float) :
  not_nan x -> not_nan y ->
  ((x =? y)%float = true <-> frank x = frank y).
Proof.
  intros Hx Hy. rewrite FloatAxioms.eqb_spec. unfold SFeqb, frank.
  pose proof (SFcompare_rank _ _ (not_nan_spec _ Hx) (not_nan_spec _ Hy)) as Hc.
  destruct (SFcompare (Prim2SF x) (Prim2SF y)) as [[]|]; try contradiction.
  - tauto.
  - split; [discriminate|]. intros He. rewrite He in Hc.
    destruct (rank (Prim2SF y)) as [[a b] c]. simpl in Hc. lia.
  - split; [discriminate|]. intros He. rewrite He in Hc.
    destruct (rank (Prim2SF y)) as [[a b] c]. simpl in Hc. lia.
Qed.

Lemma SFeqb_SFleb (a b : spec_float) : SFeqb a b = true -> SFleb b a = true.
Proof.
  unfold SFeqb, SFleb. intros Hab.
  destruct (SFcompare a b) as [[]|] eqn:E; try discriminate.
  assert (Na : a <> S754_nan) by (intros ->; simpl in E; discriminate).
  assert (Nb : b <> S754_nan) by (intros ->; destruct a; simpl in E; discriminate).
  pose proof (SFcompare_rank a b Na Nb) as H1. rewrite E in H1.
  pose proof (SFcompare_rank b a Nb Na) as H2.
  destruct (SFcompare b a) as [[]|]; try reflexivity; try contradiction.
  rewrite H1 in H2. destruct (rank b) as [[x y] z]. unfold lt3 in H2. lia.
Qed.

(** [x == y] entails [y <= x] (neither is NaN then). *)
Lemma eqb_leb (x y : float) :
  (x =? y)%float = true -> (y <=? x)%float = true.
Proof.
  rewrite FloatAxioms.eqb_spec, FloatAxioms.leb_spec. apply SFeqb_SFleb.
Qed.

Lemma finite_not_nan (x : float) : finite x -> not_nan x.
Proof.
  unfold finite, not_nan, is_finite. intros Hf.
  apply negb_true_iff, orb_false_iff in Hf. tauto.
Qed.

(** A finite value lies strictly between the two infinities. *)
Lemma finite_rank (x : float) :
  finite x -> lt3 (-2, 0, 0) (frank x) /\ lt3 (frank x) (2, 0, 0).
Proof.
  unfold finite, is_finite. intros Hf.
  apply negb_true_iff, orb_false_iff in Hf. destruct Hf as [Hn Hi].
  unfold frank, Prim2SF. rewrite Hn.
  destruct (is_zero x); [simpl; lia|]. rewrite Hi.
  destruct (Z.frexp x) as [r e].
  destruct (shr_fexp _ _ _ _ _) as [shr e'].
  destruct (shr_m shr); [simpl; lia| |simpl; lia].
  destruct (get_sign x); simpl; lia.
Qed.

Lemma lt3_trans_neg (p q r : Z * Z * Z) :
  ~ lt3 p q -> ~ lt3 q r -> ~ lt3 p r.
Proof.
  destruct p as [[a b] c], q as [[a' b'] c'], r as [[a'' b''] c''].
  unfold lt3. lia.
Qed.

Lemma frank_infinity : frank infinity = (2, 0, 0).
Proof. vm_compute. reflexivity. Qed.

Lemma frank_neg_infinity : frank neg_infinity = (-2, 0, 0).
Proof. vm_compute. reflexivity. Qed.

Lemma frank_zero : frank 0 = (0, 0, 0).
Proof. vm_compute. reflexivity. Qed.

Lemma frank_one : frank 1 = (1, -52, 4503599627370496).
Proof. vm_compute. reflexivity. Qed.

Lemma lt3_asym (p q : Z * Z * Z) : lt3 p q -> ~ lt3 q p.
Proof.
  destruct p as [[a b] c], q as [[a' b'] c']. unfold lt3. lia.
Qed.

End FloatOrderFacts.

(** ** Sorting with a comparator that orders its arguments *)

Module SortedFacts.
Import Array.

Section Sorted.
Context {A : Type} (comparefn : A -> A -> Z).
Context (P : A -> Prop) (le : A -> A -> Prop).
Hypothesis le_trans :
  forall x y z, P x -> P y -> P z -> le x y -> le y z -> le x z.
Hypothesis before_le :
  forall x y, P x -> P y -> (comparefn x y <? 0)%Z = true -> le x y.
Hypothesis after_le :
  forall x y, P x -> P y -> (comparefn x y <? 0)%Z = false -> le y x.

Lemma insert_Forall (Q : A -> Prop) (x : A) (l : list A) :
  Q x -> Forall Q l -> Forall Q (insert comparefn x l).
Proof.
  intros Hx Hl. apply List.Forall_forall. intros z Hz.
  apply (Permutation_in _ (ArrayFacts.insert_Permutation comparefn x l)) in Hz.
  destruct Hz as [<-|Hz]; [exact Hx|].
  rewrite List.Forall_forall in Hl. now apply Hl.
Qed.

Lemma insert_sorted (x : A) (l : list A) :
  P x -> Forall P l -> StronglySorted le l ->
  StronglySorted le (insert comparefn x l).
Proof.
  intros Px. induction l as [|y l IH]; intros Pl Hs; simpl.
  - constructor; constructor.
  - inversion Pl as [|? ? Py Pl']; subst.
    inversion Hs as [|? ? Hs' Hy]; subst.
    destruct (comparefn x y <? 0)%Z eqn:Ec.
    + constructor; [exact Hs|].
      constructor; [now apply before_le|].
      rewrite List.Forall_forall in *. intros z Hz.
      apply le_trans with y;
        [exact Px | exact Py | now apply Pl' | now apply before_le | now apply Hy].
    + constructor; [now apply IH|].
      apply insert_Forall; [now apply after_le | exact Hy].
Qed.

Lemma fold_insert_sorted (l acc : list A) :
  Forall P l -> Forall P acc -> StronglySorted le acc ->
  StronglySorted le (fold_left (fun a x => insert comparefn x a) l acc).
Proof.
  revert acc. induction l as [|x l IH]; intros acc Pl Pacc Hs; simpl.
  - exact Hs.
  - inversion Pl as [|? ? Px Pl']; subst. apply IH; [exact Pl'| |].
    + now apply insert_Forall.
    + now apply insert_sorted.
Qed.

Lemma sort_sorted (l : list A) :
  Forall P l -> StronglySorted le (sort comparefn l).
Proof.
  intros Pl. apply fold_insert_sorted; [exact Pl|constructor|constructor].
Qed.

End Sorted.

(** In a strongly sorted list the earlier of two positions holds the
    smaller element. *)
Lemma StronglySorted_lookup {A} (le : A -> A -> Prop) (l : list A) :
  StronglySorted le l ->
  forall (i j : nat) (a b : A),
    (i < j)%nat -> l !! i = Some a -> l !! j = Some b -> le a b.
Proof.
  induction 1 as [|x l Hs IH Hx]; intros i j a b Hij Ha Hb.
  - discriminate.
  - destruct j as [|j]; [lia|]. simpl in Hb.
    destruct i as [|i]; simpl in Ha.
    + injection Ha as <-. rewrite List.Forall_forall in Hx. apply Hx.
      apply list_elem_of_In. eapply list_elem_of_lookup_2. exact Hb.
    + apply (IH i j); [lia|exact Ha|exact Hb].
Qed.

End SortedFacts.

(** ** The comparator of applyFilters on numeric keys *)

Section ComparatorFacts.
Context `{Engine}.
Import FloatOrder.

Lemma sort_number_not_nan (field : string) (dir : nullable string) (s : Stock) :
  numeric_or_missing (get s field) -> not_nan (sort_number field dir s).
Proof.
  unfold sort_number, sort_key. destruct (get s field) as [| |x|t|[]]; simpl; intros Hv.
  - destruct (is_asc dir); reflexivity.
  - destruct (is_asc dir); reflexivity.
  - now apply FloatOrderFacts.finite_not_nan.
  - contradiction.
  - reflexivity.
  - reflexivity.
Qed.

Lemma comparator_numeric (field : string) (dir : nullable string) (a b : Stock) :
  numeric_or_missing (get a field) -> numeric_or_missing (get b field) ->
  comparator field dir a b =
  if is_asc dir
  then (if (sort_number field dir b <? sort_number field dir a)%float then 1 else -1)
  else (if (sort_number field dir a <? sort_number field dir b)%float then 1 else -1).
Proof.
  unfold comparator, js_gt, js_lt, sort_number, sort_key.
  destruct (get a field), (get b field); simpl; try contradiction;
    intros _ _; destruct (is_asc dir); reflexivity.
Qed.

Lemma comparator_before (field : string) (dir : nullable string) (a b : Stock) :
  numeric_or_missing (get a field) -> numeric_or_missing (get b field) ->
  (comparator field dir a b <? 0)%Z = true -> in_order field dir a b.
Proof.
  intros Ha Hb. rewrite (comparator_numeric _ _ _ _ Ha Hb). unfold in_order.
  pose proof (sort_number_not_nan field dir a Ha) as Na.
  pose proof (sort_number_not_nan field dir b Hb) as Nb.
  destruct (is_asc dir).
  - destruct (sort_number field dir b <? sort_number field dir a)%float eqn:E;
      [discriminate|]. intros _ Hlt.
    apply (FloatOrderFacts.ltb_rank _ _ Nb Na) in Hlt. congruence.
  - destruct (sort_number field dir a <? sort_number field dir b)%float eqn:E;
      [discriminate|]. intros _ Hlt.
    apply (FloatOrderFacts.ltb_rank _ _ Na Nb) in Hlt. congruence.
Qed.

Lemma comparator_after (field : string) (dir : nullable string) (a b : Stock) :
  numeric_or_missing (get a field) -> numeric_or_missing (get b field) ->
  (comparator field dir a b <? 0)%Z = false -> in_order field dir b a.
Proof.
  intros Ha Hb. rewrite (comparator_numeric _ _ _ _ Ha Hb). unfold in_order.
  pose proof (sort_number_not_nan field dir a Ha) as Na.
  pose proof (sort_number_not_nan field dir b Hb) as Nb.
  destruct (is_asc dir).
  - destruct (sort_number field dir b <? sort_number field dir a)%float eqn:E;
      [|discriminate]. intros _.
    apply (FloatOrderFacts.ltb_rank _ _ Nb Na) in E.
    now apply FloatOrderFacts.lt3_asym.
  - destruct (sort_number field dir a <? sort_number field dir b)%float eqn:E;
      [|discriminate]. intros _.
    apply (FloatOrderFacts.ltb_rank _ _ Na Nb) in E.
    now apply FloatOrderFacts.lt3_asym.
Qed.

Lemma in_order_trans (field : string) (dir : nullable string) (a b c : Stock) :
  in_order field dir a b -> in_order field dir b c -> in_order field dir a c.
Proof.
  unfold in_order. destruct (is_asc dir); intros Hab Hbc.
  - eapply FloatOrderFacts.lt3_trans_neg; eassumption.
  - eapply FloatOrderFacts.lt3_trans_neg; eassumption.
Qed.

Lemma filter_Forall {A} (Q : A -> Prop) (p : A -> bool) (l : list A) :
  Forall Q l -> Forall Q (List.filter p l).
Proof.
  rewrite !List.Forall_forall. intros Hl x Hx.
  apply filter_In in Hx. now apply Hl.
Qed.

(** On keys that compare as numbers the rows come out in order. *)
Lemma filtered_sorted
    (stocks : list Stock) (searchText sectorSel signalSel sortBy : string) :
  Forall (fun s => numeric_or_missing (get s (sort_field sortBy))) stocks ->
  StronglySorted (in_order (sort_field sortBy) (sort_dir sortBy))
    (filtered stocks searchText sectorSel signalSel sortBy).
Proof.
  intros Hs. unfold filtered.
  apply SortedFacts.sort_sorted
    with (P := fun s => numeric_or_missing (get s (sort_field sortBy))).
  - intros x y z _ _ _. apply in_order_trans.
  - intros x y. apply comparator_before.
  - intros x y. apply comparator_after.
  - destruct (truthy_str signalSel); [apply filter_Forall|];
      (destruct (truthy_str sectorSel); [apply filter_Forall|]);
      (destruct (truthy_str _); [apply filter_Forall|]); exact Hs.
Qed.

(** What the comparator achieves: under a key whose values are JSON
    numbers or booleans, no record with a missing key stands before a
    record that has one, whatever the direction. *)
Lemma numeric_nulls_last
    (stocks : list Stock) (searchText sectorSel signalSel sortBy : string)
    (i j : nat) (a b : Stock) :
  Forall (fun s => numeric_or_missing (get s (sort_field sortBy))) stocks ->
  filtered stocks searchText sectorSel signalSel sortBy !! i = Some a ->
  filtered stocks searchText sectorSel signalSel sortBy !! j = Some b ->
  (i < j)%nat ->
  missing (get a (sort_field sortBy)) -> missing (get b (sort_field sortBy)).
Proof.
  intros Hs Ha Hb Hij Hma.
  pose proof (filtered_sorted stocks searchText sectorSel signalSel sortBy Hs) as Hsorted.
  pose proof (SortedFacts.StronglySorted_lookup _ _ Hsorted i j a b Hij Ha Hb) as Hab.
  assert (Hnb : numeric_or_missing (get b (sort_field sortBy))).
  { rewrite List.Forall_forall in Hs. apply Hs.
    assert (Hin : In b (filtered stocks searchText sectorSel signalSel sortBy))
      by (apply list_elem_of_In; eapply list_elem_of_lookup_2; exact Hb).
    unfold filtered in Hin. apply ArrayFacts.sort_In in Hin.
    destruct (truthy_str signalSel); [apply filter_In in Hin as [Hin _]|];
      (destruct (truthy_str sectorSel); [apply filter_In in Hin as [Hin _]|]);
      (destruct (truthy_str _); [apply filter_In in Hin as [Hin _]|]); exact Hin. }
  unfold in_order, sort_number, sort_key in Hab.
  destruct (get a (sort_field sortBy)) as [| |x|t|c]; try contradiction;
    destruct (get b (sort_field sortBy)) as [| |y|t'|[]]; try exact I;
    try contradiction; exfalso; simpl in Hnb;
    destruct (is_asc (sort_dir sortBy)); simpl in Hab; apply Hab;
    rewrite ?FloatOrderFacts.frank_infinity, ?FloatOrderFacts.frank_neg_infinity,
      ?FloatOrderFacts.frank_zero, ?FloatOrderFacts.frank_one;
    solve [apply (FloatOrderFacts.finite_rank y Hnb) | unfold lt3; lia].
Qed.

End ComparatorFacts.

Section SortSpec.
Context `{Engine}.
Import FloatOrder.

Lemma filtered_incl
    (stocks : list Stock) (searchText sectorSel signalSel sortBy : string)
    (r : Stock) :
  In r (filtered stocks searchText sectorSel signalSel sortBy) -> In r stocks.
Proof.
  unfold filtered. intros Hin. apply ArrayFacts.sort_In in Hin.
  destruct (truthy_str signalSel); [apply filter_In in Hin as [Hin _]|];
    (destruct (truthy_str sectorSel); [apply filter_In in Hin as [Hin _]|]);
    (destruct (truthy_str _); [apply filter_In in Hin as [Hin _]|]); exact Hin.
Qed.

(** C3. When the rows are sorted by ["ytdReturn-desc"] and the list is not
    empty, the first row holds the largest year-to-date return of all the
    rows: every return present in the list is at most the return of the
    first row (returns are JSON numbers). *)
Theorem ytdReturn_desc_first_is_max
    (stocks : list Stock) (searchText sectorSel signalSel : string)
    (h : Stock) (rest : list Stock) :
  Forall (fun s => forall x, ytdReturn s = Val x -> finite x) stocks ->
  filtered stocks searchText sectorSel signalSel "ytdReturn-desc" = h :: rest ->
  forall (r : Stock) (v : float),
    In r (h :: rest) -> ytdReturn r = Val v ->
    exists w, ytdReturn h = Val w /\ (v <=? w)%float = true.
Proof.
  intros Hfin Hout r v Hr Hv.
  assert (Hnum : Forall (fun s => numeric_or_missing
                   (get s (sort_field "ytdReturn-desc"))) stocks).
  { rewrite List.Forall_forall in *. intros s Hs.
    change (get s (sort_field "ytdReturn-desc")) with (of_num (ytdReturn s)).
    specialize (Hfin s Hs). destruct (ytdReturn s); simpl; auto. }
  pose proof (filtered_sorted stocks searchText sectorSel signalSel
                "ytdReturn-desc" Hnum) as Hsorted.
  rewrite Hout in Hsorted.
  assert (Hstocks : forall s, In s (h :: rest) -> In s stocks).
  { intros s Hs. rewrite <- Hout in Hs. eapply filtered_incl; exact Hs. }
  rewrite List.Forall_forall in Hfin.
  assert (Fv : finite v) by (apply (Hfin r); auto).
  assert (Hhr : in_order (sort_field "ytdReturn-desc")
                  (sort_dir "ytdReturn-desc") h r).
  { destruct Hr as [<-|Hr].
    - unfold in_order.
      destruct (is_asc _); destruct (frank _) as [[a b] c]; unfold lt3; lia.
    - inversion Hsorted as [|? ? _ Hall]; subst.
      rewrite List.Forall_forall in Hall. now apply Hall. }
  unfold in_order, sort_number in Hhr.
  change (get h (sort_field "ytdReturn-desc")) with (of_num (ytdReturn h)) in Hhr.
  change (get r (sort_field "ytdReturn-desc")) with (of_num (ytdReturn r)) in Hhr.
  change (is_asc (sort_dir "ytdReturn-desc")) with false in Hhr.
  rewrite Hv in Hhr.
  destruct (ytdReturn h) as [| |w] eqn:Eh; simpl in Hhr.
  - exfalso. apply Hhr. exact (proj1 (FloatOrderFacts.finite_rank v Fv)).
  - exfalso. apply Hhr. exact (proj1 (FloatOrderFacts.finite_rank v Fv)).
  - exists w. split; [reflexivity|].
    apply FloatOrderFacts.leb_rank; [| |exact Hhr].
    + now apply FloatOrderFacts.finite_not_nan.
    + apply FloatOrderFacts.finite_not_nan, (Hfin h); [|exact Eh].
      apply Hstocks. now left.
Qed.

End SortSpec.

(** The specification's end-to-end scenario. *)
Example end_to_end_scenario `{Engine} :
  filtered [Sample.AAA; Sample.BBB] "" "Tech" "" "ytdReturn-desc" = [Sample.AAA].
Proof. vm_compute. reflexivity. Qed.

Lemma filtered_conjunctive_witness :
  In Sample.AAA [Sample.AAA; Sample.BBB] /\
  (In Sample.AAA
     (@filtered Sample.engine [Sample.AAA; Sample.BBB] "" "Tech" "" "ytdReturn-desc") <->
   passes_search "" Sample.AAA /\ passes_sector "Tech" Sample.AAA /\
   passes_signal "" Sample.AAA).
Proof.
  split.
  - left. reflexivity.
  - apply (@filtered_conjunctive Sample.engine). left. reflexivity.
Defined.

Lemma ytdReturn_desc_first_is_max_witness :
  Forall (fun s => forall x, ytdReturn s = Val x -> FloatOrder.finite x)
    [Sample.BBB; Sample.AAA] /\
  @filtered Sample.engine [Sample.BBB; Sample.AAA] "" "" "" "ytdReturn-desc"
    = Sample.AAA :: [Sample.BBB] /\
  forall (r : Stock) (v : float),
    In r (Sample.AAA :: [Sample.BBB]) -> ytdReturn r = Val v ->
    exists w, ytdReturn Sample.AAA = Val w /\ (v <=? w)%float = true.
Proof.
  assert (Hfin : Forall (fun s => forall x, ytdReturn s = Val x -> FloatOrder.finite x)
                   [Sample.BBB; Sample.AAA]).
  { repeat constructor; intros x Hx; injection Hx as <-; vm_compute; reflexivity. }
  assert (Hout : @filtered Sample.engine [Sample.BBB; Sample.AAA] "" "" ""
                   "ytdReturn-desc" = Sample.AAA :: [Sample.BBB]).
  { vm_compute. reflexivity. }
  split; [exact Hfin|]. split; [exact Hout|].
  exact (@ytdReturn_desc_first_is_max Sample.engine
           [Sample.BBB; Sample.AAA] "" "" "" Sample.AAA [Sample.BBB] Hfin Hout).
Defined.

(** ** Sorting by a string key with missing values *)

Section StringKeys.
Context `{Engine}.

(** A string that is no numeric literal and a missing key: the comparator
    answers [-1] whichever comes first, so it cannot tell the sort which of
    the two belongs last. *)
Lemma comparator_string_vs_missing
    (field : string) (dir : nullable string) (a b : Stock) (s : string) :
  get a field = VStr s ->
  JsString.all_units JsString.numeric_unit (JsString.toLowerCase s) = false ->
  missing (get b field) ->
  comparator field dir a b = -1 /\ comparator field dir b a = -1.
Proof.
  intros Ha Hs Hb. unfold comparator, js_gt, js_lt, sort_key. rewrite Ha.
  destruct (get b field); try contradiction;
    destruct (is_asc dir); simpl;
    unfold JsString.StringToNumber; rewrite Hs; split; reflexivity.
Qed.

(** C2. Sorting the rows Apple, (no name) by ["name-asc"] puts the record
    without a name first: a missing key is not placed after the present
    ones when the key is a string. *)
Theorem name_asc_missing_first :
  filtered [Sample.AAPL; Sample.XYZ] "" "" "" "name-asc"
  = [Sample.XYZ; Sample.AAPL].
Proof. vm_compute. reflexivity. Qed.

(** The same under the descending direction. *)
Example name_desc_missing_first :
  filtered [Sample.AAPL; Sample.XYZ] "" "" "" "name-desc"
  = [Sample.XYZ; Sample.AAPL].
Proof. vm_compute. reflexivity. Qed.

(** With the two records in the other order the missing name comes last:
    the outcome follows the order of the input, not the keys. *)
Example name_asc_missing_last :
  filtered [Sample.XYZ; Sample.AAPL] "" "" "" "name-asc"
  = [Sample.AAPL; Sample.XYZ].
Proof. vm_compute. reflexivity. Qed.

End StringKeys.

(** ** Formatting *)

Section FormatSpec.
Context `{Engine}.

(** [toFixed] rounds the exact value of the double, half up on the
    magnitude: well-known cases. *)
Example toFixed_examples :
  Number.toFixed 1.005%float 2 = "1.00" /\
  Number.toFixed 1.45%float 1 = "1.4" /\
  Number.toFixed 99.95%float 1 = "100.0" /\
  Number.toFixed (-1.5)%float 0 = "-2" /\
  Number.toFixed (-0.001)%float 2 = "-0.00" /\
  Number.toFixed 1e20%float 2 = "100000000000000000000.00".
Proof. repeat split; vm_compute; reflexivity. Qed.

(** C7. The four formatting examples of the specification. *)
Theorem formatting_examples :
  formatPercent (Val 0.1234%float) = "+12.34%" /\
  formatPercent (Val (-0.05)%float) = "-5.00%" /\
  formatMarketCap (Val 2.5e12%float) = "$2.50T" /\
  formatVolume (Val 1500000%float) = "1.50M".
Proof. repeat split; vm_compute; reflexivity. Qed.

(** C9. On [null] and on [undefined] the four number formatters give ["-"],
    [rsiLabel] gives ["N/A"], and [rsiColor] and [colorForValue] give the
    neutral text colour; every formatter is a total function, so none
    throws. *)
Theorem formatters_on_missing (v : nullable float) (decimals : nat) :
  is_nullish v = true ->
  formatNumber v decimals = "-" /\
  formatPercent v = "-" /\
  formatMarketCap v = "-" /\
  formatVolume v = "-" /\
  rsiLabel v = "N/A" /\
  rsiColor v = COLORS.text /\
  colorForValue v = COLORS.text.
Proof.
  destruct v as [| |x]; simpl; intros Hv; try discriminate;
    repeat split; reflexivity.
Qed.

(** C10. Zero counts as a gain: [formatPercent(0)] carries the plus sign,
    [colorForValue(0)] is the gain colour, and the volume bar of a day whose
    close equals its open has the up colour. *)
Theorem zero_is_gain :
  formatPercent (Val 0%float) = "+0.00%" /\
  colorForValue (Val 0%float) = COLORS.gain /\
  forall d : Bar.t,
    (Bar.close d =? Bar.open d)%float = true ->
    snd (volume_bar d) = COLORS.volumeUp.
Proof.
  split; [vm_compute; reflexivity|].
  split; [vm_compute; reflexivity|].
  intros d Heq. unfold volume_bar. simpl.
  now rewrite (FloatOrderFacts.eqb_leb _ _ Heq).
Qed.

End FormatSpec.

Lemma formatters_on_missing_witness :
  is_nullish (@Null float) = true /\
  @formatNumber Sample.engine Null 2 = "-" /\
  @formatPercent Sample.engine Null = "-" /\
  @formatMarketCap Sample.engine Null = "-" /\
  @formatVolume Sample.engine Null = "-" /\
  rsiLabel Null = "N/A" /\
  rsiColor Null = COLORS.text /\
  colorForValue Null = COLORS.text.
Proof.
  split; [reflexivity|].
  apply (@formatters_on_missing Sample.engine Null 2). reflexivity.
Defined.

Lemma zero_is_gain_witness :
  (Bar.close SampleBars.flat_day =? Bar.open SampleBars.flat_day)%float = true /\
  snd (volume_bar SampleBars.flat_day) = COLORS.volumeUp.
Proof.
  split; [vm_compute; reflexivity|].
  apply (proj2 (proj2 (@zero_is_gain Sample.engine))). vm_compute. reflexivity.
Defined.

(** ** Renderers without their container *)

Section Containers.
Context `{Engine}.

Lemma getElementById_absent (id : string) (w : World) :
  document w !! id = None -> mount_symbol id = None ->
  getElementById id w = (Normal None, w).
Proof.
  intros Hd Hm. unfold getElementById, read. now rewrite Hd, Hm.
Qed.





End Containers.



(** ** The detail page and missing indicator data *)

Section DetailSpec.
Context `{Engine}.

(** C6. The detail document of AAA has no [indicators] object.  [init]
    does not skip the charts silently: [drawCandlestickChart] reads
    [data.indicators[ma.key]] and throws, after the chart instance was made
    in its container and before the key statistics are drawn. *)
Theorem init_without_indicators_throws :
  Detail.indicators SamplePage.AAA_detail = Undefined /\
  fst (init (Val "AAA") SampleDetail.page) = Throw (TypeError "ma5") /\
  (let w := snd (init (Val "AAA") SampleDetail.page) in
   echarts.containerInstance w "candlestick-chart" = Some 0%nat /\
   (Chart.option <$> instances w !! 0%nat) = Some NoOption /\
   (Element.innerHTML <$> document w !! "key-stats") = Some Static).
Proof. vm_compute. repeat split; reflexivity. Qed.

(** With the [indicators] object there and the Bollinger bands left out,
    [init] returns, draws the other charts and leaves the Bollinger
    container alone. *)
Example init_without_bollinger :
  fst (init (Val "BBB") SampleDetail.page) = Normal tt /\
  (let w := snd (init (Val "BBB") SampleDetail.page) in
   echarts.containerInstance w "bollinger-chart" = None /\
   document w !! "bollinger-chart" = document SampleDetail.page !! "bollinger-chart" /\
   echarts.containerInstance w "candlestick-chart" = Some 0%nat /\
   echarts.containerInstance w "rsi-chart" = Some 1%nat /\
   echarts.containerInstance w "macd-chart" = Some 2%nat).
Proof. vm_compute. repeat split; reflexivity. Qed.

End DetailSpec.

(** ** The detail page, step by step *)

Section DetailFacts.
Context `{Engine}.

Lemma returns_bind {A B} (m : JS A) (k : A -> JS B) (w : World)
    (Q : B -> World -> Prop) :
  returns m w (fun a w1 => returns (k a) w1 Q) -> returns (bind m k) w Q.
Proof.
  intros (a & w1 & Hm & b & w2 & Hk & HQ). exists b, w2.
  unfold bind. rewrite Hm. auto.
Qed.

Lemma returns_ret {A} (a : A) (w : World) (Q : A -> World -> Prop) :
  Q a w -> returns (ret a) w Q.
Proof. intros HQ. exists a, w. auto. Qed.

Lemma kept_refl (ids : list string) (w : World) : kept ids w w.
Proof. constructor; eauto; reflexivity. Qed.

Lemma returns_getElementById (id : string) (w : World)
    (Q : option node -> World -> Prop) :
  is_Some (document w !! id) -> Q (Some (TopLevel id)) w ->
  returns (getElementById id) w Q.
Proof.
  intros [e He] HQ. exists (Some (TopLevel id)), w. split; [|exact HQ].
  unfold getElementById, read. now rewrite He.
Qed.

Lemma returns_set_innerHTML (ids : list string) (id : string) (m : markup)
    (w0 w : World) (Q : unit -> World -> Prop) :
  kept ids w0 w -> ~ In id ids ->
  (forall w', kept ids w0 w' -> Q tt w') ->
  returns (set_innerHTML (Some (TopLevel id)) m) w Q.
Proof.
  intros [Hel Hco Hin Hfi] Hid HQ. eexists tt, _. split; [reflexivity|].
  apply HQ. destruct (String.eqb id "stock-table-body"); constructor; simpl.
  all: try (intros i; rewrite lookup_alter_is_Some; apply Hel).
  all: try (intros i Hi; rewrite lookup_alter_ne by (intros ->; contradiction);
            now apply Hco).
  all: try exact Hin.
  all: exact Hfi.
Qed.

Lemma returns_init (ids : list string) (id : string) (w0 w : World)
    (Q : nat -> World -> Prop) :
  kept ids w0 w -> ~ In id ids ->
  (forall chart w', kept ids w0 w' -> Q chart w') ->
  returns (echarts.init (Some (TopLevel id))) w Q.
Proof.
  intros Hk Hid HQ. unfold returns, echarts.init.
  destruct (echarts.getInstanceByDom (TopLevel id) w) as [existInstance|].
  - exists existInstance, w. split; [reflexivity|]. now apply HQ.
  - eexists _, _. split; [reflexivity|]. apply HQ.
    destruct Hk as [Hel Hco Hin Hfi]. constructor; simpl; auto.
    intros i h c Hi Hc Hdom. apply lookup_insert_Some in Hc as [[<- <-]|[_ Hc]].
    + simpl in Hdom. injection Hdom as ->. contradiction.
    + eauto.
Qed.

Lemma returns_setOption (ids : list string) (chart : nat) (o : chart_option)
    (w0 w : World) (Q : unit -> World -> Prop) :
  kept ids w0 w ->
  (forall w', kept ids w0 w' -> Q tt w') ->
  returns (echarts.setOption chart o) w Q.
Proof.
  intros [Hel Hco Hin Hfi] HQ. eexists tt, _. split; [reflexivity|].
  apply HQ. constructor; simpl; auto.
  intros i h c Hi Hc Hdom.
  apply lookup_alter_Some in Hc as [(<- & c1 & Hc1 & ->)|[_ Hc]]; eauto.
Qed.

Lemma returns_onResize (ids : list string) (chart : nat)
    (w0 w : World) (Q : unit -> World -> Prop) :
  kept ids w0 w ->
  (forall w', kept ids w0 w' -> Q tt w') ->
  returns (echarts.onResize chart) w Q.
Proof.
  intros [Hel Hco Hin Hfi] HQ. eexists tt, _. split; [reflexivity|].
  apply HQ. constructor; simpl; auto.
Qed.

Lemma returns_member {R} (o : nullable R) (r : R) (reading : string) (w : World)
    (Q : R -> World -> Prop) :
  o = Val r -> Q r w -> returns (member o reading) w Q.
Proof. intros -> HQ. exists r, w. auto. Qed.

Lemma returns_set_title (ids : list string) (t : string)
    (w0 w : World) (Q : unit -> World -> Prop) :
  kept ids w0 w ->
  (forall w', kept ids w0 w' -> Q tt w') ->
  returns (modify (set_title t)) w Q.
Proof.
  intros [Hel Hco Hin Hfi] HQ. eexists tt, _. split; [reflexivity|].
  apply HQ. constructor; simpl; auto.
Qed.

(** A chart function that draws into [id] returns and keeps the elements
    [ids], as long as [id] is not one of them. *)
Lemma returns_drawCandlestickChart (ids : list string) (id : string)
    (data : Detail.t) (history : list Bar.t) (ind : Indicators.t)
    (w0 w : World) (Q : nat -> World -> Prop) :
  kept ids w0 w -> ~ In id ids ->
  Detail.priceHistory data = Val history -> Detail.indicators data = Val ind ->
  (forall chart w', kept ids w0 w' -> Q chart w') ->
  returns (drawCandlestickChart (Some (TopLevel id)) data) w Q.
Proof.
  intros Hk Hid Hh Hi HQ. unfold drawCandlestickChart.
  apply returns_bind, (returns_init ids id w0); auto. intros chart w1 Hk1.
  apply returns_bind, (returns_member _ history); auto.
  apply returns_bind, (returns_member _ ind); auto.
  apply returns_bind, (returns_setOption ids _ _ w0); auto. intros w2 Hk2.
  apply returns_bind, (returns_onResize ids _ w0); auto. intros w3 Hk3.
  apply returns_ret. auto.
Qed.

Lemma returns_drawRSIChart (ids : list string) (id : string)
    (dates : list string) (rsiData : series)
    (w0 w : World) (Q : nat -> World -> Prop) :
  kept ids w0 w -> ~ In id ids ->
  (forall chart w', kept ids w0 w' -> Q chart w') ->
  returns (drawRSIChart (Some (TopLevel id)) dates rsiData) w Q.
Proof.
  intros Hk Hid HQ. unfold drawRSIChart.
  apply returns_bind, (returns_init ids id w0); auto. intros chart w1 Hk1.
  apply returns_bind, (returns_setOption ids _ _ w0); auto. intros w2 Hk2.
  apply returns_bind, (returns_onResize ids _ w0); auto. intros w3 Hk3.
  apply returns_ret. auto.
Qed.

Lemma returns_drawMACDChart (ids : list string) (id : string)
    (dates : list string) (macdData : Macd.t)
    (w0 w : World) (Q : nat -> World -> Prop) :
  kept ids w0 w -> ~ In id ids ->
  (forall chart w', kept ids w0 w' -> Q chart w') ->
  returns (drawMACDChart (Some (TopLevel id)) dates macdData) w Q.
Proof.
  intros Hk Hid HQ. unfold drawMACDChart.
  apply returns_bind, (returns_init ids id w0); auto. intros chart w1 Hk1.
  apply returns_bind, (returns_setOption ids _ _ w0); auto. intros w2 Hk2.
  apply returns_bind, (returns_onResize ids _ w0); auto. intros w3 Hk3.
  apply returns_ret. auto.
Qed.

Lemma returns_drawBollingerChart (ids : list string) (id : string)
    (dates : list string) (closeData : list float) (bollinger : Bollinger.t)
    (w0 w : World) (Q : nat -> World -> Prop) :
  kept ids w0 w -> ~ In id ids ->
  (forall chart w', kept ids w0 w' -> Q chart w') ->
  returns (drawBollingerChart (Some (TopLevel id)) dates closeData bollinger) w Q.
Proof.
  intros Hk Hid HQ. unfold drawBollingerChart.
  apply returns_bind, (returns_init ids id w0); auto. intros chart w1 Hk1.
  apply returns_bind, (returns_setOption ids _ _ w0); auto. intros w2 Hk2.
  apply returns_bind, (returns_onResize ids _ w0); auto. intros w3 Hk3.
  apply returns_ret. auto.
Qed.

Lemma returns_renderMetricCards (ids : list string) (data : Detail.t)
    (m : Metrics.t) (t : Technicals.t) (w0 w : World) (Q : unit -> World -> Prop) :
  kept ids w0 w -> ~ In "metric-cards" ids ->
  is_Some (document w0 !! "metric-cards") ->
  Detail.metrics data = Val m -> Detail.technicals data = Val t ->
  (forall w', kept ids w0 w' -> Q tt w') ->
  returns (renderMetricCards data) w Q.
Proof.
  intros Hk Hid Hel Hm Ht HQ. unfold renderMetricCards.
  apply returns_bind, returns_getElementById; [now apply (kept_elements _ _ _ Hk)|].
  apply returns_bind, (returns_member _ m); auto.
  apply returns_bind, (returns_member _ t); auto.
  apply (returns_set_innerHTML ids _ _ w0); auto.
Qed.

Lemma returns_renderKeyStats (ids : list string) (data : Detail.t)
    (m : Metrics.t) (t : Technicals.t) (w0 w : World) (Q : unit -> World -> Prop) :
  kept ids w0 w -> ~ In "key-stats" ids ->
  is_Some (document w0 !! "key-stats") ->
  Detail.metrics data = Val m -> Detail.technicals data = Val t ->
  (forall w', kept ids w0 w' -> Q tt w') ->
  returns (renderKeyStats data) w Q.
Proof.
  intros Hk Hid Hel Hm Ht HQ. unfold renderKeyStats.
  apply returns_bind, returns_getElementById; [now apply (kept_elements _ _ _ Hk)|].
  apply returns_bind, (returns_member _ m); auto.
  apply returns_bind, (returns_member _ t); auto.
  apply (returns_set_innerHTML ids _ _ w0); auto.
Qed.

End DetailFacts.

Section DetailInit.
Context `{Engine}.

Lemma skipped_spec (ind : Indicators.t) (id : string) :
  In id (skipped ind) <->
  (id = "rsi-chart" /\ is_nullish (Indicators.rsi ind) = true) \/
  (id = "macd-chart" /\ is_nullish (Indicators.macd ind) = true) \/
  (id = "bollinger-chart" /\ is_nullish (Indicators.bollinger ind) = true).
Proof.
  unfold skipped. rewrite !in_app_iff.
  destruct (is_nullish (Indicators.rsi ind)),
           (is_nullish (Indicators.macd ind)),
           (is_nullish (Indicators.bollinger ind)); simpl;
    intuition (try discriminate; auto).
Qed.

Lemma returns_loadStockData (ids : list string) (symbol : string) (data : Detail.t)
    (w0 w : World) (Q : nullable Detail.t -> World -> Prop) :
  kept ids w0 w -> stockFile w0 symbol = Some data -> Q (Val data) w ->
  returns (loadStockData symbol) w Q.
Proof.
  intros Hk Hf HQ. exists (Val data), w. split; [|exact HQ].
  unfold loadStockData, read. now rewrite (kept_files _ _ _ Hk), Hf.
Qed.

(** With the [indicators] object, the price history, the metrics and the
    technicals in the document and the eight elements in the page, [init]
    returns; it draws in no container whose series is left out and leaves
    the content of such a container alone. *)
Lemma init_skips_missing_series
    (w : World) (c : ascii) (rest : string) (data : Detail.t)
    (ind : Indicators.t) (history : list Bar.t) (m : Metrics.t) (t : Technicals.t) :
  stockFile w (String c rest) = Some data ->
  Detail.indicators data = Val ind -> Detail.priceHistory data = Val history ->
  Detail.metrics data = Val m -> Detail.technicals data = Val t ->
  (forall id, In id detail_elements -> is_Some (document w !! id)) ->
  returns (init (Val (String c rest))) w (fun _ w' => kept (skipped ind) w w').
Proof.
  intros Hf Hi Hh Hm Ht Hel.
  assert (Hout : forall id,
            id <> "rsi-chart" -> id <> "macd-chart" -> id <> "bollinger-chart" ->
            ~ In id (skipped ind)).
  { intros id H1 H2 H3 Hin. apply skipped_spec in Hin. tauto. }
  assert (Hpresent : forall id w', In id detail_elements ->
            kept (skipped ind) w w' -> is_Some (document w' !! id)).
  { intros id w' Hid Hk. apply (kept_elements _ _ _ Hk), Hel, Hid. }
  unfold init.
  apply returns_bind, (returns_set_title (skipped ind) _ w); [apply kept_refl|].
  intros w1 Hk1.
  apply returns_bind, (returns_loadStockData (skipped ind) _ data w); auto.
  apply returns_bind, returns_getElementById; [apply Hpresent; simpl; tauto|].
  apply returns_bind, (returns_set_innerHTML (skipped ind) _ _ w);
    [auto|apply Hout; discriminate|]. intros w2 Hk2.
  apply returns_bind, returns_getElementById; [apply Hpresent; simpl; tauto|].
  apply returns_bind, (returns_set_innerHTML (skipped ind) _ _ w);
    [auto|apply Hout; discriminate|]. intros w3 Hk3.
  apply returns_bind, (returns_renderMetricCards (skipped ind) data m t w);
    [auto|apply Hout; discriminate|apply Hel; simpl; tauto|auto|auto|].
  intros w4 Hk4.
  rewrite Hi, Hh.
  assert (Hdates : forall Q : list string -> World -> Prop,
            (forall dates, Q dates w4) ->
            returns (match ind with
                     | {| Indicators.dates := Val dates |} => ret dates
                     | _ => bind (member (Val history) "map")
                                 (fun history0 => ret (map Bar.date history0))
                     end) w4 Q).
  { intros Q HQ. destruct ind as [[| |dates] ? ? ? ? ? ? ? ?];
      eexists _, w4; (split; [reflexivity|apply HQ]). }
  apply returns_bind, Hdates. intros dates.
  apply returns_bind, (returns_member _ history); auto.
  apply returns_bind, returns_getElementById; [apply Hpresent; simpl; tauto|].
  apply returns_bind,
    (returns_drawCandlestickChart (skipped ind) _ data history ind w);
    [auto|apply Hout; discriminate|auto|auto|]. intros _ w5 Hk5.
  apply returns_bind with (m := match Indicators.rsi ind with Val _ => _ | _ => _ end).
  assert (Hrsi : returns
            (match Indicators.rsi ind with
             | Val rsi =>
               bind (getElementById "rsi-chart")
                    (fun el => bind (drawRSIChart el dates rsi) (fun _ => ret tt))
             | _ => ret tt
             end) w5 (fun _ w6 => kept (skipped ind) w w6)).
  { destruct (Indicators.rsi ind) as [| |rsi] eqn:Er; try (apply returns_ret; exact Hk5).
    apply returns_bind, returns_getElementById; [apply Hpresent; simpl; tauto|].
    apply returns_bind, (returns_drawRSIChart (skipped ind) _ _ _ w); auto.
    - intros Hin. apply skipped_spec in Hin. rewrite Er in Hin. simpl in Hin.
      intuition discriminate.
    - intros _ w6 Hk6. now apply returns_ret. }
  destruct Hrsi as ([] & w6 & Hrun6 & Hk6). exists tt, w6. split; [exact Hrun6|].
  apply returns_bind with (m := match Indicators.macd ind with Val _ => _ | _ => _ end).
  assert (Hmacd : returns
            (match Indicators.macd ind with
             | Val macd =>
               bind (getElementById "macd-chart")
                    (fun el => bind (drawMACDChart el dates macd) (fun _ => ret tt))
             | _ => ret tt
             end) w6 (fun _ w7 => kept (skipped ind) w w7)).
  { destruct (Indicators.macd ind) as [| |macd] eqn:Er; try (apply returns_ret; exact Hk6).
    apply returns_bind, returns_getElementById; [apply Hpresent; simpl; tauto|].
    apply returns_bind, (returns_drawMACDChart (skipped ind) _ _ _ w); auto.
    - intros Hin. apply skipped_spec in Hin. rewrite Er in Hin. simpl in Hin.
      intuition discriminate.
    - intros _ w7 Hk7. now apply returns_ret. }
  destruct Hmacd as ([] & w7 & Hrun7 & Hk7). exists tt, w7. split; [exact Hrun7|].
  apply returns_bind with (m := match Indicators.bollinger ind with Val _ => _ | _ => _ end).
  assert (Hboll : returns
            (match Indicators.bollinger ind with
             | Val bollinger =>
               bind (getElementById "bollinger-chart")
                    (fun el => bind (drawBollingerChart el dates (map Bar.close history) bollinger)
                                    (fun _ => ret tt))
             | _ => ret tt
             end) w7 (fun _ w8 => kept (skipped ind) w w8)).
  { destruct (Indicators.bollinger ind) as [| |bollinger] eqn:Er;
      try (apply returns_ret; exact Hk7).
    apply returns_bind, returns_getElementById; [apply Hpresent; simpl; tauto|].
    apply returns_bind, (returns_drawBollingerChart (skipped ind) _ _ _ _ w); auto.
    - intros Hin. apply skipped_spec in Hin. rewrite Er in Hin. simpl in Hin.
      intuition discriminate.
    - intros _ w8 Hk8. now apply returns_ret. }
  destruct Hboll as ([] & w8 & Hrun8 & Hk8). exists tt, w8. split; [exact Hrun8|].
  apply (returns_renderKeyStats (skipped ind) data m t w);
    [auto|apply Hout; discriminate|apply Hel; simpl; tauto|auto|auto|auto].
Qed.

(** A detail document with indicators and without Bollinger bands: [init]
    returns, the Bollinger container keeps its content, and no chart
    instance is made in it. *)
Corollary init_without_bollinger_bands
    (w : World) (c : ascii) (rest : string) (data : Detail.t)
    (ind : Indicators.t) (history : list Bar.t) (m : Metrics.t) (t : Technicals.t) :
  stockFile w (String c rest) = Some data ->
  Detail.indicators data = Val ind -> Detail.priceHistory data = Val history ->
  Detail.metrics data = Val m -> Detail.technicals data = Val t ->
  (forall id, In id detail_elements -> is_Some (document w !! id)) ->
  is_nullish (Indicators.bollinger ind) = true ->
  exists w',
    init (Val (String c rest)) w = (Normal tt, w') /\
    document w' !! "bollinger-chart" = document w !! "bollinger-chart" /\
    forall h chart,
      instances w' !! h = Some chart -> Chart.dom chart = TopLevel "bollinger-chart" ->
      exists chart0, instances w !! h = Some chart0 /\
                     Chart.dom chart0 = TopLevel "bollinger-chart".
Proof.
  intros Hf Hi Hh Hm Ht Hel Hb.
  destruct (init_skips_missing_series w c rest data ind history m t Hf Hi Hh Hm Ht Hel)
    as ([] & w' & Hrun & Hk).
  assert (Hin : In "bollinger-chart" (skipped ind)).
  { apply skipped_spec. tauto. }
  exists w'. split; [exact Hrun|]. split.
  - now apply (kept_content _ _ _ Hk).
  - intros h chart. now apply (kept_instances _ _ _ Hk).
Qed.

End DetailInit.

Section DetailThrows.
Context `{Engine}.

Lemma throws_bind {A B} (m : JS A) (k : A -> JS B) (w : World) (e : error)
    (Q : World -> Prop) :
  returns m w (fun a w1 => throws (k a) w1 e Q) -> throws (bind m k) w e Q.
Proof.
  intros (a & w1 & Hm & w2 & Hk & HQ). exists w2.
  unfold bind. rewrite Hm. auto.
Qed.

Lemma throws_first {A B} (m : JS A) (k : A -> JS B) (w : World) (e : error)
    (Q : World -> Prop) :
  throws m w e Q -> throws (bind m k) w e Q.
Proof.
  intros (w1 & Hm & HQ). exists w1. unfold bind. rewrite Hm. auto.
Qed.

(** Without the [indicators] object the candlestick chart is not drawn:
    reading the first moving average throws. *)
Lemma throws_drawCandlestickChart (ids : list string) (id : string)
    (data : Detail.t) (history : list Bar.t) (w0 w : World) (Q : World -> Prop) :
  kept ids w0 w -> ~ In id ids ->
  Detail.priceHistory data = Val history ->
  is_nullish (Detail.indicators data) = true ->
  (forall w', kept ids w0 w' -> Q w') ->
  throws (drawCandlestickChart (Some (TopLevel id)) data) w (TypeError "ma5") Q.
Proof.
  intros Hk Hid Hh Hi HQ. unfold drawCandlestickChart.
  apply throws_bind, (returns_init ids id w0); auto. intros chart w1 Hk1.
  apply throws_bind, (returns_member _ history); auto.
  apply throws_first. exists w1. split; [|auto].
  destruct (Detail.indicators data); [reflexivity|reflexivity|discriminate].
Qed.

(** Whenever the detail document has no [indicators] object
    (and has everything else), [init] throws in [drawCandlestickChart]; the
    key statistics are not drawn. *)
Lemma init_without_indicators
    (w : World) (c : ascii) (rest : string) (data : Detail.t)
    (history : list Bar.t) (m : Metrics.t) (t : Technicals.t) :
  stockFile w (String c rest) = Some data ->
  is_nullish (Detail.indicators data) = true ->
  Detail.priceHistory data = Val history ->
  Detail.metrics data = Val m -> Detail.technicals data = Val t ->
  (forall id, In id detail_elements -> is_Some (document w !! id)) ->
  exists w',
    init (Val (String c rest)) w = (Throw (TypeError "ma5"), w') /\
    document w' !! "key-stats" = document w !! "key-stats" /\
    document w' !! "rsi-chart" = document w !! "rsi-chart" /\
    document w' !! "macd-chart" = document w !! "macd-chart" /\
    document w' !! "bollinger-chart" = document w !! "bollinger-chart".
Proof.
  intros Hf Hi Hh Hm Ht Hel.
  set (ids := ["key-stats"; "rsi-chart"; "macd-chart"; "bollinger-chart"]).
  assert (Hpresent : forall id w', In id detail_elements ->
            kept ids w w' -> is_Some (document w' !! id)).
  { intros id w' Hid Hk. apply (kept_elements _ _ _ Hk), Hel, Hid. }
  assert (Hout : forall id, id <> "key-stats" -> id <> "rsi-chart" ->
            id <> "macd-chart" -> id <> "bollinger-chart" -> ~ In id ids).
  { intros id H1 H2 H3 H4 Hin. simpl in Hin. intuition congruence. }
  enough (Hthrows : throws (init (Val (String c rest))) w (TypeError "ma5")
                      (fun w' => kept ids w w')).
  { destruct Hthrows as (w' & Hrun & Hk). exists w'. split; [exact Hrun|].
    repeat split; apply (kept_content _ _ _ Hk); simpl; tauto. }
  unfold init.
  apply throws_bind, (returns_set_title ids _ w); [apply kept_refl|].
  intros w1 Hk1.
  apply throws_bind, (returns_loadStockData ids _ data w); auto.
  apply throws_bind, returns_getElementById; [apply Hpresent; simpl; tauto|].
  apply throws_bind, (returns_set_innerHTML ids _ _ w);
    [auto|apply Hout; discriminate|]. intros w2 Hk2.
  apply throws_bind, returns_getElementById; [apply Hpresent; simpl; tauto|].
  apply throws_bind, (returns_set_innerHTML ids _ _ w);
    [auto|apply Hout; discriminate|]. intros w3 Hk3.
  apply throws_bind, (returns_renderMetricCards ids data m t w);
    [auto|apply Hout; discriminate|apply Hel; simpl; tauto|auto|auto|].
  intros w4 Hk4.
  rewrite Hh.
  apply throws_bind with (m := match Detail.indicators data with Val _ => _ | _ => _ end).
  assert (Hdates : returns
            (match Detail.indicators data with
             | Val {| Indicators.dates := Val dates |} => ret dates
             | _ => bind (member (Val history) "map")
                         (fun history0 => ret (map Bar.date history0))
             end) w4 (fun _ w5 => w5 = w4)).
  { destruct (Detail.indicators data); try discriminate;
      eexists _, w4; split; reflexivity. }
  destruct Hdates as (dates & w5 & Hrun5 & ->). exists dates, w4.
  split; [exact Hrun5|].
  apply throws_bind, (returns_member _ history); auto.
  apply throws_bind, returns_getElementById; [apply Hpresent; simpl; tauto|].
  apply throws_first.
  apply (throws_drawCandlestickChart ids _ data history w); auto.
Qed.

End DetailThrows.


(** ** Loading the detail documents *)

Module PromiseFacts.

Lemma all_settled_Some {A} (l : list A) : all_settled (map Some l) = Some l.
Proof.
  induction l as [|x l IH]; simpl; [reflexivity|]. now rewrite IH.
Qed.

Section Slots.
Context {A : Type} (promises : list A).

Let step (values : list (option A)) (i : nat) : list (option A) :=
  match promises !! i with
  | Some v => <[i := Some v]> values
  | None => values
  end.

Lemma step_length (values : list (option A)) (i : nat) :
  List.length (step values i) = List.length values.
Proof.
  unfold step. destruct (promises !! i); [apply length_insert|reflexivity].
Qed.

Lemma fill_length (schedule : list nat) (values : list (option A)) :
  List.length (fold_left step schedule values) = List.length values.
Proof.
  revert values. induction schedule as [|j schedule IH]; intros values; simpl.
  - reflexivity.
  - now rewrite IH, step_length.
Qed.

(** A slot whose promise is in the schedule holds its value, whatever it
    held before; the other slots are untouched. *)
Lemma fill_lookup (schedule : list nat) (values : list (option A)) (i : nat) (v : A) :
  List.length values = List.length promises ->
  promises !! i = Some v ->
  fold_left step schedule values !! i =
  if decide (i ∈ schedule) then Some (Some v) else values !! i.
Proof.
  revert values. induction schedule as [|j schedule IH]; intros values Hlen Hv; simpl.
  - destruct (decide (i ∈ [])) as [Hin|_]; [|reflexivity].
    now apply elem_of_nil in Hin.
  - rewrite IH by (rewrite ?step_length; assumption).
    destruct (decide (i ∈ schedule)) as [Hin|Hnin].
    + rewrite decide_True by (now right). reflexivity.
    + destruct (decide (i = j)) as [->|Hne].
      * rewrite decide_True by (now left).
        unfold step. rewrite Hv. apply list_lookup_insert_eq.
        rewrite Hlen. now apply lookup_lt_Some in Hv.
      * rewrite decide_False by (rewrite elem_of_cons; tauto).
        unfold step. destruct (promises !! j); [|reflexivity].
        now apply list_lookup_insert_ne.
Qed.

(** Whatever the order in which the promises settle, [Promise.all] gives
    their values in the order of the promises. *)
Lemma Promise_all_settles (schedule : list nat) :
  Permutation schedule (seq 0 (List.length promises)) ->
  Promise_all promises schedule = Some promises.
Proof.
  intros Hperm. unfold Promise_all. fold step.
  rewrite <- all_settled_Some. f_equal.
  apply list_eq. intros i.
  destruct (promises !! i) as [v|] eqn:Hv.
  - rewrite (fill_lookup _ _ i v) by (rewrite ?length_replicate; auto).
    rewrite decide_True.
    + rewrite list_lookup_fmap, Hv. reflexivity.
    + rewrite Hperm. apply elem_of_seq. apply lookup_lt_Some in Hv. lia.
  - rewrite list_lookup_fmap, Hv. simpl.
    apply lookup_ge_None. rewrite fill_length, length_replicate.
    now apply lookup_ge_None in Hv.
Qed.

End Slots.
End PromiseFacts.

Section LoaderSpec.
Context `{Engine}.

Lemma filter_Boolean_load_one (fetch : string -> option Detail.t) (stocks : list Stock) :
  filter_Boolean (map (load_one fetch) stocks) = omap (fun s => fetch (symbol s)) stocks.
Proof.
  induction stocks as [|s stocks IH]; [reflexivity|].
  unfold filter_Boolean in *. simpl. unfold load_one at 1.
  destruct (fetch (symbol s)); [f_equal|]; exact IH.
Qed.

(** The records come back in the order of the stock list. *)
Lemma loadAllStockData_in_order
    (w : World) (summary : Summary.t) (stocks : list Stock) (schedule : list nat) :
  summaryData w = Val summary -> Summary.stocks summary = Val stocks ->
  Permutation schedule (seq 0 (List.length stocks)) ->
  loadAllStockData schedule w
  = (Normal (Some (omap (fun s => stockFile w (symbol s)) stocks)), w).
Proof.
  intros Hd Hs Hperm. unfold loadAllStockData, read. rewrite Hd, Hs.
  rewrite PromiseFacts.Promise_all_settles by (now rewrite length_map).
  simpl. now rewrite filter_Boolean_load_one.
Qed.

(** C8. Whatever the outcome of each fetch and whatever the order in which
    the fetches settle, every promise settles with its document or, after
    its own [catch], with the [null] placeholder; [loadAllStockData] returns
    the documents that were loaded, each once, and nothing else (as a
    collection: no order is promised). *)
Theorem loadAllStockData_successes
    (w : World) (summary : Summary.t) (stocks : list Stock) (schedule : list nat) :
  summaryData w = Val summary -> Summary.stocks summary = Val stocks ->
  Permutation schedule (seq 0 (List.length stocks)) ->
  Promise_all (map (load_one (stockFile w)) stocks) schedule
    = Some (map (load_one (stockFile w)) stocks) /\
  (forall s, load_one (stockFile w) s = Null <-> stockFile w (symbol s) = None) /\
  (forall s d, load_one (stockFile w) s = Val d <-> stockFile w (symbol s) = Some d) /\
  exists loaded,
    loadAllStockData schedule w = (Normal (Some loaded), w) /\
    Permutation loaded (omap (fun s => stockFile w (symbol s)) stocks).
Proof.
  intros Hd Hs Hperm. split; [|split; [|split]].
  - apply PromiseFacts.Promise_all_settles. now rewrite length_map.
  - intros s. unfold load_one. destruct (stockFile w (symbol s)); split; congruence.
  - intros s d. unfold load_one. destruct (stockFile w (symbol s)); split; congruence.
  - eexists. split.
    + apply (loadAllStockData_in_order w summary stocks schedule Hd Hs Hperm).
    + apply Permutation_refl.
Qed.

End LoaderSpec.

Lemma loadAllStockData_successes_witness :
  summaryData SamplePage.dashboard = Val SamplePage.summary /\
  Summary.stocks SamplePage.summary = Val [Sample.AAA; Sample.BBB] /\
  Permutation [1%nat; 0%nat] (seq 0 (List.length [Sample.AAA; Sample.BBB])) /\
  Promise_all (map (load_one (stockFile SamplePage.dashboard))
                   [Sample.AAA; Sample.BBB]) [1%nat; 0%nat]
    = Some (map (load_one (stockFile SamplePage.dashboard)) [Sample.AAA; Sample.BBB]) /\
  (forall s, load_one (stockFile SamplePage.dashboard) s = Null <->
             stockFile SamplePage.dashboard (symbol s) = None) /\
  (forall s d, load_one (stockFile SamplePage.dashboard) s = Val d <->
               stockFile SamplePage.dashboard (symbol s) = Some d) /\
  exists loaded,
    loadAllStockData [1%nat; 0%nat] SamplePage.dashboard
      = (Normal (Some loaded), SamplePage.dashboard) /\
    Permutation loaded
      (omap (fun s => stockFile SamplePage.dashboard (symbol s))
            [Sample.AAA; Sample.BBB]).
Proof.
  assert (Hperm : Permutation [1%nat; 0%nat]
                    (seq 0 (List.length [Sample.AAA; Sample.BBB])))
    by apply perm_swap.
  split; [reflexivity|]. split; [reflexivity|]. split; [exact Hperm|].
  exact (loadAllStockData_successes SamplePage.dashboard SamplePage.summary
           [Sample.AAA; Sample.BBB] [1%nat; 0%nat] eq_refl eq_refl Hperm).
Defined.

(** In the sample, the fetch of BBB fails and the fetch of AAA succeeds. *)
Example loadAllStockData_sample :
  fst (loadAllStockData [1%nat; 0%nat] SamplePage.dashboard)
  = Normal (Some [SamplePage.AAA_detail]).
Proof. vm_compute. reflexivity. Qed.

(** ** The registry of sparkline charts *)

Section Registry.
Context `{Engine}.

Lemma substring_full (s : string) : substring 0 (String.length s) s = s.
Proof. induction s as [|c s IH]; simpl; [reflexivity|]. rewrite IH. reflexivity. Qed.

Lemma mount_symbol_spark (sym : string) :
  mount_symbol ("spark-" +:+ sym) = Some sym.
Proof.
  change ("spark-" +:+ sym)
    with (String "s" (String "p" (String "a" (String "r" (String "k" (String "-" sym)))))).
  unfold mount_symbol.
  replace (String.prefix _ _) with true by (simpl; destruct sym; reflexivity).
  simpl. rewrite Nat.sub_0_r, substring_full. reflexivity.
Qed.

Lemma has_mount_rendered (w : World) (rows : list Stock) (s : Stock) :
  rendered_rows w = imap stock_row rows -> In s rows ->
  has_mount w (symbol s) = true.
Proof.
  intros Hr Hs. unfold has_mount. rewrite Hr. apply existsb_exists.
  apply list_elem_of_In, list_elem_of_lookup in Hs. destruct Hs as [i Hi].
  exists (stock_row i s). split.
  - apply list_elem_of_In. now apply elem_of_lookup_imap_2.
  - simpl. apply String.eqb_refl.
Qed.

Lemma getElementById_present (id : string) (w : World) :
  is_Some (document w !! id) ->
  getElementById id w = (Normal (Some (TopLevel id)), w).
Proof. intros [e He]. unfold getElementById, read. now rewrite He. Qed.

Lemma getElementById_mount (sym : string) (w : World) :
  (forall id, is_Some (document w !! id) -> mount_symbol id = None) ->
  has_mount w sym = true ->
  getElementById ("spark-" +:+ sym) w = (Normal (Some (Mount sym)), w).
Proof.
  intros Hids Hm. unfold getElementById, read.
  destruct (document w !! ("spark-" +:+ sym)) as [e|] eqn:He.
  - assert (Hs : is_Some (document w !! ("spark-" +:+ sym))) by (rewrite He; eauto).
    apply Hids in Hs. rewrite mount_symbol_spark in Hs. discriminate.
  - now rewrite mount_symbol_spark, Hm.
Qed.

Lemma get_value_control (id : string) (w : World) :
  get_value (Some (TopLevel id)) w = (Normal (control_value w id), w).
Proof. reflexivity. Qed.

Lemma unchanged_refl (w : World) : unchanged w w.
Proof. now constructor. Qed.

Lemma unchanged_trans (w1 w2 w3 : World) :
  unchanged w1 w2 -> unchanged w2 w3 -> unchanged w1 w3.
Proof.
  intros [] []. constructor; congruence.
Qed.

(** Drawing the sparkline of one row: a new instance, registered, when the
    row has a price history; nothing otherwise. *)
Lemma draw_row_sparkline_run (fullData : list Detail.t) (s : Stock) (w : World) :
  charts_ok w ->
  (forall id, is_Some (document w !! id) -> mount_symbol id = None) ->
  has_mount w (symbol s) = true ->
  mountInstance w !! symbol s = None ->
  exists w',
    draw_row_sparkline fullData s w = (Normal tt, w') /\
    charts_ok w' /\
    sparklineCharts w' =
      sparklineCharts w ++ (if has_history fullData s then [idBase w] else []) /\
    unchanged w w' /\
    (forall sym, sym <> symbol s -> mountInstance w' !! sym = mountInstance w !! sym).
Proof.
  intros Hok Hids Hm Hfresh.
  unfold draw_row_sparkline, bind. rewrite (getElementById_mount _ _ Hids Hm).
  unfold has_history.
  destruct (List.find _ fullData) as [d|];
    [|exists w; rewrite app_nil_r; auto using unchanged_refl].
  destruct (Detail.priceHistory d) as [| |history]; simpl;
    try (exists w; rewrite app_nil_r; auto using unchanged_refl).
  unfold drawSparkline, bind, echarts.init. simpl. rewrite Hfresh. simpl.
  eexists. split; [reflexivity|].
  destruct Hok as [Hnd Hlive Hdis Hmade Hnot].
  assert (Hnew : ~ live w (idBase w)).
  { intros Hl. assert (idBase w < idBase w)%nat by (apply Hmade; now left). lia. }
  assert (Hlive' : forall h,
    is_Some (alter (fun c => {| Chart.dom := Chart.dom c;
                                Chart.option := SparklineOption (map Bar.close history)
                                  (if sparkline_gain s then COLORS.gain else COLORS.loss) |})
               (idBase w)
               (<[idBase w := {| Chart.dom := Mount (symbol s); Chart.option := NoOption |}]>
                  (instances w)) !! h)
    <-> h = idBase w \/ live w h).
  { intros h. rewrite lookup_alter_is_Some, lookup_insert_is_Some'. unfold live.
    split; intros [?|?]; auto. }
  split; [|split; [reflexivity|split]].
  - constructor; simpl; unfold live; simpl.
    + apply NoDup_app. split; [exact Hnd|]. split; [|apply NoDup_singleton].
      intros h Hh Hh'. apply list_elem_of_singleton in Hh'. subst h.
      apply Hnew. now apply Hlive.
    + intros h. rewrite Hlive', elem_of_app, list_elem_of_singleton, Hlive. tauto.
    + exact Hdis.
    + intros h. rewrite Hlive'. specialize (Hmade h). unfold live in *.
      split.
      * intros Hlt. destruct (decide (h = idBase w)) as [->|Hne]; [now left; left|].
        assert (h < idBase w)%nat as Hlt' by lia. apply Hmade in Hlt'. tauto.
      * intros [[->|Hl]|Hd]; [lia| |]; assert (h < idBase w)%nat by (apply Hmade; tauto); lia.
    + intros h. rewrite Hlive'. intros [->|Hl]; [|now apply Hnot].
      intros Hd. assert (idBase w < idBase w)%nat by (apply Hmade; now right). lia.
  - constructor; reflexivity.
  - intros sym Hne. simpl. now rewrite lookup_insert_ne.
Qed.

End Registry.

Section RegistryLoop.
Context `{Engine}.

(** Drawing the sparklines of the rows, one after the other. *)
Lemma draw_rows_run (fullData : list Detail.t) (rows : list Stock) (w : World) :
  charts_ok w ->
  (forall id, is_Some (document w !! id) -> mount_symbol id = None) ->
  (forall s, In s rows -> has_mount w (symbol s) = true) ->
  NoDup (map symbol rows) ->
  (forall s, In s rows -> mountInstance w !! symbol s = None) ->
  exists w' new,
    forEach rows (draw_row_sparkline fullData) w = (Normal tt, w') /\
    charts_ok w' /\
    sparklineCharts w' = sparklineCharts w ++ new /\
    List.length new = List.length (List.filter (has_history fullData) rows) /\
    unchanged w w'.
Proof.
  revert w. induction rows as [|s rows IH]; intros w Hok Hids Hm Hnd Hfresh.
  - exists w, []. rewrite app_nil_r. auto using unchanged_refl.
  - destruct (draw_row_sparkline_run fullData s w Hok Hids) as
      (w1 & Hrun1 & Hok1 & Hreg1 & Hun1 & Hmount1).
    + apply Hm. now left.
    + apply Hfresh. now left.
    + apply NoDup_cons in Hnd as [Hs Hnd].
      assert (Hrows : rendered_rows w1 = rendered_rows w).
      { unfold rendered_rows. now rewrite (same_document _ _ Hun1). }
      destruct (IH w1) as (w2 & new & Hrun2 & Hok2 & Hreg2 & Hlen2 & Hun2).
      * exact Hok1.
      * intros id. rewrite (same_document _ _ Hun1). apply Hids.
      * intros s' Hs'. unfold has_mount. rewrite Hrows. apply Hm. now right.
      * exact Hnd.
      * intros s' Hs'. rewrite Hmount1.
        -- apply Hfresh. now right.
        -- intros Heq. apply Hs. rewrite <- Heq.
           apply list_elem_of_In, in_map, Hs'.
      * exists w2, ((if has_history fullData s then [idBase w] else []) ++ new).
        split; [|split; [exact Hok2|split; [|split]]].
        -- simpl. unfold bind. rewrite Hrun1. exact Hrun2.
        -- rewrite Hreg2, Hreg1, app_assoc. reflexivity.
        -- simpl. destruct (has_history fullData s); simpl; now rewrite Hlen2.
        -- eapply unchanged_trans; eassumption.
Qed.

(** [dispose] ends the instance and logs the call; the rest of the page
    stays, but for the mark on the instance's element. *)
Lemma dispose_run (h : nat) (w : World) :
  exists w',
    echarts.dispose h w = (Normal tt, w') /\
    instances w' = delete h (instances w) /\
    disposed w' = disposed w ++ [h] /\
    idBase w' = idBase w /\ document w' = document w /\
    sparklineCharts w' = sparklineCharts w /\ frames w' = frames w /\
    allStocks w' = allStocks w /\ summaryData w' = summaryData w.
Proof.
  unfold echarts.dispose, modify. eexists. split; [reflexivity|].
  destruct (instances w !! h) as [[[id|sym] o]|]; simpl;
    try destruct (decide _); simpl; repeat split; reflexivity.
Qed.

Lemma dispose_all_run (l : list nat) (w : World) :
  exists w',
    forEach l echarts.dispose w = (Normal tt, w') /\
    (forall h, instances w' !! h = if decide (h ∈ l) then None else instances w !! h) /\
    disposed w' = disposed w ++ l /\
    idBase w' = idBase w /\ document w' = document w /\
    sparklineCharts w' = sparklineCharts w /\ frames w' = frames w /\
    allStocks w' = allStocks w /\ summaryData w' = summaryData w.
Proof.
  revert w. induction l as [|h l IH]; intros w.
  - exists w. rewrite app_nil_r. repeat split; try reflexivity.
  - destruct (dispose_run h w) as (w1 & Hrun & Hi & Hd & Hb & Hdoc & Hreg & Hf & Ha & Hs).
    destruct (IH w1) as (w2 & Hrun2 & Hi2 & Hd2 & Hb2 & Hdoc2 & Hreg2 & Hf2 & Ha2 & Hs2).
    exists w2. split; [simpl; unfold bind; rewrite Hrun; exact Hrun2|].
    split; [|split; [|repeat split; congruence]].
    + intros k. rewrite Hi2, Hi.
      destruct (decide (k ∈ l)) as [Hk|Hk].
      * rewrite decide_True by (now right). reflexivity.
      * destruct (decide (k = h)) as [->|Hne].
        -- rewrite decide_True by (now left). apply lookup_delete_eq.
        -- rewrite decide_False by (rewrite elem_of_cons; tauto).
           now apply lookup_delete_ne.
    + rewrite Hd2, Hd, <- app_assoc. reflexivity.
Qed.

End RegistryLoop.

Section RegistryCycle.
Context `{Engine}.

(** One run of [applyFilters] on a ready dashboard. *)
Lemma applyFilters_run (w : World) (stocks : list Stock) :
  dashboard_ready w stocks ->
  exists w',
    applyFilters w = (Normal tt, w') /\
    document w' = alter (table_markup (current_rows w stocks)) "stock-table-body" (document w) /\
    mountInstance w' = ∅ /\
    (forall h, instances w' !! h =
               if decide (h ∈ sparklineCharts w) then None else instances w !! h) /\
    sparklineCharts w' = [] /\
    disposed w' = disposed w ++ sparklineCharts w /\
    frames w' = frames w ++ [DrawSparklines (current_rows w stocks) (allStocks w)] /\
    idBase w' = idBase w /\ allStocks w' = allStocks w /\
    summaryData w' = summaryData w.
Proof.
  intros [(summary & Hsum & Hstocks) Hel Hids Hfr Hok].
  unfold applyFilters, bind, read. rewrite Hsum.
  repeat (rewrite getElementById_present by (apply Hel; simpl; tauto);
          cbv beta iota; rewrite get_value_control; cbv beta iota).
  unfold member. rewrite Hstocks. unfold ret. cbv beta iota.
  fold (current_rows w stocks).
  destruct (dispose_all_run (sparklineCharts w) w)
    as (w1 & Hrun & Hi & Hd & Hb & Hdoc & Hreg & Hf & Ha & Hs).
  rewrite Hrun. unfold modify, renderStockTable, bind.
  rewrite getElementById_present
    by (simpl; rewrite Hdoc; apply Hel; simpl; tauto).
  simpl. eexists. split; [reflexivity|]. simpl.
  rewrite Hdoc, Hd, Hf, Hb, Ha, Hs. repeat split; try reflexivity; [exact Hi|exact Hsum].
Qed.

Lemma set_value_ready (id value : string) (w : World) (stocks : list Stock) :
  dashboard_ready w stocks ->
  exists w',
    set_value id value w = (Normal tt, w') /\
    dashboard_ready w' stocks /\
    sparklineCharts w' = sparklineCharts w /\ disposed w' = disposed w /\
    allStocks w' = allStocks w.
Proof.
  intros [Hsum Hel Hids Hfr Hok]. unfold set_value, modify.
  eexists. split; [reflexivity|]. split; [|repeat split; reflexivity].
  constructor; simpl.
  - exact Hsum.
  - intros i Hi. apply lookup_alter_is_Some, Hel, Hi.
  - intros i Hi. apply lookup_alter_is_Some in Hi. now apply Hids.
  - exact Hfr.
  - destruct Hok. constructor; assumption.
Qed.

Lemma NoDup_map_filter {A B} (f : A -> B) (p : A -> bool) (l : list A) :
  NoDup (map f l) -> NoDup (map f (List.filter p l)).
Proof.
  induction l as [|x l IH]; simpl; intros Hnd; [constructor|].
  apply NoDup_cons in Hnd as [Hx Hnd]. destruct (p x); simpl; [|auto].
  apply NoDup_cons. split; [|auto].
  intros Hin. apply Hx. apply list_elem_of_In, in_map_iff in Hin as (y & Hy & Hin).
  apply filter_In in Hin as [Hin _].
  apply list_elem_of_In, in_map_iff. eauto.
Qed.

Lemma filtered_NoDup_symbols
    (stocks : list Stock) (searchText sectorSel signalSel sortBy : string) :
  NoDup (map symbol stocks) ->
  NoDup (map symbol (filtered stocks searchText sectorSel signalSel sortBy)).
Proof.
  intros Hnd. unfold filtered.
  match goal with
  | |- NoDup (map symbol (Array.sort ?c ?l)) =>
    pose proof (Permutation_map symbol (ArrayFacts.sort_Permutation c l)) as Hp;
    apply (proj2 (NoDup_Permutation_proper _ _ Hp)); clear Hp
  end.
  destruct (truthy_str signalSel); [apply NoDup_map_filter|];
    (destruct (truthy_str sectorSel); [apply NoDup_map_filter|]);
    (destruct (truthy_str _); [apply NoDup_map_filter|]); exact Hnd.
Qed.

End RegistryCycle.

Section RegistryTheorem.
Context `{Engine}.

(** Once every registered handle is disposed and the registry emptied, the
    registry and the library agree again: nothing is live. *)
Lemma charts_ok_reset (w w' : World) :
  charts_ok w ->
  (forall h, instances w' !! h =
             if decide (h ∈ sparklineCharts w) then None else instances w !! h) ->
  sparklineCharts w' = [] ->
  disposed w' = disposed w ++ sparklineCharts w ->
  idBase w' = idBase w ->
  charts_ok w'.
Proof.
  intros [Hnd Hlive Hdis Hmade Hnot] Hi Hreg Hd Hb.
  assert (Hdead : forall h, ~ live w' h).
  { intros h [c Hc]. rewrite Hi in Hc.
    destruct (decide (h ∈ sparklineCharts w)) as [Hin|Hin]; [discriminate|].
    apply Hin, Hlive. unfold live. rewrite Hc. eauto. }
  constructor.
  - rewrite Hreg. constructor.
  - intros h. rewrite Hreg. split; [intros Hin; now apply elem_of_nil in Hin|].
    intros Hl. now apply Hdead in Hl.
  - rewrite Hd. apply NoDup_app. split; [exact Hdis|]. split; [|exact Hnd].
    intros h Hh Hh'. apply Hlive in Hh'. now apply Hnot in Hh'.
  - intros h. rewrite Hb, Hd, elem_of_app, Hmade, <- Hlive. split.
    + tauto.
    + intros [Hl|Hd']; [now apply Hdead in Hl|tauto].
  - intros h Hl. now apply Hdead in Hl.
Qed.

(** One event and its paint on a ready dashboard. *)
Lemma cycle_run (e : event) (w : World) (stocks : list Stock) :
  dashboard_ready w stocks -> NoDup (map symbol stocks) ->
  exists w',
    cycle e w = (Normal tt, w') /\
    dashboard_ready w' stocks /\
    registry_matches w' stocks /\
    disposed w' = disposed w ++ sparklineCharts w /\
    allStocks w' = allStocks w.
Proof.
  intros Hready Hnd.
  destruct (set_value_ready (event_target e) (event_value e) w stocks Hready)
    as (w0 & Hrun0 & Hready0 & Hreg0 & Hd0 & Ha0).
  destruct (applyFilters_run w0 stocks Hready0)
    as (w1 & Hrun1 & Hdoc1 & Hm1 & Hi1 & Hreg1 & Hd1 & Hf1 & Hb1 & Ha1 & Hs1).
  destruct Hready0 as [Hsum0 Hel0 Hids0 Hfr0 Hok0].
  rewrite Hfr0 in Hf1. simpl in Hf1.
  set (rows := current_rows w0 stocks) in *.
  set (w1' := set_frames (fun _ => []) w1).
  assert (Hok1 : charts_ok w1') by (apply (charts_ok_reset w0); assumption).
  assert (Hsome : forall id, is_Some (document w1' !! id) <-> is_Some (document w0 !! id)).
  { intros id. simpl. rewrite Hdoc1. apply lookup_alter_is_Some. }
  assert (Hrows : rendered_rows w1' = imap stock_row rows).
  { unfold rendered_rows. simpl. rewrite Hdoc1, lookup_alter_eq.
    destruct (Hel0 "stock-table-body") as [el Hel']; [simpl; tauto|].
    rewrite Hel'. reflexivity. }
  destruct (draw_rows_run (allStocks w0) rows w1') as
    (w2 & new & Hrun2 & Hok2 & Hreg2 & Hlen2 & Hun2).
  - exact Hok1.
  - intros id Hid. apply Hids0, Hsome, Hid.
  - intros s Hs. now apply (has_mount_rendered w1' rows).
  - now apply filtered_NoDup_symbols.
  - intros s _. simpl. rewrite Hm1. apply lookup_empty.
  - destruct Hun2 as [Hdoc2 Hd2 Hf2 Ha2 Hs2]. simpl in *.
    assert (Hctl : forall id, id <> "stock-table-body" ->
                     control_value w2 id = control_value w0 id).
    { intros id Hne. unfold control_value.
      rewrite Hdoc2, Hdoc1, lookup_alter_ne by congruence. reflexivity. }
    assert (Hcur : current_rows w2 stocks = rows).
    { unfold rows, current_rows. rewrite !Hctl by discriminate. reflexivity. }
    exists w2. split; [|split; [|split; [|split]]].
    + unfold cycle, dispatch, bind. rewrite Hrun0, Hrun1.
      unfold animationFrame, bind, read, modify. rewrite Hf1. simpl.
      unfold try_catch, bind. fold w1'. rewrite Hrun2. reflexivity.
    + constructor.
      * rewrite Hs2, Hs1. exact Hsum0.
      * intros id Hid. rewrite Hdoc2. apply Hsome, Hel0, Hid.
      * intros id Hid. rewrite Hdoc2 in Hid. apply Hids0, Hsome, Hid.
      * exact Hf2.
      * exact Hok2.
    + split.
      * rewrite Hcur. unfold rendered_rows in *. now rewrite Hdoc2.
      * rewrite Hcur, Hreg2, Hreg1, Ha2, Ha1. simpl. exact Hlen2.
    + rewrite Hd2, Hd1, Hd0, Hreg0. reflexivity.
    + rewrite Ha2, Ha1, Ha0. reflexivity.
Qed.

End RegistryTheorem.

Section RegistrySpec.
Context `{Engine}.

(** C4, as the code has it.  On a dashboard whose symbols are pairwise
    distinct, let every filter or sort event be followed by its paint
    before the next event.  Then any sequence of events runs without error
    and leaves the registry and the charting library in agreement: the
    registry lists exactly the live instances, each once, and no instance
    was ever disposed twice.  After the last event the table shows the
    current rows and the registry holds one handle for each row that has a
    loaded price history; every handle registered before the sequence has
    been disposed. *)
Theorem sparkline_registry_after_cycles
    (events : list event) (w : World) (stocks : list Stock) :
  dashboard_ready w stocks -> NoDup (map symbol stocks) ->
  exists w',
    cycles events w = (Normal tt, w') /\
    dashboard_ready w' stocks /\
    (forall h, h ∈ disposed w -> h ∈ disposed w') /\
    (events <> [] ->
     registry_matches w' stocks /\
     forall h, h ∈ sparklineCharts w -> h ∈ disposed w') /\
    allStocks w' = allStocks w.
Proof.
  intros Hready Hnd. revert w Hready.
  induction events as [|e rest IH]; intros w Hready.
  - exists w. split; [reflexivity|]. split; [exact Hready|]. split; [auto|].
    split; [intros Hne; contradiction|reflexivity].
  - destruct (cycle_run e w stocks Hready Hnd)
      as (w1 & Hrun1 & Hready1 & Hmatch1 & Hd1 & Ha1).
    destruct (IH w1 Hready1) as (w' & Hrun & Hready' & Hmono & Hlast & Ha).
    exists w'. split; [|split; [exact Hready'|split; [|split]]].
    + unfold cycles in *. simpl. unfold bind. rewrite Hrun1. exact Hrun.
    + intros h Hh. apply Hmono. rewrite Hd1, elem_of_app. now left.
    + intros _. split.
      * destruct rest as [|e' rest'].
        -- unfold cycles in Hrun. simpl in Hrun. injection Hrun as <-. exact Hmatch1.
        -- apply Hlast. discriminate.
      * intros h Hh. apply Hmono. rewrite Hd1, elem_of_app. now right.
    + now rewrite Ha, Ha1.
Qed.

End RegistrySpec.

Lemma sample_dashboard_ready :
  dashboard_ready SamplePage.dashboard [Sample.AAA; Sample.BBB].
Proof.
  constructor.
  - exists SamplePage.summary. split; reflexivity.
  - intros id Hid. simpl in Hid.
    repeat (destruct Hid as [<-|Hid]; [vm_compute; eauto|]). contradiction.
  - intros id [e He].
    destruct (decide (id ∈ ["overview-cards"; "sector-heatmap"; "stock-table-body";
                            "top-gainers"; "top-losers"; "search-input";
                            "sector-filter"; "signal-filter"; "sort-by"])) as [Hin|Hout].
    + repeat (apply elem_of_cons in Hin as [->|Hin]; [reflexivity|]).
      now apply elem_of_nil in Hin.
    + assert (Hnone : document SamplePage.dashboard !! id = None)
        by (apply not_elem_of_list_to_map_1; exact Hout).
      congruence.
  - reflexivity.
  - constructor; simpl.
    + constructor.
    + intros h. unfold live. simpl. rewrite lookup_empty. split.
      * intros Hin. now apply elem_of_nil in Hin.
      * intros [c Hc]. discriminate.
    + constructor.
    + intros h. unfold live. simpl. rewrite lookup_empty. split; [lia|].
      intros [[c Hc]|Hin]; [discriminate|now apply elem_of_nil in Hin].
    + intros h [c Hc]. simpl in Hc. rewrite lookup_empty in Hc. discriminate.
Qed.

Lemma sparkline_registry_after_cycles_witness :
  dashboard_ready SamplePage.dashboard [Sample.AAA; Sample.BBB] /\
  NoDup (map symbol [Sample.AAA; Sample.BBB]) /\
  exists w',
    @cycles Sample.engine [SectorChange "Tech"; SortChange "ytdReturn-asc"]
      SamplePage.dashboard = (Normal tt, w') /\
    dashboard_ready w' [Sample.AAA; Sample.BBB] /\
    (forall h, h ∈ disposed SamplePage.dashboard -> h ∈ disposed w') /\
    ([SectorChange "Tech"; SortChange "ytdReturn-asc"] <> [] ->
     @registry_matches Sample.engine w' [Sample.AAA; Sample.BBB] /\
     forall h, h ∈ sparklineCharts SamplePage.dashboard -> h ∈ disposed w') /\
    allStocks w' = allStocks SamplePage.dashboard.
Proof.
  assert (Hnd : NoDup (map symbol [Sample.AAA; Sample.BBB])).
  { apply NoDup_cons. split.
    - intros Hin. apply list_elem_of_singleton in Hin. discriminate.
    - apply NoDup_singleton. }
  split; [exact sample_dashboard_ready|]. split; [exact Hnd|].
  exact (@sparkline_registry_after_cycles Sample.engine
           [SectorChange "Tech"; SortChange "ytdReturn-asc"]
           SamplePage.dashboard [Sample.AAA; Sample.BBB]
           sample_dashboard_ready Hnd).
Defined.

(** The detail document of BBB failed to load: after the event and its
    paint the table has two rows and one live sparkline handle. *)
Lemma sparkline_handles_fewer_than_rows :
  let run := @cycles Sample.engine [SortChange "ytdReturn-desc"] SamplePage.dashboard in
  fst run = Normal tt /\
  List.length (rendered_rows (snd run)) = 2%nat /\
  sparklineCharts (snd run) = [0%nat] /\
  size (instances (snd run)) = 1%nat /\
  List.length (sparklineCharts (snd run)) <> List.length (rendered_rows (snd run)).
Proof.
  vm_compute. repeat split; try reflexivity. discriminate.
Qed.

(** Two events before one paint: both callbacks draw into the cells of the
    second table, the instance of AAA is registered twice, and the next
    event disposes it twice. *)
Example two_events_one_paint :
  let w1 := snd (@dispatch Sample.engine (SortChange "ytdReturn-asc") SamplePage.dashboard) in
  let w2 := snd (@dispatch Sample.engine (SectorChange "") w1) in
  let w3 := snd (animationFrame w2) in
  let w4 := snd (@cycle Sample.engine (SectorChange "Tech") w3) in
  sparklineCharts w3 = [0%nat; 0%nat] /\ disposed w4 = [0%nat; 0%nat].
Proof. vm_compute. split; reflexivity. Qed.

(** * Further properties of the code *)

(** ** applyFilters: what the filter and the sort do to the stock list *)

Lemma filter_sublist {A} (p : A -> bool) (l : list A) : sublist (List.filter p l) l.
Proof.
  induction l as [|x l IH]; simpl; [constructor|].
  destruct (p x); [now apply sublist_skip|now apply sublist_cons].
Qed.

(** A value is not smaller than itself, whatever its type. *)
Lemma js_lt_irrefl `{Engine} (v : value) : js_lt v v = false.
Proof.
  assert (Hnum : forall x : float, (x <? x)%float = false).
  { intros x. rewrite FloatAxioms.ltb_spec. unfold SFltb.
    destruct (Prim2SF x) as [s|s| |s m e]; simpl; try reflexivity.
    - destruct s; reflexivity.
    - destruct s; rewrite Z.compare_refl;
        change (PosDef.Pos.compare_cont Eq m m) with (Pos.compare m m);
        rewrite Pos.compare_refl; reflexivity. }
  destruct v as [| |x|t|b]; simpl; try reflexivity; try apply Hnum.
  unfold String.ltb. pose proof (String.compare_antisym t t) as Ha.
  destruct (String.compare t t); [reflexivity|discriminate|reflexivity].
Qed.

Section FilterSortExtras.
Context `{Engine}.
Import FloatOrder.

(** X1. [applyFilters] never invents or repeats a row: the array it hands
    to [renderStockTable] is a rearrangement of a sub-list of
    [summaryData.stocks], whatever the four controls hold (also a sort
    value that names no field).  With the three criteria empty it is a
    rearrangement of the whole list. *)
Theorem filtered_rearranges
    (stocks : list Stock) (searchText sectorSel signalSel sortBy : string) :
  (exists shown, sublist shown stocks /\
     Permutation (filtered stocks searchText sectorSel signalSel sortBy) shown) /\
  Permutation (filtered stocks "" "" "" sortBy) stocks.
Proof.
  split.
  - unfold filtered. eexists. split; [|apply ArrayFacts.sort_Permutation].
    destruct (truthy_str signalSel);
      [etransitivity; [apply filter_sublist|]|];
      (destruct (truthy_str sectorSel);
        [etransitivity; [apply filter_sublist|]|]);
      (destruct (truthy_str _);
        [etransitivity; [apply filter_sublist|]|]); reflexivity.
  - unfold filtered. simpl. apply ArrayFacts.sort_Permutation.
Qed.

(** X2. The comparator of the sort never answers 0.  For two records whose
    keys are equal after the replacements of lines 186 to 189 (two equal
    numbers, two names that differ by letter case only, two missing keys)
    it answers -1 in both argument orders: each record is said to come
    before the other. *)
Theorem comparator_ties (field : string) (dir : nullable string) (a b : Stock) :
  sort_key dir (get a field) = sort_key dir (get b field) ->
  comparator field dir a b = -1 /\ comparator field dir b a = -1.
Proof.
  intros Heq. unfold comparator, js_gt. rewrite Heq, js_lt_irrefl.
  destruct (is_asc dir); split; reflexivity.
Qed.

(** X3. Sorting by a key whose values are JSON numbers (or missing): of two
    rows that both have the key, the earlier has the key that is not
    greater when the direction is [asc] and not smaller otherwise; and a
    row without the key never stands before a row that has it. *)
Theorem numeric_sort_order
    (stocks : list Stock) (searchText sectorSel signalSel sortBy : string)
    (i j : nat) (a b : Stock) :
  Forall (fun s => numeric_or_missing (get s (sort_field sortBy))) stocks ->
  filtered stocks searchText sectorSel signalSel sortBy !! i = Some a ->
  filtered stocks searchText sectorSel signalSel sortBy !! j = Some b ->
  (i < j)%nat ->
  (missing (get a (sort_field sortBy)) -> missing (get b (sort_field sortBy))) /\
  (forall x y,
     get a (sort_field sortBy) = VNum x -> get b (sort_field sortBy) = VNum y ->
     if is_asc (sort_dir sortBy)
     then (x <=? y)%float = true else (y <=? x)%float = true).
Proof.
  intros Hs Ha Hb Hij. split.
  - now apply (numeric_nulls_last stocks searchText sectorSel signalSel sortBy i j).
  - intros x y Hx Hy.
    pose proof (filtered_sorted stocks searchText sectorSel signalSel sortBy Hs) as Hsorted.
    pose proof (SortedFacts.StronglySorted_lookup _ _ Hsorted i j a b Hij Ha Hb) as Hab.
    assert (Hin : forall r k,
               filtered stocks searchText sectorSel signalSel sortBy !! k = Some r ->
               numeric_or_missing (get r (sort_field sortBy))).
    { intros r k Hr. rewrite List.Forall_forall in Hs. apply Hs.
      apply (filtered_incl stocks searchText sectorSel signalSel sortBy).
      apply list_elem_of_In. eapply list_elem_of_lookup_2. exact Hr. }
    pose proof (Hin a i Ha) as Fa. pose proof (Hin b j Hb) as Fb.
    rewrite Hx in Fa. rewrite Hy in Fb. simpl in Fa, Fb.
    apply FloatOrderFacts.finite_not_nan in Fa, Fb.
    unfold in_order, sort_number in Hab. rewrite Hx, Hy in Hab. simpl in Hab.
    destruct (is_asc (sort_dir sortBy));
      apply FloatOrderFacts.leb_rank; assumption.
Qed.

End FilterSortExtras.

Lemma comparator_ties_witness :
  sort_key (Val "desc") (get Sample.AAA "rsi") = sort_key (Val "desc") (get Sample.BBB "rsi") /\
  @comparator Sample.engine "rsi" (Val "desc") Sample.AAA Sample.BBB = -1 /\
  @comparator Sample.engine "rsi" (Val "desc") Sample.BBB Sample.AAA = -1.
Proof.
  split; [reflexivity|].
  apply (@comparator_ties Sample.engine "rsi" (Val "desc") Sample.AAA Sample.BBB).
  reflexivity.
Defined.

Lemma numeric_sort_order_witness :
  Forall (fun s => numeric_or_missing (get s (sort_field "ytdReturn-asc")))
    [Sample.AAA; Sample.BBB] /\
  @filtered Sample.engine [Sample.AAA; Sample.BBB] "" "" "" "ytdReturn-asc" !! 0%nat
    = Some Sample.BBB /\
  @filtered Sample.engine [Sample.AAA; Sample.BBB] "" "" "" "ytdReturn-asc" !! 1%nat
    = Some Sample.AAA /\
  (0 < 1)%nat /\
  (missing (get Sample.BBB (sort_field "ytdReturn-asc")) ->
   missing (get Sample.AAA (sort_field "ytdReturn-asc"))) /\
  (forall x y,
     get Sample.BBB (sort_field "ytdReturn-asc") = VNum x ->
     get Sample.AAA (sort_field "ytdReturn-asc") = VNum y ->
     if is_asc (sort_dir "ytdReturn-asc")
     then (x <=? y)%float = true else (y <=? x)%float = true).
Proof.
  assert (Hnum : Forall (fun s => numeric_or_missing (get s (sort_field "ytdReturn-asc")))
                   [Sample.AAA; Sample.BBB])
    by (repeat constructor).
  split; [exact Hnum|]. split; [reflexivity|]. split; [reflexivity|].
  split; [lia|].
  apply (@numeric_sort_order Sample.engine [Sample.AAA; Sample.BBB] "" "" ""
           "ytdReturn-asc" 0%nat 1%nat Sample.BBB Sample.AAA Hnum);
    [reflexivity|reflexivity|lia].
Defined.

(** ** loadAllStockData: order of the result, pending fetches *)

Module PromisePending.

(** An empty slot keeps the result away. *)
Lemma all_settled_pending {A} (slots : list (option A)) (i : nat) :
  slots !! i = Some None -> all_settled slots = None.
Proof.
  revert i. induction slots as [|[v|] slots IH]; intros i Hi; simpl.
  - discriminate.
  - destruct i as [|i]; [discriminate|]. simpl in Hi. now rewrite (IH i).
  - reflexivity.
Qed.

Lemma Promise_all_complete {A} (promises : list A) (schedule : list nat) :
  (forall i, (i < List.length promises)%nat -> i ∈ schedule) ->
  Promise_all promises schedule = Some promises.
Proof.
  intros Hall. unfold Promise_all.
  rewrite <- PromiseFacts.all_settled_Some. f_equal.
  apply list_eq. intros i.
  destruct (promises !! i) as [v|] eqn:Hv.
  - rewrite (PromiseFacts.fill_lookup promises _ _ i v)
      by (rewrite ?length_replicate; auto).
    rewrite decide_True.
    + rewrite list_lookup_fmap, Hv. reflexivity.
    + apply Hall. now apply lookup_lt_Some in Hv.
  - rewrite list_lookup_fmap, Hv. simpl.
    apply lookup_ge_None. rewrite PromiseFacts.fill_length, length_replicate.
    now apply lookup_ge_None in Hv.
Qed.

Lemma Promise_all_pending {A} (promises : list A) (schedule : list nat) (i : nat) :
  (i < List.length promises)%nat -> i ∉ schedule ->
  Promise_all promises schedule = None.
Proof.
  intros Hi Hout. unfold Promise_all.
  destruct (lookup_lt_is_Some_2 promises i Hi) as [v Hv].
  apply (all_settled_pending _ i).
  rewrite (PromiseFacts.fill_lookup promises _ _ i v)
    by (rewrite ?length_replicate; auto).
  rewrite decide_False by exact Hout.
  apply lookup_replicate_2. exact Hi.
Qed.

End PromisePending.

Section LoaderExtras.
Context `{Engine}.

(** Once every fetch has settled the documents are there, in the order of
    the stock list. *)
Lemma loadAllStockData_settled (w : World) (summary : Summary.t) (schedule : list nat) :
  summaryData w = Val summary -> settles schedule summary ->
  loadAllStockData schedule w
  = (Normal (Some (omap (fun s => stockFile w (symbol s)) (stock_list summary))), w).
Proof.
  intros Hd Hs. unfold loadAllStockData, read, settles, stock_list in *. rewrite Hd.
  destruct (Summary.stocks summary) as [| |stocks]; try reflexivity.
  rewrite PromisePending.Promise_all_complete by (now rewrite length_map).
  simpl. now rewrite filter_Boolean_load_one.
Qed.

(** While a fetch is pending there is no result. *)
Lemma loadAllStockData_pending
    (w : World) (summary : Summary.t) (stocks : list Stock) (schedule : list nat)
    (i : nat) :
  summaryData w = Val summary -> Summary.stocks summary = Val stocks ->
  (i < List.length stocks)%nat -> i ∉ schedule ->
  loadAllStockData schedule w = (Normal None, w).
Proof.
  intros Hd Hs Hi Hout. unfold loadAllStockData, read. rewrite Hd, Hs.
  rewrite (PromisePending.Promise_all_pending _ _ i) by (rewrite ?length_map; auto).
  reflexivity.
Qed.

(** X4. [loadAllStockData] gives the documents in the order of
    [summaryData.stocks], the failed ones left out, as soon as every fetch
    has settled, in whatever order and however often an index is reported;
    while one fetch is pending there is no result.  It changes nothing on
    the page. *)
Theorem loadAllStockData_order
    (w : World) (summary : Summary.t) (stocks : list Stock) (schedule : list nat) :
  summaryData w = Val summary -> Summary.stocks summary = Val stocks ->
  ((forall i, (i < List.length stocks)%nat -> i ∈ schedule) ->
   loadAllStockData schedule w
   = (Normal (Some (omap (fun s => stockFile w (symbol s)) stocks)), w)) /\
  (forall i, (i < List.length stocks)%nat -> i ∉ schedule ->
   loadAllStockData schedule w = (Normal None, w)).
Proof.
  intros Hd Hs. split.
  - intros Hall. rewrite (loadAllStockData_settled w summary) by
      (auto; unfold settles; now rewrite Hs).
    unfold stock_list. now rewrite Hs.
  - intros i Hi Hout. now apply (loadAllStockData_pending w summary stocks schedule i).
Qed.

End LoaderExtras.

(** ** Table rows, sparklines and performer bars *)

(** A number that equals zero is one of the two zeros. *)
Lemma zero_cases (x : float) :
  (x =? 0)%float = true -> x = 0%float \/ x = (-0)%float.
Proof.
  rewrite FloatAxioms.eqb_spec. intros Heq.
  rewrite <- (FloatAxioms.SF2Prim_Prim2SF x).
  change (Prim2SF 0) with (S754_zero false) in Heq.
  destruct (Prim2SF x) as [[]|[]| |[] m e]; try discriminate Heq; auto.
Qed.

Section RowExtras.
Context `{Engine}.

(** X5. The RSI cell of a table row and the helpers of charts.js.  For an
    RSI that is a number the cell's class names the band that [rsiLabel]
    and [rsiColor] name.  For an RSI that is [null] the helpers answer
    'N/A' and the neutral colour, and the cell shows '-', but its class is
    'rsi-oversold' ([null <= 30] holds); for an RSI that is absent the
    class is 'rsi-neutral'. *)
Theorem rsi_cell_and_helpers (idx : nat) (s : Stock) :
  match rsi s with
  | Val x =>
    (TableRow.rsiClass (stock_row idx s) = "rsi-overbought" /\
     rsiLabel (rsi s) = "Overbought" /\ rsiColor (rsi s) = COLORS.loss) \/
    (TableRow.rsiClass (stock_row idx s) = "rsi-oversold" /\
     rsiLabel (rsi s) = "Oversold" /\ rsiColor (rsi s) = COLORS.gain) \/
    (TableRow.rsiClass (stock_row idx s) = "rsi-neutral" /\
     rsiLabel (rsi s) = "Neutral" /\ rsiColor (rsi s) = COLORS.textLight)
  | Null =>
    TableRow.rsiClass (stock_row idx s) = "rsi-oversold" /\
    TableRow.rsi (stock_row idx s) = "-" /\
    rsiLabel (rsi s) = "N/A" /\ rsiColor (rsi s) = COLORS.text
  | Undefined =>
    TableRow.rsiClass (stock_row idx s) = "rsi-neutral" /\
    TableRow.rsi (stock_row idx s) = "-" /\
    rsiLabel (rsi s) = "N/A" /\ rsiColor (rsi s) = COLORS.text
  end.
Proof.
  unfold stock_row. simpl. destruct (rsi s) as [| |x]; simpl.
  - repeat split; reflexivity.
  - repeat split; reflexivity.
  - destruct (70 <=? x)%float; [left; repeat split; reflexivity|].
    destruct (x <=? 30)%float; [right; left|right; right]; repeat split; reflexivity.
Qed.

(** X6. The sparkline of a row, drawn into its cell for the first time: a
    new chart instance in the cell, registered, whose series are the
    closing prices of the loaded document.  Its colour is the colour of the
    row's YTD cell when the return is a number other than NaN; for a
    missing return the line is in the gain colour while the cell is in the
    neutral one. *)
Theorem sparkline_of_row
    (fullData : list Detail.t) (s : Stock) (d : Detail.t) (history : list Bar.t)
    (w : World) :
  (forall id, is_Some (document w !! id) -> mount_symbol id = None) ->
  has_mount w (symbol s) = true ->
  mountInstance w !! symbol s = None ->
  List.find (fun d => String.eqb (Detail.symbol d) (symbol s)) fullData = Some d ->
  Detail.priceHistory d = Val history ->
  exists w' color,
    draw_row_sparkline fullData s w = (Normal tt, w') /\
    instances w' !! idBase w
    = Some {| Chart.dom := Mount (symbol s);
              Chart.option := SparklineOption (map Bar.close history) color |} /\
    sparklineCharts w' = sparklineCharts w ++ [idBase w] /\
    match ytdReturn s with
    | Val x => is_nan x = false -> color = TableRow.ytdColor (stock_row 0 s)
    | _ => color = COLORS.gain /\ TableRow.ytdColor (stock_row 0 s) = COLORS.text
    end.
Proof.
  intros Hids Hm Hfresh Hfind Hhist.
  unfold draw_row_sparkline, bind. rewrite (getElementById_mount _ _ Hids Hm).
  rewrite Hfind, Hhist.
  unfold drawSparkline, bind, echarts.init. simpl. rewrite Hfresh. simpl.
  eexists. eexists. split; [reflexivity|]. simpl.
  split; [|split; [reflexivity|]].
  - rewrite lookup_alter_eq, lookup_insert_eq. reflexivity.
  - unfold sparkline_gain, colorForValue.
    destruct (ytdReturn s) as [| |x]; [split; reflexivity|split; reflexivity|].
    intros Hnan. rewrite Hnan. simpl.
    destruct (x =? 0)%float eqn:E; [|reflexivity].
    apply FloatOrderFacts.eqb_leb in E. rewrite E. reflexivity.
Qed.

(** The largest of zeros is zero. *)
Lemma Math_max_all_zeros (l : list float) (acc : float) :
  acc = neg_infinity \/ acc = 0%float ->
  Forall (fun x => x = 0%float) l -> l <> [] ->
  fold_left Math_max l acc = 0%float.
Proof.
  revert acc. induction l as [|x l IH]; intros acc Hacc Hl Hne; [congruence|].
  inversion Hl as [|? ? -> Hl']; subst. simpl.
  assert (Hstep : Math_max acc 0 = 0%float) by (destruct Hacc as [->| ->]; reflexivity).
  rewrite Hstep. destruct l as [|y l]; [reflexivity|].
  apply IH; [now right|exact Hl'|discriminate].
Qed.

(** X7. A performer list whose returns are all zero: [maxAbs] is 0, each
    bar width is [0 / 0 * 100], and every row of the list is written with
    the width 'NaN'. *)
Theorem flat_performers_width
    (id : string) (r : Ranked.t) (l : list Ranked.t) (isGainer : bool) (w : World) :
  is_Some (document w !! id) ->
  Forall (fun s => (Ranked.ytdReturn s =? 0)%float = true) (r :: l) ->
  exists w' rows,
    renderList id (Val (r :: l)) isGainer w = (Normal tt, w') /\
    (Element.innerHTML <$> document w' !! id) = Some (PerformerRows rows) /\
    map PerformerRow.symbol rows = map Ranked.symbol (r :: l) /\
    Forall (fun row => PerformerRow.barWidth row = "NaN") rows.
Proof.
  intros Hel Hzero.
  assert (Habs : Forall (fun s => abs (Ranked.ytdReturn s) = 0%float) (r :: l)).
  { eapply List.Forall_impl; [|exact Hzero]. simpl. intros s Hs.
    destruct (zero_cases _ Hs) as [-> | ->]; reflexivity. }
  assert (Hmax : Math_max_all (map (fun s => abs (Ranked.ytdReturn s)) (r :: l)) = 0%float).
  { apply Math_max_all_zeros; [now left| |discriminate].
    apply List.Forall_forall. intros x Hx. apply in_map_iff in Hx as (s & <- & Hs).
    rewrite List.Forall_forall in Habs. now apply Habs. }
  unfold renderList, bind. rewrite (getElementById_present _ _ Hel).
  rewrite Hmax. unfold set_innerHTML, modify.
  destruct Hel as [el Hel].
  eexists. exists (map (performer_row isGainer 0) (r :: l)).
  split; [reflexivity|]. split; [|split].
  - destruct (String.eqb id "stock-table-body"); simpl;
      rewrite lookup_alter_eq, Hel; reflexivity.
  - rewrite map_map. reflexivity.
  - apply List.Forall_forall. intros row Hrow.
    apply in_map_iff in Hrow as (s & <- & Hs).
    rewrite List.Forall_forall in Habs. unfold performer_row. simpl.
    rewrite (Habs s Hs). reflexivity.
Qed.

End RowExtras.

(** ** The sector heatmap *)

Section HeatmapExtras.
Context `{Engine}.

Lemma sector_tile_run (entry : string * SectorStat.t) (w : World) :
  if null_best entry
  then sector_tile entry w = (Throw (TypeError "symbol"), w)
  else exists tile, sector_tile entry w = (Normal tile, w) /\
                    Tile.sector tile = fst entry.
Proof.
  destruct entry as [sector stats]. unfold null_best, sector_tile. simpl.
  destruct (SectorStat.bestPerformer stats) as [| |[s|[| |s]]]; simpl;
    try reflexivity; eexists; split; reflexivity.
Qed.

Lemma sector_tiles_run (l : list (string * SectorStat.t)) (w : World) :
  if existsb null_best l
  then map_js sector_tile l w = (Throw (TypeError "symbol"), w)
  else exists tiles, map_js sector_tile l w = (Normal tiles, w) /\
                     map Tile.sector tiles = map fst l.
Proof.
  induction l as [|entry l IH]; simpl.
  - exists []. split; reflexivity.
  - pose proof (sector_tile_run entry w) as He. unfold bind.
    destruct (null_best entry); simpl.
    + now rewrite He.
    + destruct He as (tile & -> & Hs).
      destruct (existsb null_best l).
      * now rewrite IH.
      * destruct IH as (tiles & -> & Hl). exists (tile :: tiles).
        split; [reflexivity|]. simpl. now rewrite Hs, Hl.
Qed.

Lemma existsb_Permutation {A} (p : A -> bool) (l l' : list A) :
  Permutation l l' -> existsb p l = existsb p l'.
Proof.
  intros Hp. apply eq_true_iff_eq. rewrite !existsb_exists.
  split; intros (x & Hx & Hpx); exists x; split; auto;
    [apply (Permutation_in _ Hp)|apply (Permutation_in _ (Permutation_sym Hp))]; exact Hx.
Qed.

(** The heatmap on a page that has its container. *)
Lemma renderSectorHeatmap_run
    (summary : Summary.t) (stats : list (string * SectorStat.t)) (w : World) :
  is_Some (document w !! "sector-heatmap") ->
  Summary.sectorStats summary = Val stats ->
  if existsb null_best stats
  then renderSectorHeatmap summary w = (Throw (TypeError "symbol"), w)
  else exists tiles,
    renderSectorHeatmap summary w
    = (Normal tt, set_document
                    (alter (fun e => {| Element.value := Element.value e;
                                        Element.innerHTML := SectorTiles tiles |})
                           "sector-heatmap") w) /\
    Permutation (map Tile.sector tiles) (map fst stats).
Proof.
  intros Hel Hstats. unfold renderSectorHeatmap, bind.
  rewrite (getElementById_present _ _ Hel), Hstats.
  match goal with
  | |- context [map_js sector_tile (Array.sort ?c stats) w] =>
    pose proof (sector_tiles_run (Array.sort c stats) w) as Hrun;
    pose proof (ArrayFacts.sort_Permutation c stats) as Hperm
  end.
  rewrite (existsb_Permutation _ _ _ Hperm) in Hrun.
  destruct (existsb null_best stats).
  - now rewrite Hrun.
  - destruct Hrun as (tiles & -> & Hnames). exists tiles. split; [reflexivity|].
    rewrite Hnames. now apply Permutation_map.
Qed.

(** X8. The sector heatmap.  When no sector has a [bestPerformer] that is
    [null], the container receives one tile for each sector of
    [sectorStats], none twice.  One sector whose [bestPerformer] is [null]
    ([typeof null] is 'object', and [null.symbol] is read) makes the
    renderer throw a TypeError before it writes anything: no tile is
    shown. *)
Theorem heatmap_tiles
    (summary : Summary.t) (stats : list (string * SectorStat.t)) (w : World) :
  is_Some (document w !! "sector-heatmap") ->
  Summary.sectorStats summary = Val stats ->
  if existsb null_best stats
  then renderSectorHeatmap summary w = (Throw (TypeError "symbol"), w)
  else exists w' tiles,
    renderSectorHeatmap summary w = (Normal tt, w') /\
    content w' "sector-heatmap" = Some (SectorTiles tiles) /\
    Permutation (map Tile.sector tiles) (map fst stats).
Proof.
  intros Hel Hstats.
  pose proof (renderSectorHeatmap_run summary stats w Hel Hstats) as Hrun.
  destruct (existsb null_best stats); [exact Hrun|].
  destruct Hrun as (tiles & Hrun & Hperm). eexists. exists tiles.
  split; [exact Hrun|]. split; [|exact Hperm].
  unfold content. simpl. rewrite lookup_alter_eq.
  destruct Hel as [el ->]. reflexivity.
Qed.

End HeatmapExtras.

(** ** applyFilters: what stops it *)

Section FilterGuards.
Context `{Engine}.

Lemma mount_symbol_control (id : string) :
  In id ["search-input"; "sector-filter"; "signal-filter"; "sort-by"] ->
  mount_symbol id = None.
Proof.
  simpl. intros Hid.
  repeat (destruct Hid as [<-|Hid]; [reflexivity|]). contradiction.
Qed.

(** The lookup and the read of a control: its value, or a TypeError. *)
Lemma read_control {B} (id : string) (k : string -> JS B) (w : World) :
  In id ["search-input"; "sector-filter"; "signal-filter"; "sort-by"] ->
  bind (getElementById id) (fun el => bind (get_value el) k) w
  = match document w !! id with
    | Some _ => k (control_value w id) w
    | None => (Throw (TypeError "value"), w)
    end.
Proof.
  intros Hid. unfold bind at 1.
  destruct (document w !! id) as [el|] eqn:Hel.
  - rewrite getElementById_present by (rewrite Hel; eauto). reflexivity.
  - rewrite getElementById_absent by (auto using mount_symbol_control). reflexivity.
Qed.

Lemma applyFilters_stops (w : World) (summary : Summary.t) :
  summaryData w = Val summary ->
  (exists id, In id ["search-input"; "sector-filter"; "signal-filter"; "sort-by"] /\
              document w !! id = None) ->
  applyFilters w = (Throw (TypeError "value"), w).
Proof.
  intros Hsum (id & Hid & Hnone).
  unfold applyFilters. unfold bind at 1. unfold read at 1. rewrite Hsum.
  rewrite read_control by (simpl; tauto).
  destruct (document w !! "search-input") eqn:D1; [|reflexivity].
  rewrite read_control by (simpl; tauto).
  destruct (document w !! "sector-filter") eqn:D2; [|reflexivity].
  rewrite read_control by (simpl; tauto).
  destruct (document w !! "signal-filter") eqn:D3; [|reflexivity].
  rewrite read_control by (simpl; tauto).
  destruct (document w !! "sort-by") eqn:D4; [|reflexivity].
  exfalso. simpl in Hid.
  repeat (destruct Hid as [<-|Hid]; [congruence|]). contradiction.
Qed.

Lemma applyFilters_without_stocks (w : World) (summary : Summary.t) :
  summaryData w = Val summary ->
  (forall id, In id ["search-input"; "sector-filter"; "signal-filter"; "sort-by"] ->
              is_Some (document w !! id)) ->
  is_nullish (Summary.stocks summary) = true ->
  applyFilters w = (Throw (TypeError "Symbol.iterator"), w).
Proof.
  intros Hsum Hel Hstocks. unfold applyFilters, bind, read. rewrite Hsum.
  repeat (rewrite getElementById_present by (apply Hel; simpl; tauto);
          cbv beta iota; rewrite get_value_control; cbv beta iota).
  destruct (Summary.stocks summary); [reflexivity|reflexivity|discriminate].
Qed.

(** X9. What stops [applyFilters] once the summary is loaded.  If one of
    the four controls is not in the document, it throws a TypeError; if
    they are all there and the summary has no [stocks], spreading
    [summaryData.stocks] throws one.  In both cases it throws before it
    disposes a chart or writes the table: the page is as it was. *)
Theorem applyFilters_guards (w : World) (summary : Summary.t) :
  summaryData w = Val summary ->
  ((exists id, In id ["search-input"; "sector-filter"; "signal-filter"; "sort-by"] /\
               document w !! id = None) ->
   applyFilters w = (Throw (TypeError "value"), w)) /\
  ((forall id, In id ["search-input"; "sector-filter"; "signal-filter"; "sort-by"] ->
               is_Some (document w !! id)) ->
   is_nullish (Summary.stocks summary) = true ->
   applyFilters w = (Throw (TypeError "Symbol.iterator"), w)).
Proof.
  intros Hsum. split.
  - now apply applyFilters_stops with summary.
  - now apply applyFilters_without_stocks.
Qed.

End FilterGuards.

(** ** The detail page: early returns, partial documents, chart content *)

Section DetailExtras.
Context `{Engine}.

(** X10. The two early returns of [init] on the detail page.  Without a
    [symbol] parameter (absent or empty) the body is replaced by the 'No
    symbol specified.' message and nothing else changes: the title stays
    and no chart is made.  With a symbol whose document cannot be loaded,
    the title names the symbol, the body is replaced by the 'Failed to load
    data' message that names it, and no chart is made.  In both cases
    [init] returns without error. *)
Theorem detail_init_early_returns (w : World) :
  (forall param,
     match param with Val (String _ _) => False | _ => True end ->
     init param w = (Normal tt, set_body (Message "No symbol specified." true) w)) /\
  (forall c rest,
     stockFile w (String c rest) = None ->
     exists w',
       init (Val (String c rest)) w = (Normal tt, w') /\
       title w' = String c rest +:+ " - Nasdaq 100 Analysis" /\
       body w' = Some (Message ("Failed to load data for " +:+ String c rest +:+ ".") true) /\
       document w' = ∅ /\ instances w' = instances w).
Proof.
  split.
  - intros [| |[|c rest]] Hp; try contradiction; reflexivity.
  - intros c rest Hnone. unfold init, bind, modify, loadStockData, read. simpl.
    rewrite Hnone. eexists. split; [reflexivity|]. repeat split; reflexivity.
Qed.

(** X11. A detail document that has price history, metrics, technicals and
    an [indicators] object, on a page with its eight elements: [init]
    returns without error, and the container of each series that the
    indicators leave out (RSI, MACD, Bollinger bands) keeps its content and
    gets no chart. *)
Theorem detail_init_skips_absent_series
    (w : World) (c : ascii) (rest : string) (data : Detail.t)
    (ind : Indicators.t) (history : list Bar.t) (m : Metrics.t) (t : Technicals.t) :
  stockFile w (String c rest) = Some data ->
  Detail.indicators data = Val ind -> Detail.priceHistory data = Val history ->
  Detail.metrics data = Val m -> Detail.technicals data = Val t ->
  (forall id, In id detail_elements -> is_Some (document w !! id)) ->
  exists w',
    init (Val (String c rest)) w = (Normal tt, w') /\
    forall id, In id (skipped ind) ->
      document w' !! id = document w !! id /\
      forall h chart,
        instances w' !! h = Some chart -> Chart.dom chart = TopLevel id ->
        exists chart0, instances w !! h = Some chart0 /\ Chart.dom chart0 = TopLevel id.
Proof.
  intros Hf Hi Hh Hm Ht Hel.
  destruct (init_skips_missing_series w c rest data ind history m t Hf Hi Hh Hm Ht Hel)
    as ([] & w' & Hrun & Hk).
  exists w'. split; [exact Hrun|]. intros id Hid. split.
  - now apply (kept_content _ _ _ Hk).
  - intros h chart Hc Hd. now apply (kept_instances _ _ _ Hk id h chart).
Qed.

(** X12. A detail document without an [indicators] object, whatever its
    price history, metrics and technicals hold, on a page with its eight
    elements: [init] throws a TypeError, because [drawCandlestickChart]
    reads [data.indicators[ma.key]] without the guard that [init] itself
    applies to the indicators; the key statistics and the containers of the
    three indicator charts are left as the page file has them. *)
Theorem detail_init_needs_indicators
    (w : World) (c : ascii) (rest : string) (data : Detail.t)
    (history : list Bar.t) (m : Metrics.t) (t : Technicals.t) :
  stockFile w (String c rest) = Some data ->
  is_nullish (Detail.indicators data) = true ->
  Detail.priceHistory data = Val history ->
  Detail.metrics data = Val m -> Detail.technicals data = Val t ->
  (forall id, In id detail_elements -> is_Some (document w !! id)) ->
  exists w',
    init (Val (String c rest)) w = (Throw (TypeError "ma5"), w') /\
    forall id, In id ["key-stats"; "rsi-chart"; "macd-chart"; "bollinger-chart"] ->
      document w' !! id = document w !! id.
Proof.
  intros Hf Hi Hh Hm Ht Hel.
  destruct (init_without_indicators w c rest data history m t Hf Hi Hh Hm Ht Hel)
    as (w' & Hrun & H1 & H2 & H3 & H4).
  exists w'. split; [exact Hrun|]. simpl. intros id Hid.
  repeat (destruct Hid as [<-|Hid]; [assumption|]). contradiction.
Qed.

(** X13. A detail document without a price history: [init] throws a
    TypeError on [data.priceHistory.map], whether or not the indicators
    carry their own dates.  No chart is made in any of the four chart
    containers and the key statistics are never written, so the guard on
    [data.priceHistory] in [renderKeyStats] is never reached from [init]. *)
Theorem detail_init_needs_priceHistory
    (w : World) (c : ascii) (rest : string) (data : Detail.t)
    (m : Metrics.t) (t : Technicals.t) :
  stockFile w (String c rest) = Some data ->
  is_nullish (Detail.priceHistory data) = true ->
  Detail.metrics data = Val m -> Detail.technicals data = Val t ->
  (forall id, In id detail_elements -> is_Some (document w !! id)) ->
  exists w',
    init (Val (String c rest)) w = (Throw (TypeError "map"), w') /\
    forall id,
      In id ["candlestick-chart"; "rsi-chart"; "macd-chart"; "bollinger-chart"; "key-stats"] ->
      document w' !! id = document w !! id /\
      forall h chart,
        instances w' !! h = Some chart -> Chart.dom chart = TopLevel id ->
        exists chart0, instances w !! h = Some chart0 /\ Chart.dom chart0 = TopLevel id.
Proof.
  intros Hf Hh Hm Ht Hel.
  set (ids := ["candlestick-chart"; "rsi-chart"; "macd-chart"; "bollinger-chart"; "key-stats"]).
  assert (Hpresent : forall id w', In id detail_elements ->
            kept ids w w' -> is_Some (document w' !! id)).
  { intros id w' Hid Hk. apply (kept_elements _ _ _ Hk), Hel, Hid. }
  assert (Hout : forall id, id <> "candlestick-chart" -> id <> "rsi-chart" ->
            id <> "macd-chart" -> id <> "bollinger-chart" -> id <> "key-stats" ->
            ~ In id ids).
  { intros id H1 H2 H3 H4 H5 Hin. simpl in Hin. intuition congruence. }
  enough (Hthrows : throws (init (Val (String c rest))) w (TypeError "map")
                      (fun w' => kept ids w w')).
  { destruct Hthrows as (w' & Hrun & Hk). exists w'.
    split; [exact Hrun|]. intros id Hid. split.
    - now apply (kept_content _ _ _ Hk).
    - intros h chart Hc Hd. now apply (kept_instances _ _ _ Hk id h chart). }
  unfold init.
  apply throws_bind, (returns_set_title ids _ w); [apply kept_refl|].
  intros w1 Hk1.
  apply throws_bind, (returns_loadStockData ids _ data w); auto.
  apply throws_bind, returns_getElementById; [apply Hpresent; simpl; tauto|].
  apply throws_bind, (returns_set_innerHTML ids _ _ w);
    [auto|apply Hout; discriminate|]. intros w2 Hk2.
  apply throws_bind, returns_getElementById; [apply Hpresent; simpl; tauto|].
  apply throws_bind, (returns_set_innerHTML ids _ _ w);
    [auto|apply Hout; discriminate|]. intros w3 Hk3.
  apply throws_bind, (returns_renderMetricCards ids data m t w);
    [auto|apply Hout; discriminate|apply Hel; simpl; tauto|auto|auto|].
  intros w4 Hk4.
  exists w4. split.
  - unfold bind, member, ret, throw.
    destruct (Detail.priceHistory data); try discriminate;
      destruct (Detail.indicators data) as [| |[[| |dates] ? ? ? ? ? ? ? ?]];
      reflexivity.
  - exact Hk4.
Qed.

End DetailExtras.

(** ** The sector filter *)

(** The order of strings by code units is transitive. *)
Lemma string_leb_trans (a b c : string) :
  String.leb a b = true -> String.leb b c = true -> String.leb a c = true.
Proof.
  unfold String.leb.
  assert (Hc : String.compare a b <> Gt -> String.compare b c <> Gt ->
               String.compare a c <> Gt).
  { revert b c. induction a as [|x a IH]; intros [|y b] [|z c]; simpl;
      try congruence.
    unfold Ascii.compare.
    destruct (N.compare_spec (N_of_ascii x) (N_of_ascii y)) as [Exy|Lxy|Gxy];
      destruct (N.compare_spec (N_of_ascii y) (N_of_ascii z)) as [Eyz|Lyz|Gyz];
      destruct (N.compare_spec (N_of_ascii x) (N_of_ascii z)) as [Exz|Lxz|Gxz];
      try congruence; try lia.
    apply IH. }
  intros Hab Hbc.
  destruct (String.compare a b) eqn:Eab; try discriminate;
    destruct (String.compare b c) eqn:Ebc; try discriminate;
    destruct (String.compare a c) eqn:Eac; try reflexivity;
    exfalso; apply Hc; congruence.
Qed.

Lemma default_compare_before (a b : string) :
  (DashboardPage.default_compare a b <? 0)%Z = true -> String.leb a b = true.
Proof.
  unfold DashboardPage.default_compare, String.leb.
  destruct (String.compare a b); vm_compute; congruence.
Qed.

Lemma default_compare_after (a b : string) :
  (DashboardPage.default_compare a b <? 0)%Z = false -> String.leb b a = true.
Proof.
  unfold DashboardPage.default_compare, String.leb.
  rewrite (String.compare_antisym b a).
  destruct (String.compare a b); vm_compute; congruence.
Qed.

Lemma default_sort_sorted (l : list string) :
  StronglySorted (fun a b => String.leb a b = true)
    (Array.sort DashboardPage.default_compare l).
Proof.
  apply SortedFacts.sort_sorted with (P := fun _ => True).
  - intros x y z _ _ _. apply string_leb_trans.
  - intros x y _ _. apply default_compare_before.
  - intros x y _ _. apply default_compare_after.
  - apply List.Forall_forall. auto.
Qed.

Section SectorFilter.
Context `{Engine}.
Import DashboardPage.

Lemma each_appendOption (select : node) (l : list string) (d : t) :
  each l (appendOption (Some select)) d
  = (Normal tt, {| world := world d; sectorOptions := sectorOptions d ++ l;
                   listeners := listeners d |}).
Proof.
  revert d. induction l as [|s l IH]; intros d; simpl.
  - unfold pure. rewrite app_nil_r. destruct d; reflexivity.
  - unfold andThen. simpl. rewrite IH. simpl. rewrite <- app_assoc. reflexivity.
Qed.

Lemma populateSectorFilter_run (summary : Summary.t) (d : t) :
  is_Some (document (world d) !! "sector-filter") ->
  populateSectorFilter summary d
  = (Normal tt, {| world := world d;
                   sectorOptions :=
                     sectorOptions d ++ Array.sort default_compare (sector_names summary);
                   listeners := listeners d |}).
Proof.
  intros Hel. unfold populateSectorFilter, andThen, lift.
  rewrite (getElementById_present _ _ Hel). unfold sector_names.
  destruct (Summary.sectorStats summary) as [| |stats];
    try (unfold pure; simpl; rewrite app_nil_r; reflexivity).
  now rewrite each_appendOption.
Qed.

(** X14. [populateSectorFilter] on a page that has the sector select
    appends one option for each entry of the summary's [sectorStats], in
    the order of the sector names by code units; it does not remove the
    options that are there, so a second call would list every sector twice.
    It changes nothing else. *)
Theorem sector_options_sorted (summary : Summary.t) (d : t) :
  is_Some (document (world d) !! "sector-filter") ->
  exists d' added,
    populateSectorFilter summary d = (Normal tt, d') /\
    sectorOptions d' = sectorOptions d ++ added /\
    Permutation added (sector_names summary) /\
    StronglySorted (fun a b => String.leb a b = true) added /\
    world d' = world d /\ listeners d' = listeners d.
Proof.
  intros Hel. eexists. exists (Array.sort default_compare (sector_names summary)).
  split; [now apply populateSectorFilter_run|]. simpl.
  split; [reflexivity|]. split; [apply ArrayFacts.sort_Permutation|].
  split; [apply default_sort_sorted|]. split; reflexivity.
Qed.

(** X15. [populateSectorFilter] on a page without the sector select: with
    no sector to add (no [sectorStats], or an empty one) it returns
    without error; with at least one sector it throws a TypeError at the
    first [appendChild].  Nothing is appended in either case. *)
Theorem sector_options_without_select (summary : Summary.t) (d : t) :
  document (world d) !! "sector-filter" = None ->
  exists d',
    populateSectorFilter summary d
    = (match sector_names summary with
       | [] => Normal tt
       | _ => Throw (TypeError "appendChild")
       end, d') /\
    sectorOptions d' = sectorOptions d /\ world d' = world d /\
    listeners d' = listeners d.
Proof.
  intros Hel. unfold populateSectorFilter, andThen, lift.
  rewrite getElementById_absent by (auto; reflexivity).
  unfold sector_names.
  destruct (Summary.sectorStats summary) as [| |stats];
    try (eexists; split; [reflexivity|]; repeat split; reflexivity).
  pose proof (ArrayFacts.sort_length default_compare (map fst stats)) as Hlen.
  destruct (Array.sort default_compare (map fst stats)) as [|s l];
    destruct (map fst stats) as [|s0 l0]; try discriminate Hlen;
    eexists; (split; [reflexivity|]); repeat split; reflexivity.
Qed.

End SectorFilter.

(** ** The dashboard's init *)

Section Repaint.
Context `{Engine}.


Lemma repainted_trans (w1 w2 w3 : World) :
  repainted w1 w2 -> repainted w2 w3 -> repainted w1 w3.
Proof.
  intros [e1 c1 t1 b1 m1 i1 n1 d1 r1 f1 s1 g1 a1 z1 y1]
         [e2 c2 t2 b2 m2 i2 n2 d2 r2 f2 s2 g2 a2 z2 y2].
  constructor; try congruence.
  all: intros id; first [rewrite e2; apply e1 | rewrite c2; apply c1].
Qed.

(** Writing the content of an element other than the table body. *)
Lemma repainted_alter (id : string) (m : markup) (w : World) :
  id <> "stock-table-body" ->
  repainted w (set_document
                 (alter (fun e => {| Element.value := Element.value e;
                                     Element.innerHTML := m |}) id) w).
Proof.
  intros Hne. constructor; try reflexivity; simpl.
  - intros i. apply lookup_alter_is_Some.
  - intros i. unfold control_value. simpl.
    destruct (decide (i = id)) as [->|Hi].
    + rewrite lookup_alter_eq. destruct (document w !! id); reflexivity.
    + rewrite lookup_alter_ne by congruence. reflexivity.
  - rewrite lookup_alter_ne by congruence. reflexivity.
Qed.

Lemma set_innerHTML_run (id : string) (m : markup) (w : World) :
  id <> "stock-table-body" ->
  set_innerHTML (Some (TopLevel id)) m w
  = (Normal tt, set_document
                  (alter (fun e => {| Element.value := Element.value e;
                                      Element.innerHTML := m |}) id) w).
Proof.
  intros Hne. unfold set_innerHTML, modify.
  apply String.eqb_neq in Hne. rewrite Hne. reflexivity.
Qed.

Lemma returns_repaint (id : string) (m : markup) (w0 w : World)
    (Q : unit -> World -> Prop) :
  repainted w0 w -> id <> "stock-table-body" ->
  (forall w', repainted w0 w' -> Q tt w') ->
  returns (set_innerHTML (Some (TopLevel id)) m) w Q.
Proof.
  intros Hr Hne HQ. eexists tt, _. split; [now apply set_innerHTML_run|].
  apply HQ, (repainted_trans _ w); [exact Hr|now apply repainted_alter].
Qed.

Lemma returns_present (id : string) (w0 w : World) (Q : option node -> World -> Prop) :
  repainted w0 w -> is_Some (document w0 !! id) ->
  Q (Some (TopLevel id)) w -> returns (getElementById id) w Q.
Proof.
  intros Hr Hel HQ. apply returns_getElementById; [|exact HQ].
  now apply (repainted_elements _ _ Hr).
Qed.

Lemma returns_renderOverviewCards (summary : Summary.t) (o : Overview.t)
    (w0 w : World) (Q : unit -> World -> Prop) :
  repainted w0 w -> is_Some (document w0 !! "overview-cards") ->
  Summary.marketOverview summary = Val o ->
  (forall w', repainted w0 w' -> Q tt w') ->
  returns (renderOverviewCards summary) w Q.
Proof.
  intros Hr Hel Ho HQ. unfold renderOverviewCards.
  apply returns_bind, (returns_present _ w0); auto.
  apply returns_bind, (returns_member _ o); auto.
  apply (returns_repaint _ _ w0); auto; discriminate.
Qed.

Lemma returns_renderList (id : string) (l : nullable (list Ranked.t)) (isGainer : bool)
    (w0 w : World) (Q : unit -> World -> Prop) :
  repainted w0 w -> is_Some (document w0 !! id) -> id <> "stock-table-body" ->
  (forall w', repainted w0 w' -> Q tt w') ->
  returns (renderList id l isGainer) w Q.
Proof.
  intros Hr Hel Hne HQ. unfold renderList.
  apply returns_bind, (returns_present _ w0); auto.
  destruct l as [| |[|s l]];
    [apply returns_ret; auto ..|apply (returns_repaint _ _ w0); auto].
Qed.

Lemma returns_renderPerformers (summary : Summary.t)
    (w0 w : World) (Q : unit -> World -> Prop) :
  repainted w0 w ->
  is_Some (document w0 !! "top-gainers") -> is_Some (document w0 !! "top-losers") ->
  (forall w', repainted w0 w' -> Q tt w') ->
  returns (renderPerformers summary) w Q.
Proof.
  intros Hr Hg Hl HQ. unfold renderPerformers.
  destruct (Summary.rankings summary) as [| |rankings];
    [apply returns_ret; auto ..|].
  apply returns_bind, (returns_renderList _ _ _ w0); auto; try discriminate.
  intros w1 Hr1. apply (returns_renderList _ _ _ w0); auto; discriminate.
Qed.

End Repaint.

Section DashboardScript.
Context `{Engine}.
Import DashboardPage.
Local Open Scope dash_scope.

Lemma runs_andThen {A B} (m : Script A) (k : A -> Script B) (d : t)
    (Q : B -> t -> Prop) :
  runs m d (fun a d1 => runs (k a) d1 Q) -> runs (andThen m k) d Q.
Proof.
  intros (a & d1 & Hm & b & d2 & Hk & HQ). exists b, d2.
  unfold andThen. rewrite Hm. auto.
Qed.

Lemma runs_lift {A} (m : JS A) (d : t) (Q : A -> t -> Prop) :
  returns m (world d) (fun a w' => Q a (with_world d w')) -> runs (lift m) d Q.
Proof.
  intros (a & w' & Hm & HQ). exists a, (with_world d w').
  unfold lift. rewrite Hm. auto.
Qed.

Lemma fails_andThen {A B} (m : Script A) (k : A -> Script B) (d : t) (e : error)
    (Q : t -> Prop) :
  runs m d (fun a d1 => fails (k a) d1 e Q) -> fails (andThen m k) d e Q.
Proof.
  intros (a & d1 & Hm & d2 & Hk & HQ). exists d2.
  unfold andThen. rewrite Hm. auto.
Qed.

Lemma fails_first {A B} (m : Script A) (k : A -> Script B) (d : t) (e : error)
    (Q : t -> Prop) :
  fails m d e Q -> fails (andThen m k) d e Q.
Proof.
  intros (d1 & Hm & HQ). exists d1. unfold andThen. rewrite Hm. auto.
Qed.

Lemma fails_lift {A} (m : JS A) (d : t) (e : error) (Q : t -> Prop) :
  throws m (world d) e (fun w' => Q (with_world d w')) -> fails (lift m) d e Q.
Proof.
  intros (w' & Hm & HQ). exists (with_world d w').
  unfold lift. rewrite Hm. auto.
Qed.

Lemma andThen_lift {A B} (m : JS A) (k : A -> Script B) (d : t) (a : A) (w' : World) :
  m (world d) = (Normal a, w') -> andThen (lift m) k d = k a (with_world d w').
Proof. intros Hm. unfold andThen, lift. rewrite Hm. reflexivity. Qed.

Lemma addEventListener_run (id type : string) (d : t) :
  is_Some (document (world d) !! id) ->
  addEventListener id type d
  = (Normal tt, {| world := world d; sectorOptions := sectorOptions d;
                   listeners := listeners d ++ [(id, type)] |}).
Proof.
  intros Hel. unfold addEventListener.
  rewrite (andThen_lift _ _ d (Some (TopLevel id)) (world d))
    by now apply getElementById_present.
  reflexivity.
Qed.

Lemma returns_renderSectorHeatmap (summary : Summary.t)
    (w0 w : World) (Q : unit -> World -> Prop) :
  repainted w0 w -> is_Some (document w0 !! "sector-heatmap") ->
  heatmap_ok summary ->
  (forall w', repainted w0 w' -> Q tt w') ->
  returns (renderSectorHeatmap summary) w Q.
Proof.
  intros Hr Hel Hok HQ. unfold heatmap_ok in Hok.
  assert (Hel' : is_Some (document w !! "sector-heatmap"))
    by now apply (repainted_elements _ _ Hr).
  destruct (Summary.sectorStats summary) as [| |stats] eqn:Hs.
  - unfold renderSectorHeatmap. rewrite Hs.
    apply returns_bind, returns_getElementById; auto. apply returns_ret; auto.
  - unfold renderSectorHeatmap. rewrite Hs.
    apply returns_bind, returns_getElementById; auto. apply returns_ret; auto.
  - pose proof (renderSectorHeatmap_run summary stats w Hel' Hs) as Hrun.
    rewrite Hok in Hrun. destruct Hrun as (tiles & Hrun & _).
    eexists tt, _. split; [exact Hrun|].
    apply HQ, (repainted_trans _ w); [exact Hr|].
    apply repainted_alter. discriminate.
Qed.

Lemma charts_ok_same (w w' : World) :
  charts_ok w ->
  sparklineCharts w' = sparklineCharts w -> instances w' = instances w ->
  disposed w' = disposed w -> idBase w' = idBase w ->
  charts_ok w'.
Proof.
  intros [Hnd Hlive Hdis Hmade Hnot] Hr Hi Hd Hb.
  constructor; unfold live in *; rewrite ?Hr, ?Hi, ?Hd, ?Hb; assumption.
Qed.

(** [applyFilters] on a ready dashboard, and the paint that follows. *)
Lemma applyFilters_then_paint (w0 : World) (stocks : list Stock) :
  dashboard_ready w0 stocks -> NoDup (map symbol stocks) ->
  exists w1 w2,
    applyFilters w0 = (Normal tt, w1) /\
    (forall id, is_Some (document w1 !! id) <-> is_Some (document w0 !! id)) /\
    allStocks w1 = allStocks w0 /\
    animationFrame w1 = (Normal tt, w2) /\
    dashboard_ready w2 stocks /\ registry_matches w2 stocks /\
    (forall id, id <> "stock-table-body" -> control_value w2 id = control_value w0 id).
Proof.
  intros Hready0 Hnd.
  destruct (applyFilters_run w0 stocks Hready0)
    as (w1 & Hrun1 & Hdoc1 & Hm1 & Hi1 & Hreg1 & Hd1 & Hf1 & Hb1 & Ha1 & Hs1).
  destruct Hready0 as [Hsum0 Hel0 Hids0 Hfr0 Hok0].
  rewrite Hfr0 in Hf1. simpl in Hf1.
  set (rows := current_rows w0 stocks) in *.
  set (w1' := set_frames (fun _ => []) w1).
  assert (Hok1 : charts_ok w1') by (apply (charts_ok_reset w0); assumption).
  assert (Hsome : forall id, is_Some (document w1' !! id) <-> is_Some (document w0 !! id)).
  { intros id. simpl. rewrite Hdoc1. apply lookup_alter_is_Some. }
  assert (Hrows : rendered_rows w1' = imap stock_row rows).
  { unfold rendered_rows. simpl. rewrite Hdoc1, lookup_alter_eq.
    destruct (Hel0 "stock-table-body") as [el Hel']; [simpl; tauto|].
    rewrite Hel'. reflexivity. }
  destruct (draw_rows_run (allStocks w0) rows w1') as
    (w2 & new & Hrun2 & Hok2 & Hreg2 & Hlen2 & Hun2).
  - exact Hok1.
  - intros id Hid. apply Hids0, Hsome, Hid.
  - intros s Hs. now apply (has_mount_rendered w1' rows).
  - now apply filtered_NoDup_symbols.
  - intros s _. simpl. rewrite Hm1. apply lookup_empty.
  - destruct Hun2 as [Hdoc2 Hd2 Hf2 Ha2 Hs2]. simpl in *.
    assert (Hctl : forall id, id <> "stock-table-body" ->
                     control_value w2 id = control_value w0 id).
    { intros id Hne. unfold control_value.
      rewrite Hdoc2, Hdoc1, lookup_alter_ne by congruence. reflexivity. }
    assert (Hcur : current_rows w2 stocks = rows).
    { unfold rows, current_rows. rewrite !Hctl by discriminate. reflexivity. }
    exists w1, w2. split; [exact Hrun1|]. split; [exact Hsome|].
    split; [exact Ha1|]. split; [|split; [|split]].
    + unfold animationFrame, bind, read, modify. rewrite Hf1. simpl.
      unfold try_catch, bind. fold w1'. rewrite Hrun2. reflexivity.
    + constructor.
      * rewrite Hs2, Hs1. exact Hsum0.
      * intros id Hid. rewrite Hdoc2. apply Hsome, Hel0, Hid.
      * intros id Hid. rewrite Hdoc2 in Hid. apply Hids0, Hsome, Hid.
      * exact Hf2.
      * exact Hok2.
    + split.
      * rewrite Hcur. unfold rendered_rows in *. now rewrite Hdoc2.
      * rewrite Hcur, Hreg2, Hreg1, Ha2, Ha1. simpl. exact Hlen2.
    + exact Hctl.
Qed.

(** [init] up to the renderers: the summary is loaded, the header is
    written and the detail documents are stored. *)
Lemma init_prefix (d : t) (summary : Summary.t) (schedule : list nat) :
  summaryFile (world d) = Some summary ->
  is_Some (document (world d) !! "analysis-date") ->
  is_Some (document (world d) !! "stock-count") ->
  settles schedule summary ->
  exists w,
    init schedule d
    = (do lift (renderOverviewCards summary) then
       do lift (renderSectorHeatmap summary) then
       do populateSectorFilter summary then
       do lift (renderPerformers summary) then
       do lift applyFilters then
       do addEventListener "search-input" "input" then
       do addEventListener "sector-filter" "change" then
       do addEventListener "signal-filter" "change" then
       do addEventListener "sort-by" "change" then
       pure Finished) (with_world d w) /\
    repainted (set_globals (omap (fun s => stockFile (world d) (symbol s))
                                 (stock_list summary))
                           (Val summary) (world d)) w /\
    content w "analysis-date" = Some (TextContent (analysis_date summary)) /\
    content w "stock-count" = Some (TextContent (stock_count summary)) /\
    (forall id, id <> "analysis-date" -> id <> "stock-count" ->
       document w !! id = document (world d) !! id).
Proof.
  intros Hfile Hdate Hcount Hsettles.
  set (text t := fun e => {| Element.value := Element.value e;
                             Element.innerHTML := TextContent t |}).
  set (w1 := set_globals (allStocks (world d)) (Val summary) (world d)).
  set (w2 := set_document (alter (text (analysis_date summary)) "analysis-date") w1).
  set (w3 := set_document (alter (text (stock_count summary)) "stock-count") w2).
  set (loaded := omap (fun s => stockFile (world d) (symbol s)) (stock_list summary)).
  exists (set_globals loaded (Val summary) w3).
  split; [|split; [|split; [|split]]].
  - unfold init.
    rewrite (andThen_lift _ _ d (Val summary) w1)
      by (unfold loadSummary; rewrite Hfile; reflexivity).
    cbv beta iota.
    rewrite (andThen_lift _ _ _ (Some (TopLevel "analysis-date")) w1)
      by (apply getElementById_present; exact Hdate).
    rewrite (andThen_lift _ _ _ tt w2)
      by (apply set_innerHTML_run; discriminate).
    rewrite (andThen_lift _ _ _ (Some (TopLevel "stock-count")) w2)
      by (apply getElementById_present; simpl; apply lookup_alter_is_Some; exact Hcount).
    rewrite (andThen_lift _ _ _ tt w3)
      by (apply set_innerHTML_run; discriminate).
    rewrite (andThen_lift _ _ _ (Some loaded) w3)
      by (apply (loadAllStockData_settled w3 summary); [reflexivity|exact Hsettles]).
    cbv beta iota.
    rewrite (andThen_lift _ _ _ tt (set_globals loaded (Val summary) w3))
      by reflexivity.
    reflexivity.
  - assert (H2 : repainted w1 w2) by (apply repainted_alter; discriminate).
    assert (H3 : repainted w2 w3) by (apply repainted_alter; discriminate).
    pose proof (repainted_trans _ _ _ H2 H3) as [e c t' b m i n dd r f s g a z y].
    constructor; try assumption; try reflexivity.
  - unfold content. simpl. rewrite lookup_alter_ne by discriminate.
    rewrite lookup_alter_eq. destruct Hdate as [el ->]. reflexivity.
  - unfold content. simpl. rewrite lookup_alter_eq.
    rewrite lookup_alter_ne by discriminate.
    destruct Hcount as [el ->]. reflexivity.
  - intros id H1 H2. simpl. rewrite !lookup_alter_ne by congruence. reflexivity.
Qed.

End DashboardScript.

Section DashboardInit.
Context `{Engine}.
Import DashboardPage.
Local Open Scope dash_scope.

(** What the renderers of [init] leave of a page that was fit for it. *)
Lemma ready_after_renderers
    (w0 w : World) (summary : Summary.t) (loaded : list Detail.t) (stocks : list Stock) :
  repainted (set_globals loaded (Val summary) w0) w ->
  Summary.stocks summary = Val stocks ->
  (forall id, In id dashboard_elements -> is_Some (document w0 !! id)) ->
  (forall id, is_Some (document w0 !! id) -> mount_symbol id = None) ->
  frames w0 = [] -> charts_ok w0 ->
  dashboard_ready w stocks.
Proof.
  intros [e c t' b m i n dd r f s g a z y] Hstocks Hel Hids Hfr Hok. simpl in *.
  constructor.
  - exists summary. split; [exact g|exact Hstocks].
  - intros id Hid. apply e, Hel. simpl in *. tauto.
  - intros id Hid. apply Hids, e, Hid.
  - now rewrite f.
  - now apply (charts_ok_same w0).
Qed.

(** X16. [init] on a dashboard page as its file declares it, with a
    summary that has its market overview and stock list and no sector
    with a [null] best performer, once every fetch has settled: [init]
    returns without error; the sector names are appended to the sector
    select in sorted order; the four filter listeners are registered;
    [allStocks] holds the documents that loaded, in the order of the stock
    list; and after the next paint the page is a ready dashboard on which
    the table shows the current rows and the registry holds one handle for
    each row with a price history. *)
Theorem dashboard_init_ready
    (d : t) (summary : Summary.t) (stocks : list Stock) (o : Overview.t)
    (schedule : list nat) :
  summaryFile (world d) = Some summary ->
  Summary.stocks summary = Val stocks ->
  Summary.marketOverview summary = Val o ->
  heatmap_ok summary ->
  NoDup (map symbol stocks) ->
  (forall i, (i < List.length stocks)%nat -> i ∈ schedule) ->
  (forall id, In id dashboard_elements -> is_Some (document (world d) !! id)) ->
  (forall id, is_Some (document (world d) !! id) -> mount_symbol id = None) ->
  frames (world d) = [] -> charts_ok (world d) ->
  exists d',
    init schedule d = (Normal Finished, d') /\
    sectorOptions d'
    = sectorOptions d ++ Array.sort default_compare (sector_names summary) /\
    listeners d' = listeners d ++ filter_listeners /\
    allStocks (world d') = omap (fun s => stockFile (world d) (symbol s)) stocks /\
    exists w'',
      animationFrame (world d') = (Normal tt, w'') /\
      dashboard_ready w'' stocks /\ registry_matches w'' stocks.
Proof.
  intros Hfile Hstocks Ho Hheat Hnd Hsched Hel Hids Hfr Hok.
  assert (Hsettles : settles schedule summary) by (unfold settles; now rewrite Hstocks).
  destruct (init_prefix d summary schedule Hfile) as (w4 & Hinit & Hr4 & _ & _ & _);
    [apply Hel; simpl; tauto|apply Hel; simpl; tauto|exact Hsettles|].
  unfold stock_list in Hr4. rewrite Hstocks in Hr4.
  set (loaded := omap (fun s => stockFile (world d) (symbol s)) stocks) in *.
  set (b := set_globals loaded (Val summary) (world d)) in *.
  assert (Hpresent : forall id, In id dashboard_elements -> is_Some (document b !! id))
    by exact Hel.
  enough (Hruns : runs (init schedule) d (fun a d' =>
            a = Finished /\
            sectorOptions d'
            = sectorOptions d ++ Array.sort default_compare (sector_names summary) /\
            listeners d' = listeners d ++ filter_listeners /\
            allStocks (world d') = loaded /\
            exists w'',
              animationFrame (world d') = (Normal tt, w'') /\
              dashboard_ready w'' stocks /\ registry_matches w'' stocks)).
  { destruct Hruns as (a & d' & Hrun & -> & HQ). exists d'.
    split; [exact Hrun|exact HQ]. }
  unfold runs. rewrite Hinit. fold (runs (A := progress)).
  apply runs_andThen, runs_lift, (returns_renderOverviewCards _ o b);
    [exact Hr4|apply Hpresent; simpl; tauto|exact Ho|]. intros w5 Hr5.
  apply runs_andThen, runs_lift, (returns_renderSectorHeatmap _ b);
    [exact Hr5|apply Hpresent; simpl; tauto|exact Hheat|]. intros w6 Hr6.
  apply runs_andThen. eexists tt, _. split.
  { apply populateSectorFilter_run. cbn [world with_world].
    apply (repainted_elements _ _ Hr6), Hpresent. simpl. tauto. }
  cbn [world sectorOptions listeners with_world].
  apply runs_andThen, runs_lift, (returns_renderPerformers _ b);
    [exact Hr6|apply Hpresent; simpl; tauto|apply Hpresent; simpl; tauto|].
  intros w7 Hr7. cbn [world sectorOptions listeners with_world].
  assert (Hready : dashboard_ready w7 stocks)
    by (apply (ready_after_renderers (world d) w7 summary loaded); assumption).
  destruct (applyFilters_then_paint w7 stocks Hready Hnd)
    as (w8 & w9 & Hrun8 & Hel8 & Ha8 & Hrun9 & Hready9 & Hmatch9 & _).
  assert (Hcontrol : forall id, In id dashboard_elements -> is_Some (document w8 !! id)).
  { intros id Hid. apply Hel8, (repainted_elements _ _ Hr7), Hpresent, Hid. }
  apply runs_andThen, runs_lift. exists tt, w8. split; [exact Hrun8|].
  cbn [world sectorOptions listeners with_world].
  apply runs_andThen. eexists tt, _. split.
  { apply addEventListener_run. apply Hcontrol. simpl. tauto. }
  cbn [world sectorOptions listeners].
  apply runs_andThen. eexists tt, _. split.
  { apply addEventListener_run. apply Hcontrol. simpl. tauto. }
  cbn [world sectorOptions listeners].
  apply runs_andThen. eexists tt, _. split.
  { apply addEventListener_run. apply Hcontrol. simpl. tauto. }
  cbn [world sectorOptions listeners].
  apply runs_andThen. eexists tt, _. split.
  { apply addEventListener_run. apply Hcontrol. simpl. tauto. }
  cbn [world sectorOptions listeners].
  eexists Finished, _. split; [reflexivity|].
  cbn [world sectorOptions listeners].
  split; [reflexivity|].
  split; [reflexivity|]. split; [rewrite <- !app_assoc; reflexivity|].
  split; [transitivity (allStocks w7);
            [exact Ha8|exact (repainted_allStocks _ _ Hr7)]|].
  exists w9. auto.
Qed.

(** X17. [init] when the summary cannot be loaded: the body is replaced by
    the 'Failed to load data' message and [init] returns.  Nothing else
    happens: no listener is registered, no option is added, no callback
    waits for a paint, and [summaryData] and [allStocks] are what they
    were. *)
Theorem dashboard_init_without_summary (d : t) (schedule : list nat) :
  summaryFile (world d) = None ->
  exists d',
    init schedule d = (Normal Finished, d') /\
    body (world d')
    = Some (Message "Failed to load data. Make sure the server is running and data/summary.json exists."
                    false) /\
    document (world d') = ∅ /\
    listeners d' = listeners d /\ sectorOptions d' = sectorOptions d /\
    frames (world d') = frames (world d) /\
    summaryData (world d') = summaryData (world d) /\
    allStocks (world d') = allStocks (world d).
Proof.
  intros Hfile. unfold init.
  rewrite (andThen_lift _ _ d Null (world d))
    by (unfold loadSummary; rewrite Hfile; reflexivity).
  cbv beta iota. unfold andThen, lift, pure, set_body_innerHTML, modify.
  eexists. split; [reflexivity|]. repeat split; reflexivity.
Qed.

(** X18. [init] with a summary that has no [stocks].  [loadAllStockData]
    tolerates it, with no document to load, and [init] goes on through the
    renderers to where the sector options are added; then [applyFilters]
    throws a TypeError on [summaryData.stocks], so that [init] fails before
    the table is written and before any of the four listeners is
    registered: the controls of the page stay without effect. *)
Theorem dashboard_init_without_stocks
    (d : t) (summary : Summary.t) (o : Overview.t) (schedule : list nat) :
  summaryFile (world d) = Some summary ->
  is_nullish (Summary.stocks summary) = true ->
  Summary.marketOverview summary = Val o ->
  heatmap_ok summary ->
  (forall id, In id dashboard_elements -> is_Some (document (world d) !! id)) ->
  exists d',
    init schedule d = (Throw (TypeError "Symbol.iterator"), d') /\
    sectorOptions d'
    = sectorOptions d ++ Array.sort default_compare (sector_names summary) /\
    listeners d' = listeners d /\
    document (world d') !! "stock-table-body" = document (world d) !! "stock-table-body" /\
    frames (world d') = frames (world d) /\
    allStocks (world d') = [].
Proof.
  intros Hfile Hstocks Ho Hheat Hel.
  assert (Hsettles : settles schedule summary).
  { unfold settles. destruct (Summary.stocks summary); [exact I|exact I|discriminate]. }
  destruct (init_prefix d summary schedule Hfile) as (w4 & Hinit & Hr4 & _ & _ & _);
    [apply Hel; simpl; tauto|apply Hel; simpl; tauto|exact Hsettles|].
  assert (Hnone : stock_list summary = []).
  { unfold stock_list. destruct (Summary.stocks summary); [reflexivity|reflexivity|discriminate]. }
  rewrite Hnone in Hr4. simpl in Hr4.
  set (b := set_globals [] (Val summary) (world d)) in *.
  assert (Hpresent : forall id, In id dashboard_elements -> is_Some (document b !! id))
    by exact Hel.
  enough (Hfails : fails (init schedule) d (TypeError "Symbol.iterator") (fun d' =>
            sectorOptions d'
            = sectorOptions d ++ Array.sort default_compare (sector_names summary) /\
            listeners d' = listeners d /\ repainted b (world d'))).
  { destruct Hfails as (d' & Hrun & Ho' & Hl' & Hr'). exists d'.
    split; [exact Hrun|]. split; [exact Ho'|]. split; [exact Hl'|].
    split; [exact (repainted_table _ _ Hr')|].
    split; [exact (repainted_frames _ _ Hr')|exact (repainted_allStocks _ _ Hr')]. }
  unfold fails. rewrite Hinit. fold (fails (A := progress)).
  apply fails_andThen, runs_lift, (returns_renderOverviewCards _ o b);
    [exact Hr4|apply Hpresent; simpl; tauto|exact Ho|]. intros w5 Hr5.
  apply fails_andThen, runs_lift, (returns_renderSectorHeatmap _ b);
    [exact Hr5|apply Hpresent; simpl; tauto|exact Hheat|]. intros w6 Hr6.
  apply fails_andThen. eexists tt, _. split.
  { apply populateSectorFilter_run. cbn [world with_world].
    apply (repainted_elements _ _ Hr6), Hpresent. simpl. tauto. }
  cbn [world sectorOptions listeners with_world].
  apply fails_andThen, runs_lift, (returns_renderPerformers _ b);
    [exact Hr6|apply Hpresent; simpl; tauto|apply Hpresent; simpl; tauto|].
  intros w7 Hr7. cbn [world sectorOptions listeners with_world].
  apply fails_first, fails_lift. exists w7. split.
  - apply (applyFilters_without_stocks w7 summary).
    + exact (repainted_summaryData _ _ Hr7).
    + intros id Hid. apply (repainted_elements _ _ Hr7), Hpresent.
      simpl in *. tauto.
    + exact Hstocks.
  - cbn [world sectorOptions listeners with_world]. auto.
Qed.

(** X19. [init] with a summary that has no [marketOverview].  The header
    is written with the fallbacks of its optional chaining, an empty date
    and '0 stocks'; then [renderOverviewCards], which reads
    [overview.totalStocks] without that guard, throws a TypeError.  [init]
    fails with every other element of the page as it was (no heatmap, no
    performer list, no table), no sector option added and no listener
    registered. *)
Theorem dashboard_init_without_overview
    (d : t) (summary : Summary.t) (schedule : list nat) :
  summaryFile (world d) = Some summary ->
  is_nullish (Summary.marketOverview summary) = true ->
  settles schedule summary ->
  is_Some (document (world d) !! "analysis-date") ->
  is_Some (document (world d) !! "stock-count") ->
  exists d',
    init schedule d = (Throw (TypeError "totalStocks"), d') /\
    content (world d') "analysis-date" = Some (TextContent "") /\
    content (world d') "stock-count" = Some (TextContent "0 stocks") /\
    (forall id, id <> "analysis-date" -> id <> "stock-count" ->
       document (world d') !! id = document (world d) !! id) /\
    sectorOptions d' = sectorOptions d /\ listeners d' = listeners d /\
    frames (world d') = frames (world d).
Proof.
  intros Hfile Ho Hsettles Hdate Hcount.
  destruct (init_prefix d summary schedule Hfile Hdate Hcount Hsettles)
    as (w4 & Hinit & Hr4 & Hd4 & Hc4 & Hdoc4).
  assert (Hdate' : analysis_date summary = "").
  { unfold analysis_date. destruct (Summary.marketOverview summary);
      [reflexivity|reflexivity|discriminate]. }
  assert (Hcount' : stock_count summary = "0 stocks").
  { unfold stock_count. destruct (Summary.marketOverview summary);
      [reflexivity|reflexivity|discriminate]. }
  rewrite Hdate' in Hd4. rewrite Hcount' in Hc4.
  exists (with_world d w4). split.
  - rewrite Hinit. unfold andThen at 1. unfold lift at 1.
    unfold renderOverviewCards, bind, getElementById, read, member, throw.
    cbn [world with_world].
    destruct (Summary.marketOverview summary); [reflexivity|reflexivity|discriminate].
  - cbn [world sectorOptions listeners with_world].
    split; [exact Hd4|]. split; [exact Hc4|]. split; [exact Hdoc4|].
    split; [reflexivity|]. split; [reflexivity|].
    exact (repainted_frames _ _ Hr4).
Qed.

(** X20. While one fetch of a detail document has not settled, [init]
    waits at its [await]: the header is written, and nothing else is: the
    overview cards, the heatmap and the performer lists, which need no
    detail document, are not rendered either, no option is added, no
    listener is registered, and [allStocks] is what it was. *)
Theorem dashboard_init_waits_for_fetches
    (d : t) (summary : Summary.t) (stocks : list Stock) (schedule : list nat)
    (i : nat) :
  summaryFile (world d) = Some summary ->
  Summary.stocks summary = Val stocks ->
  (i < List.length stocks)%nat -> i ∉ schedule ->
  is_Some (document (world d) !! "analysis-date") ->
  is_Some (document (world d) !! "stock-count") ->
  exists d',
    init schedule d = (Normal Pending, d') /\
    content (world d') "analysis-date" = Some (TextContent (analysis_date summary)) /\
    content (world d') "stock-count" = Some (TextContent (stock_count summary)) /\
    (forall id, id <> "analysis-date" -> id <> "stock-count" ->
       document (world d') !! id = document (world d) !! id) /\
    sectorOptions d' = sectorOptions d /\ listeners d' = listeners d /\
    frames (world d') = frames (world d) /\
    allStocks (world d') = allStocks (world d) /\
    summaryData (world d') = Val summary.
Proof.
  intros Hfile Hstocks Hi Hout Hdate Hcount.
  set (text t := fun e => {| Element.value := Element.value e;
                             Element.innerHTML := TextContent t |}).
  set (w1 := set_globals (allStocks (world d)) (Val summary) (world d)).
  set (w2 := set_document (alter (text (analysis_date summary)) "analysis-date") w1).
  set (w3 := set_document (alter (text (stock_count summary)) "stock-count") w2).
  exists (with_world d w3). split.
  - unfold init.
    rewrite (andThen_lift _ _ d (Val summary) w1)
      by (unfold loadSummary; rewrite Hfile; reflexivity).
    cbv beta iota.
    rewrite (andThen_lift _ _ _ (Some (TopLevel "analysis-date")) w1)
      by (apply getElementById_present; exact Hdate).
    rewrite (andThen_lift _ _ _ tt w2)
      by (apply set_innerHTML_run; discriminate).
    rewrite (andThen_lift _ _ _ (Some (TopLevel "stock-count")) w2)
      by (apply getElementById_present; simpl; apply lookup_alter_is_Some; exact Hcount).
    rewrite (andThen_lift _ _ _ tt w3)
      by (apply set_innerHTML_run; discriminate).
    rewrite (andThen_lift _ _ _ None w3)
      by (apply (loadAllStockData_pending w3 summary stocks schedule i); auto).
    reflexivity.
  - cbn [world sectorOptions listeners with_world].
    split; [|split; [|split]].
    + unfold content. simpl. rewrite lookup_alter_ne by discriminate.
      rewrite lookup_alter_eq. destruct Hdate as [el ->]. reflexivity.
    + unfold content. simpl. rewrite lookup_alter_eq.
      rewrite lookup_alter_ne by discriminate.
      destruct Hcount as [el ->]. reflexivity.
    + intros id H1 H2. simpl. rewrite !lookup_alter_ne by congruence. reflexivity.
    + repeat split; reflexivity.
Qed.

End DashboardInit.

(** ** Sorting by a string key; the value of the sort control; events *)

Lemma string_app_nil_r (s : string) : s +:+ "" = s.
Proof.
  induction s as [|c s IH]; [reflexivity|].
  change (String c (s +:+ "") = String c s). now rewrite IH.
Qed.

Lemma string_app_snoc (cur : string) (c : ascii) (s : string) :
  (cur +:+ String c "") +:+ s = cur +:+ String c s.
Proof.
  induction cur as [|x cur IH]; [reflexivity|].
  change (String x ((cur +:+ String c "") +:+ s) = String x (cur +:+ String c s)).
  now rewrite IH.
Qed.

Lemma split_aux_lacks (sep : ascii) (s cur : string) :
  lacks sep s -> JsString.split_aux sep s cur = [cur +:+ s].
Proof.
  unfold lacks. revert cur. induction s as [|c s IH]; intros cur Hs.
  - simpl. now rewrite string_app_nil_r.
  - simpl in Hs. apply andb_true_iff in Hs as [Hc Hs]. apply negb_true_iff in Hc.
    simpl. rewrite Hc, IH by exact Hs. now rewrite string_app_snoc.
Qed.

Lemma split_aux_first (sep : ascii) (f rest cur : string) :
  lacks sep f ->
  JsString.split_aux sep (f +:+ String sep rest) cur
  = (cur +:+ f) :: JsString.split_aux sep rest "".
Proof.
  unfold lacks. revert cur. induction f as [|c f IH]; intros cur Hf.
  - change ("" +:+ String sep rest) with (String sep rest). simpl.
    now rewrite Ascii.eqb_refl, string_app_nil_r.
  - simpl in Hf. apply andb_true_iff in Hf as [Hc Hf]. apply negb_true_iff in Hc.
    change (String c f +:+ String sep rest) with (String c (f +:+ String sep rest)).
    simpl. rewrite Hc, IH by exact Hf. now rewrite string_app_snoc.
Qed.

Section SortControl.
Context `{Engine}.

(** X21. The value of the sort control.  A value [field-dir] whose two
    parts hold no further dash is taken apart into its field and its
    direction; a value without a dash is a field without direction.  Every
    direction other than 'asc' (none, 'desc', 'ASC', ...) sorts as the
    descending one does. *)
Theorem sort_value_parts (field dir : string) :
  lacks "-" field -> lacks "-" dir ->
  (sort_field (field +:+ "-" +:+ dir) = field /\
   sort_dir (field +:+ "-" +:+ dir) = Val dir) /\
  (sort_field field = field /\ sort_dir field = Undefined) /\
  (forall key d (a b : Stock),
     is_asc d = false ->
     comparator key d a b = comparator key (Val "desc") a b).
Proof.
  intros Hf Hd. split; [|split].
  - unfold sort_field, sort_dir, JsString.split.
    change (field +:+ "-" +:+ dir) with (field +:+ String "-" dir).
    rewrite split_aux_first by exact Hf.
    rewrite split_aux_lacks by exact Hd. split; reflexivity.
  - unfold sort_field, sort_dir, JsString.split.
    rewrite split_aux_lacks by exact Hf. split; reflexivity.
  - intros key d a b Hd'. unfold comparator, sort_key. rewrite Hd'. reflexivity.
Qed.

(** X22. Sorting by a key that every record has as a string (the symbol;
    the name or the sector when none is missing): of two rows the earlier
    has the key that is not greater, letter case ignored, when the
    direction is [asc], and not smaller otherwise. *)
Theorem string_sort_order
    (stocks : list Stock) (searchText sectorSel signalSel sortBy : string)
    (i j : nat) (a b : Stock) (ka kb : string) :
  Forall (fun s => exists k, get s (sort_field sortBy) = VStr k) stocks ->
  filtered stocks searchText sectorSel signalSel sortBy !! i = Some a ->
  filtered stocks searchText sectorSel signalSel sortBy !! j = Some b ->
  (i < j)%nat ->
  get a (sort_field sortBy) = VStr ka -> get b (sort_field sortBy) = VStr kb ->
  if is_asc (sort_dir sortBy)
  then String.leb (JsString.toLowerCase ka) (JsString.toLowerCase kb) = true
  else String.leb (JsString.toLowerCase kb) (JsString.toLowerCase ka) = true.
Proof.
  intros Hs Ha Hb Hij Hka Hkb.
  set (field := sort_field sortBy) in *. set (dir := sort_dir sortBy) in *.
  set (P := fun s : Stock => exists k, get s field = VStr k).
  set (le := fun x y : Stock =>
         forall kx ky, get x field = VStr kx -> get y field = VStr ky ->
         if is_asc dir
         then String.leb (JsString.toLowerCase kx) (JsString.toLowerCase ky) = true
         else String.leb (JsString.toLowerCase ky) (JsString.toLowerCase kx) = true).
  assert (Hcmp : forall x y kx ky, get x field = VStr kx -> get y field = VStr ky ->
            comparator field dir x y =
            if is_asc dir
            then (if String.ltb (JsString.toLowerCase ky) (JsString.toLowerCase kx)
                  then 1 else -1)
            else (if String.ltb (JsString.toLowerCase kx) (JsString.toLowerCase ky)
                  then 1 else -1)).
  { intros x y kx ky Hx Hy. unfold comparator, js_gt, sort_key. rewrite Hx, Hy.
    reflexivity. }
  assert (Hlt : forall s t, String.ltb s t = false -> String.leb t s = true).
  { intros s t. unfold String.ltb, String.leb. rewrite (String.compare_antisym t s).
    destruct (String.compare s t); simpl; congruence. }
  assert (Hle : forall s t, String.ltb s t = true -> String.leb s t = true).
  { intros s t. unfold String.ltb, String.leb.
    destruct (String.compare s t); simpl; congruence. }
  assert (Hsorted : StronglySorted le
            (filtered stocks searchText sectorSel signalSel sortBy)).
  { unfold filtered. fold field dir.
    apply SortedFacts.sort_sorted with (P := P).
    - intros x y z _ [ky Hy] _ Hxy Hyz kx kz Hx Hz.
      specialize (Hxy kx ky Hx Hy). specialize (Hyz ky kz Hy Hz).
      destruct (is_asc dir); eapply string_leb_trans; eassumption.
    - intros x y _ _ Hc kx ky Hx Hy. rewrite (Hcmp x y kx ky Hx Hy) in Hc.
      destruct (is_asc dir).
      + destruct (String.ltb _ _) eqn:E; [discriminate|]. now apply Hlt.
      + destruct (String.ltb _ _) eqn:E; [discriminate|]. now apply Hlt.
    - intros x y _ _ Hc ky kx Hy Hx. rewrite (Hcmp x y kx ky Hx Hy) in Hc.
      destruct (is_asc dir).
      + destruct (String.ltb _ _) eqn:E; [|discriminate]. now apply Hle.
      + destruct (String.ltb _ _) eqn:E; [|discriminate]. now apply Hle.
    - destruct (truthy_str signalSel); [apply filter_Forall|];
        (destruct (truthy_str sectorSel); [apply filter_Forall|]);
        (destruct (truthy_str _); [apply filter_Forall|]); exact Hs. }
  exact (SortedFacts.StronglySorted_lookup _ _ Hsorted i j a b Hij Ha Hb ka kb Hka Hkb).
Qed.

(** X23. One filter or sort event and its paint on a ready dashboard: the
    table then shows the rows that [applyFilters] computes from the new
    value of the control that changed and the values the other three
    controls had, in that order, and the controls hold those values. *)
Theorem event_updates_table (e : event) (w : World) (stocks : list Stock) :
  dashboard_ready w stocks -> NoDup (map symbol stocks) ->
  exists w',
    cycle e w = (Normal tt, w') /\
    rendered_rows w'
    = imap stock_row
        (filtered stocks (value_after e w "search-input")
           (value_after e w "sector-filter") (value_after e w "signal-filter")
           (value_after e w "sort-by")) /\
    forall id, In id ["search-input"; "sector-filter"; "signal-filter"; "sort-by"] ->
      control_value w' id = value_after e w id.
Proof.
  intros Hready Hnd.
  destruct (set_value_ready (event_target e) (event_value e) w stocks Hready)
    as (w0 & Hrun0 & Hready0 & _).
  assert (Hval : forall id,
            In id ["search-input"; "sector-filter"; "signal-filter"; "sort-by"] ->
            control_value w0 id = value_after e w id).
  { intros id Hid. unfold set_value, modify in Hrun0. injection Hrun0 as <-.
    unfold control_value, value_after. simpl.
    destruct (String.eqb_spec id (event_target e)) as [->|Hne].
    - rewrite lookup_alter_eq.
      destruct (ready_elements _ _ Hready (event_target e)) as [el ->];
        [simpl in *; tauto|reflexivity].
    - rewrite lookup_alter_ne by congruence. reflexivity. }
  destruct (applyFilters_then_paint w0 stocks Hready0 Hnd)
    as (w1 & w2 & Hrun1 & _ & _ & Hrun2 & _ & [Hrows _] & Hctl).
  exists w2. split; [|split].
  - unfold cycle, dispatch, bind. rewrite Hrun0, Hrun1. exact Hrun2.
  - rewrite Hrows. unfold current_rows.
    rewrite !Hctl by discriminate. rewrite !Hval by (simpl; tauto). reflexivity.
  - intros id Hid. rewrite Hctl, Hval; auto.
    simpl in Hid. intuition (subst; discriminate).
Qed.

End SortControl.

(** ** The detail page with a complete document *)

Section DetailCharts.
Context `{Engine}.










End DetailCharts.

(** ** The properties on the sample pages *)

Lemma sample_index_elements (file : option Summary.t) :
  forall id, In id dashboard_elements -> is_Some (document (SampleIndex.page file) !! id).
Proof.
  intros id Hid. simpl in Hid.
  repeat (destruct Hid as [<-|Hid]; [vm_compute; eauto|]). contradiction.
Qed.

Lemma sample_index_ids (file : option Summary.t) :
  forall id, is_Some (document (SampleIndex.page file) !! id) -> mount_symbol id = None.
Proof.
  intros id [e He].
  destruct (decide (id ∈ ["analysis-date"; "stock-count"; "overview-cards";
                          "sector-heatmap"; "stock-table-body"; "top-gainers";
                          "top-losers"; "search-input"; "sector-filter";
                          "signal-filter"; "sort-by"])) as [Hin|Hout].
  - repeat (apply elem_of_cons in Hin as [->|Hin]; [reflexivity|]).
    now apply elem_of_nil in Hin.
  - assert (Hnone : document (SampleIndex.page file) !! id = None)
      by (apply not_elem_of_list_to_map_1; exact Hout).
    congruence.
Qed.

Lemma sample_index_charts_ok (file : option Summary.t) : charts_ok (SampleIndex.page file).
Proof.
  constructor; simpl.
  - constructor.
  - intros h. unfold live. simpl. rewrite lookup_empty. split.
    + intros Hin. now apply elem_of_nil in Hin.
    + intros [c Hc]. discriminate.
  - constructor.
  - intros h. unfold live. simpl. rewrite lookup_empty. split; [lia|].
    intros [[c Hc]|Hin]; [discriminate|now apply elem_of_nil in Hin].
  - intros h [c Hc]. simpl in Hc. rewrite lookup_empty in Hc. discriminate.
Qed.

Lemma sample_detail_elements :
  forall id, In id detail_elements -> is_Some (document SampleDocuments.page !! id).
Proof.
  intros id Hid. simpl in Hid.
  repeat (destruct Hid as [<-|Hid]; [vm_compute; eauto|]). contradiction.
Qed.

Lemma sample_table_written_ids :
  forall id, is_Some (document SampleIndex.table_written !! id) -> mount_symbol id = None.
Proof.
  intros id Hid. apply (ready_ids _ _ sample_dashboard_ready).
  change (document SampleIndex.table_written)
    with (alter (@table_markup Sample.engine [Sample.AAA; Sample.BBB])
                "stock-table-body" (document SamplePage.dashboard)) in Hid.
  now apply lookup_alter_is_Some in Hid.
Qed.

Lemma loadAllStockData_order_witness :
  summaryData SamplePage.dashboard = Val SamplePage.summary /\
  Summary.stocks SamplePage.summary = Val [Sample.AAA; Sample.BBB] /\
  ((forall i, (i < List.length [Sample.AAA; Sample.BBB])%nat -> i ∈ [1; 0; 1]%nat) ->
   loadAllStockData [1; 0; 1]%nat SamplePage.dashboard
   = (Normal (Some (omap (fun s => stockFile SamplePage.dashboard (symbol s))
                      [Sample.AAA; Sample.BBB])), SamplePage.dashboard)) /\
  (forall i, (i < List.length [Sample.AAA; Sample.BBB])%nat -> i ∉ [1; 0; 1]%nat ->
   loadAllStockData [1; 0; 1]%nat SamplePage.dashboard
   = (Normal None, SamplePage.dashboard)).
Proof.
  split; [reflexivity|]. split; [reflexivity|].
  apply (loadAllStockData_order SamplePage.dashboard SamplePage.summary
           [Sample.AAA; Sample.BBB] [1; 0; 1]%nat); reflexivity.
Defined.

Lemma sparkline_of_row_witness :
  (forall id, is_Some (document SampleIndex.table_written !! id) -> mount_symbol id = None) /\
  has_mount SampleIndex.table_written (symbol Sample.AAA) = true /\
  mountInstance SampleIndex.table_written !! symbol Sample.AAA = None /\
  List.find (fun d => String.eqb (Detail.symbol d) (symbol Sample.AAA))
    [SamplePage.AAA_detail] = Some SamplePage.AAA_detail /\
  Detail.priceHistory SamplePage.AAA_detail
  = Val [SampleBars.flat_day; SampleBars.up_day] /\
  exists w' color,
    draw_row_sparkline [SamplePage.AAA_detail] Sample.AAA
      SampleIndex.table_written = (Normal tt, w') /\
    instances w' !! idBase SampleIndex.table_written
    = Some {| Chart.dom := Mount (symbol Sample.AAA);
              Chart.option :=
                SparklineOption (map Bar.close [SampleBars.flat_day; SampleBars.up_day])
                  color |} /\
    sparklineCharts w' = sparklineCharts SampleIndex.table_written
                         ++ [idBase SampleIndex.table_written] /\
    match ytdReturn Sample.AAA with
    | Val x => is_nan x = false -> color = TableRow.ytdColor (@stock_row Sample.engine 0 Sample.AAA)
    | _ => color = COLORS.gain /\
           TableRow.ytdColor (@stock_row Sample.engine 0 Sample.AAA) = COLORS.text
    end.
Proof.
  split; [exact sample_table_written_ids|].
  split; [vm_compute; reflexivity|]. split; [vm_compute; reflexivity|].
  split; [reflexivity|]. split; [reflexivity|].
  apply (@sparkline_of_row Sample.engine [SamplePage.AAA_detail] Sample.AAA
           SamplePage.AAA_detail [SampleBars.flat_day; SampleBars.up_day]
           SampleIndex.table_written);
    [exact sample_table_written_ids|vm_compute; reflexivity|vm_compute; reflexivity
    |reflexivity|reflexivity].
Defined.

Lemma flat_performers_width_witness :
  is_Some (document SamplePage.dashboard !! "top-gainers") /\
  Forall (fun s => (Ranked.ytdReturn s =? 0)%float = true) [SampleIndex.flat] /\
  exists w' rows,
    @renderList Sample.engine "top-gainers" (Val [SampleIndex.flat]) true
      SamplePage.dashboard = (Normal tt, w') /\
    (Element.innerHTML <$> document w' !! "top-gainers") = Some (PerformerRows rows) /\
    map PerformerRow.symbol rows = map Ranked.symbol [SampleIndex.flat] /\
    Forall (fun row => PerformerRow.barWidth row = "NaN") rows.
Proof.
  assert (Hel : is_Some (document SamplePage.dashboard !! "top-gainers"))
    by (vm_compute; eauto).
  assert (Hflat : Forall (fun s => (Ranked.ytdReturn s =? 0)%float = true)
                    [SampleIndex.flat])
    by (repeat constructor).
  split; [exact Hel|]. split; [exact Hflat|].
  exact (@flat_performers_width Sample.engine "top-gainers" SampleIndex.flat []
           true SamplePage.dashboard Hel Hflat).
Defined.

Lemma heatmap_tiles_witness :
  is_Some (document SamplePage.dashboard !! "sector-heatmap") /\
  Summary.sectorStats SamplePage.summary
  = Val SampleIndex.sectors /\
  exists w' tiles,
    @renderSectorHeatmap Sample.engine SamplePage.summary SamplePage.dashboard
    = (Normal tt, w') /\
    content w' "sector-heatmap" = Some (SectorTiles tiles) /\
    Permutation (map Tile.sector tiles) (map fst SampleIndex.sectors).
Proof.
  assert (Hel : is_Some (document SamplePage.dashboard !! "sector-heatmap"))
    by (vm_compute; eauto).
  split; [exact Hel|]. split; [reflexivity|].
  exact (@heatmap_tiles Sample.engine SamplePage.summary SampleIndex.sectors
           SamplePage.dashboard Hel eq_refl).
Defined.

Lemma applyFilters_guards_witness :
  summaryData SampleIndex.loaded_blank = Val SamplePage.summary /\
  ((exists id, In id ["search-input"; "sector-filter"; "signal-filter"; "sort-by"] /\
               document SampleIndex.loaded_blank !! id = None) ->
   @applyFilters Sample.engine SampleIndex.loaded_blank
   = (Throw (TypeError "value"), SampleIndex.loaded_blank)) /\
  ((forall id, In id ["search-input"; "sector-filter"; "signal-filter"; "sort-by"] ->
               is_Some (document SampleIndex.loaded_blank !! id)) ->
   is_nullish (Summary.stocks SamplePage.summary) = true ->
   @applyFilters Sample.engine SampleIndex.loaded_blank
   = (Throw (TypeError "Symbol.iterator"), SampleIndex.loaded_blank)).
Proof.
  split; [reflexivity|].
  apply (@applyFilters_guards Sample.engine SampleIndex.loaded_blank SamplePage.summary).
  reflexivity.
Defined.

Lemma detail_init_skips_absent_series_witness :
  stockFile SampleDocuments.page "BBB" = Some SampleDetail.BBB_detail /\
  Detail.indicators SampleDetail.BBB_detail = Val SampleDocuments.BBB_indicators /\
  Detail.priceHistory SampleDetail.BBB_detail
  = Val [SampleBars.flat_day; SampleBars.up_day] /\
  Detail.metrics SampleDetail.BBB_detail = Val SampleDocuments.metrics /\
  Detail.technicals SampleDetail.BBB_detail = Val SampleDocuments.technicals /\
  (forall id, In id detail_elements -> is_Some (document SampleDocuments.page !! id)) /\
  exists w',
    @init Sample.engine (Val "BBB") SampleDocuments.page = (Normal tt, w') /\
    forall id, In id (skipped SampleDocuments.BBB_indicators) ->
      document w' !! id = document SampleDocuments.page !! id /\
      forall h chart,
        instances w' !! h = Some chart -> Chart.dom chart = TopLevel id ->
        exists chart0, instances SampleDocuments.page !! h = Some chart0 /\
                       Chart.dom chart0 = TopLevel id.
Proof.
  split; [reflexivity|]. split; [reflexivity|]. split; [reflexivity|].
  split; [reflexivity|]. split; [reflexivity|].
  split; [exact sample_detail_elements|].
  exact (@detail_init_skips_absent_series Sample.engine SampleDocuments.page
           "B" "BB" SampleDetail.BBB_detail SampleDocuments.BBB_indicators
           [SampleBars.flat_day; SampleBars.up_day]
           SampleDocuments.metrics SampleDocuments.technicals
           eq_refl eq_refl eq_refl eq_refl eq_refl sample_detail_elements).
Defined.

Lemma detail_init_needs_indicators_witness :
  stockFile SampleDocuments.page "AAA" = Some SamplePage.AAA_detail /\
  is_nullish (Detail.indicators SamplePage.AAA_detail) = true /\
  Detail.priceHistory SamplePage.AAA_detail
  = Val [SampleBars.flat_day; SampleBars.up_day] /\
  Detail.metrics SamplePage.AAA_detail = Val SampleDocuments.metrics /\
  Detail.technicals SamplePage.AAA_detail = Val SampleDocuments.technicals /\
  (forall id, In id detail_elements -> is_Some (document SampleDocuments.page !! id)) /\
  exists w',
    @init Sample.engine (Val "AAA") SampleDocuments.page
    = (Throw (TypeError "ma5"), w') /\
    forall id, In id ["key-stats"; "rsi-chart"; "macd-chart"; "bollinger-chart"] ->
      document w' !! id = document SampleDocuments.page !! id.
Proof.
  split; [reflexivity|]. split; [reflexivity|]. split; [reflexivity|].
  split; [reflexivity|]. split; [reflexivity|].
  split; [exact sample_detail_elements|].
  exact (@detail_init_needs_indicators Sample.engine SampleDocuments.page
           "A" "AA" SamplePage.AAA_detail
           [SampleBars.flat_day; SampleBars.up_day]
           SampleDocuments.metrics SampleDocuments.technicals
           eq_refl eq_refl eq_refl eq_refl eq_refl sample_detail_elements).
Defined.

Lemma detail_init_needs_priceHistory_witness :
  stockFile SampleDocuments.page "CCC" = Some SampleDocuments.CCC_detail /\
  is_nullish (Detail.priceHistory SampleDocuments.CCC_detail) = true /\
  Detail.metrics SampleDocuments.CCC_detail = Val SampleDocuments.metrics /\
  Detail.technicals SampleDocuments.CCC_detail = Val SampleDocuments.technicals /\
  (forall id, In id detail_elements -> is_Some (document SampleDocuments.page !! id)) /\
  exists w',
    @init Sample.engine (Val "CCC") SampleDocuments.page
    = (Throw (TypeError "map"), w') /\
    forall id,
      In id ["candlestick-chart"; "rsi-chart"; "macd-chart"; "bollinger-chart"; "key-stats"] ->
      document w' !! id = document SampleDocuments.page !! id /\
      forall h chart,
        instances w' !! h = Some chart -> Chart.dom chart = TopLevel id ->
        exists chart0, instances SampleDocuments.page !! h = Some chart0 /\
                       Chart.dom chart0 = TopLevel id.
Proof.
  split; [reflexivity|]. split; [reflexivity|]. split; [reflexivity|].
  split; [reflexivity|]. split; [exact sample_detail_elements|].
  exact (@detail_init_needs_priceHistory Sample.engine SampleDocuments.page
           "C" "CC" SampleDocuments.CCC_detail
           SampleDocuments.metrics SampleDocuments.technicals
           eq_refl eq_refl eq_refl eq_refl sample_detail_elements).
Defined.


Lemma sector_options_sorted_witness :
  is_Some (document (DashboardPage.world (SampleIndex.start None)) !! "sector-filter") /\
  exists d' added,
    DashboardPage.populateSectorFilter SamplePage.summary (SampleIndex.start None)
    = (Normal tt, d') /\
    DashboardPage.sectorOptions d'
    = DashboardPage.sectorOptions (SampleIndex.start None) ++ added /\
    Permutation added (sector_names SamplePage.summary) /\
    StronglySorted (fun a b => String.leb a b = true) added /\
    DashboardPage.world d' = DashboardPage.world (SampleIndex.start None) /\
    DashboardPage.listeners d' = DashboardPage.listeners (SampleIndex.start None).
Proof.
  assert (Hel : is_Some (document (DashboardPage.world (SampleIndex.start None))
                           !! "sector-filter"))
    by (vm_compute; eauto).
  split; [exact Hel|].
  exact (sector_options_sorted SamplePage.summary (SampleIndex.start None) Hel).
Defined.

Lemma sector_options_without_select_witness :
  document (DashboardPage.world
              {| DashboardPage.world := SamplePage.blank;
                 DashboardPage.sectorOptions := [];
                 DashboardPage.listeners := [] |}) !! "sector-filter" = None /\
  exists d',
    DashboardPage.populateSectorFilter SamplePage.summary
      {| DashboardPage.world := SamplePage.blank;
         DashboardPage.sectorOptions := [];
         DashboardPage.listeners := [] |}
    = (Throw (TypeError "appendChild"), d') /\
    DashboardPage.sectorOptions d' = [] /\
    DashboardPage.world d' = SamplePage.blank /\
    DashboardPage.listeners d' = [].
Proof.
  split; [reflexivity|].
  exact (sector_options_without_select SamplePage.summary
           {| DashboardPage.world := SamplePage.blank;
              DashboardPage.sectorOptions := [];
              DashboardPage.listeners := [] |} eq_refl).
Defined.

Lemma sample_schedule :
  forall i, (i < List.length [Sample.AAA; Sample.BBB])%nat -> i ∈ [1; 0]%nat.
Proof.
  intros i Hi. simpl in Hi.
  destruct i as [|[|i]]; [| |lia].
  - apply elem_of_cons. right. apply elem_of_cons. now left.
  - apply elem_of_cons. now left.
Qed.

Lemma sample_symbols_NoDup : NoDup (map symbol [Sample.AAA; Sample.BBB]).
Proof.
  apply NoDup_cons. split.
  - intros Hin. apply list_elem_of_singleton in Hin. discriminate.
  - apply NoDup_singleton.
Qed.

Lemma dashboard_init_ready_witness :
  summaryFile (DashboardPage.world (SampleIndex.start (Some SamplePage.summary)))
  = Some SamplePage.summary /\
  Summary.stocks SamplePage.summary = Val [Sample.AAA; Sample.BBB] /\
  Summary.marketOverview SamplePage.summary = Val SamplePage.overview /\
  heatmap_ok SamplePage.summary /\
  NoDup (map symbol [Sample.AAA; Sample.BBB]) /\
  (forall i, (i < List.length [Sample.AAA; Sample.BBB])%nat -> i ∈ [1; 0]%nat) /\
  (forall id, In id dashboard_elements ->
     is_Some (document (DashboardPage.world (SampleIndex.start (Some SamplePage.summary)))
                !! id)) /\
  (forall id,
     is_Some (document (DashboardPage.world (SampleIndex.start (Some SamplePage.summary)))
                !! id) -> mount_symbol id = None) /\
  frames (DashboardPage.world (SampleIndex.start (Some SamplePage.summary))) = [] /\
  charts_ok (DashboardPage.world (SampleIndex.start (Some SamplePage.summary))) /\
  exists d',
    @DashboardPage.init Sample.engine [1; 0]%nat
      (SampleIndex.start (Some SamplePage.summary))
    = (Normal DashboardPage.Finished, d') /\
    DashboardPage.sectorOptions d'
    = DashboardPage.sectorOptions (SampleIndex.start (Some SamplePage.summary))
      ++ Array.sort DashboardPage.default_compare (sector_names SamplePage.summary) /\
    DashboardPage.listeners d'
    = DashboardPage.listeners (SampleIndex.start (Some SamplePage.summary))
      ++ filter_listeners /\
    allStocks (DashboardPage.world d')
    = omap (fun s => stockFile
                       (DashboardPage.world (SampleIndex.start (Some SamplePage.summary)))
                       (symbol s))
           [Sample.AAA; Sample.BBB] /\
    exists w'',
      animationFrame (DashboardPage.world d') = (Normal tt, w'') /\
      dashboard_ready w'' [Sample.AAA; Sample.BBB] /\
      @registry_matches Sample.engine w'' [Sample.AAA; Sample.BBB].
Proof.
  split; [reflexivity|]. split; [reflexivity|]. split; [reflexivity|].
  split; [reflexivity|]. split; [exact sample_symbols_NoDup|].
  split; [exact sample_schedule|].
  split; [exact (sample_index_elements _)|].
  split; [exact (sample_index_ids _)|].
  split; [reflexivity|]. split; [exact (sample_index_charts_ok _)|].
  exact (@dashboard_init_ready Sample.engine
           (SampleIndex.start (Some SamplePage.summary)) SamplePage.summary
           [Sample.AAA; Sample.BBB] SamplePage.overview [1; 0]%nat
           eq_refl eq_refl eq_refl eq_refl sample_symbols_NoDup sample_schedule
           (sample_index_elements _) (sample_index_ids _) eq_refl
           (sample_index_charts_ok _)).
Defined.

Lemma dashboard_init_without_summary_witness :
  summaryFile (DashboardPage.world (SampleIndex.start None)) = None /\
  exists d',
    @DashboardPage.init Sample.engine [] (SampleIndex.start None)
    = (Normal DashboardPage.Finished, d') /\
    body (DashboardPage.world d')
    = Some (Message "Failed to load data. Make sure the server is running and data/summary.json exists."
                    false) /\
    document (DashboardPage.world d') = ∅ /\
    DashboardPage.listeners d' = DashboardPage.listeners (SampleIndex.start None) /\
    DashboardPage.sectorOptions d' = DashboardPage.sectorOptions (SampleIndex.start None) /\
    frames (DashboardPage.world d') = frames (DashboardPage.world (SampleIndex.start None)) /\
    summaryData (DashboardPage.world d')
    = summaryData (DashboardPage.world (SampleIndex.start None)) /\
    allStocks (DashboardPage.world d')
    = allStocks (DashboardPage.world (SampleIndex.start None)).
Proof.
  split; [reflexivity|].
  exact (@dashboard_init_without_summary Sample.engine (SampleIndex.start None) []
           eq_refl).
Defined.

Lemma dashboard_init_without_stocks_witness :
  summaryFile (DashboardPage.world (SampleIndex.start (Some SampleIndex.no_stocks)))
  = Some SampleIndex.no_stocks /\
  is_nullish (Summary.stocks SampleIndex.no_stocks) = true /\
  Summary.marketOverview SampleIndex.no_stocks = Val SamplePage.overview /\
  heatmap_ok SampleIndex.no_stocks /\
  (forall id, In id dashboard_elements ->
     is_Some (document (DashboardPage.world (SampleIndex.start (Some SampleIndex.no_stocks)))
                !! id)) /\
  exists d',
    @DashboardPage.init Sample.engine [] (SampleIndex.start (Some SampleIndex.no_stocks))
    = (Throw (TypeError "Symbol.iterator"), d') /\
    DashboardPage.sectorOptions d'
    = DashboardPage.sectorOptions (SampleIndex.start (Some SampleIndex.no_stocks))
      ++ Array.sort DashboardPage.default_compare (sector_names SampleIndex.no_stocks) /\
    DashboardPage.listeners d'
    = DashboardPage.listeners (SampleIndex.start (Some SampleIndex.no_stocks)) /\
    document (DashboardPage.world d') !! "stock-table-body"
    = document (DashboardPage.world (SampleIndex.start (Some SampleIndex.no_stocks)))
        !! "stock-table-body" /\
    frames (DashboardPage.world d')
    = frames (DashboardPage.world (SampleIndex.start (Some SampleIndex.no_stocks))) /\
    allStocks (DashboardPage.world d') = [].
Proof.
  split; [reflexivity|]. split; [reflexivity|]. split; [reflexivity|].
  split; [reflexivity|]. split; [exact (sample_index_elements _)|].
  exact (@dashboard_init_without_stocks Sample.engine
           (SampleIndex.start (Some SampleIndex.no_stocks)) SampleIndex.no_stocks
           SamplePage.overview [] eq_refl eq_refl eq_refl eq_refl
           (sample_index_elements _)).
Defined.

Lemma dashboard_init_without_overview_witness :
  summaryFile (DashboardPage.world (SampleIndex.start (Some SampleIndex.no_overview)))
  = Some SampleIndex.no_overview /\
  is_nullish (Summary.marketOverview SampleIndex.no_overview) = true /\
  settles [1; 0]%nat SampleIndex.no_overview /\
  is_Some (document (DashboardPage.world (SampleIndex.start (Some SampleIndex.no_overview)))
             !! "analysis-date") /\
  is_Some (document (DashboardPage.world (SampleIndex.start (Some SampleIndex.no_overview)))
             !! "stock-count") /\
  exists d',
    @DashboardPage.init Sample.engine [1; 0]%nat
      (SampleIndex.start (Some SampleIndex.no_overview))
    = (Throw (TypeError "totalStocks"), d') /\
    content (DashboardPage.world d') "analysis-date" = Some (TextContent "") /\
    content (DashboardPage.world d') "stock-count" = Some (TextContent "0 stocks") /\
    (forall id, id <> "analysis-date" -> id <> "stock-count" ->
       document (DashboardPage.world d') !! id
       = document (DashboardPage.world (SampleIndex.start (Some SampleIndex.no_overview)))
           !! id) /\
    DashboardPage.sectorOptions d'
    = DashboardPage.sectorOptions (SampleIndex.start (Some SampleIndex.no_overview)) /\
    DashboardPage.listeners d'
    = DashboardPage.listeners (SampleIndex.start (Some SampleIndex.no_overview)) /\
    frames (DashboardPage.world d')
    = frames (DashboardPage.world (SampleIndex.start (Some SampleIndex.no_overview))).
Proof.
  assert (Hdate : is_Some (document (DashboardPage.world
                    (SampleIndex.start (Some SampleIndex.no_overview))) !! "analysis-date"))
    by (vm_compute; eauto).
  assert (Hcount : is_Some (document (DashboardPage.world
                     (SampleIndex.start (Some SampleIndex.no_overview))) !! "stock-count"))
    by (vm_compute; eauto).
  split; [reflexivity|]. split; [reflexivity|]. split; [exact sample_schedule|].
  split; [exact Hdate|]. split; [exact Hcount|].
  exact (@dashboard_init_without_overview Sample.engine
           (SampleIndex.start (Some SampleIndex.no_overview)) SampleIndex.no_overview
           [1; 0]%nat eq_refl eq_refl sample_schedule Hdate Hcount).
Defined.

Lemma sort_value_parts_witness :
  lacks "-" "ytdReturn" /\ lacks "-" "desc" /\
  (sort_field ("ytdReturn" +:+ "-" +:+ "desc") = "ytdReturn" /\
   sort_dir ("ytdReturn" +:+ "-" +:+ "desc") = Val "desc") /\
  (sort_field "ytdReturn" = "ytdReturn" /\ sort_dir "ytdReturn" = Undefined) /\
  (forall key d (a b : Stock),
     is_asc d = false ->
     @comparator Sample.engine key d a b
     = @comparator Sample.engine key (Val "desc") a b).
Proof.
  split; [reflexivity|]. split; [reflexivity|].
  apply (@sort_value_parts Sample.engine "ytdReturn" "desc"); reflexivity.
Defined.

Lemma string_sort_order_witness :
  Forall (fun s => exists k, get s (sort_field "symbol-asc") = VStr k)
    [Sample.XYZ; Sample.AAPL] /\
  @filtered Sample.engine [Sample.XYZ; Sample.AAPL] "" "" "" "symbol-asc" !! 0%nat
  = Some Sample.AAPL /\
  @filtered Sample.engine [Sample.XYZ; Sample.AAPL] "" "" "" "symbol-asc" !! 1%nat
  = Some Sample.XYZ /\
  (0 < 1)%nat /\
  get Sample.AAPL (sort_field "symbol-asc") = VStr "AAPL" /\
  get Sample.XYZ (sort_field "symbol-asc") = VStr "XYZ" /\
  (if is_asc (sort_dir "symbol-asc")
   then String.leb (JsString.toLowerCase "AAPL") (JsString.toLowerCase "XYZ") = true
   else String.leb (JsString.toLowerCase "XYZ") (JsString.toLowerCase "AAPL") = true).
Proof.
  assert (Hkeys : Forall (fun s => exists k, get s (sort_field "symbol-asc") = VStr k)
                    [Sample.XYZ; Sample.AAPL])
    by (repeat constructor; eexists; reflexivity).
  split; [exact Hkeys|]. split; [reflexivity|]. split; [reflexivity|].
  split; [lia|]. split; [reflexivity|]. split; [reflexivity|].
  apply (@string_sort_order Sample.engine [Sample.XYZ; Sample.AAPL] "" "" ""
           "symbol-asc" 0%nat 1%nat Sample.AAPL Sample.XYZ "AAPL" "XYZ" Hkeys);
    [reflexivity|reflexivity|lia|reflexivity|reflexivity].
Defined.

Lemma event_updates_table_witness :
  dashboard_ready SamplePage.dashboard [Sample.AAA; Sample.BBB] /\
  NoDup (map symbol [Sample.AAA; Sample.BBB]) /\
  exists w',
    @cycle Sample.engine (SectorChange "Tech") SamplePage.dashboard = (Normal tt, w') /\
    rendered_rows w'
    = imap (@stock_row Sample.engine)
        (@filtered Sample.engine [Sample.AAA; Sample.BBB]
           (value_after (SectorChange "Tech") SamplePage.dashboard "search-input")
           (value_after (SectorChange "Tech") SamplePage.dashboard "sector-filter")
           (value_after (SectorChange "Tech") SamplePage.dashboard "signal-filter")
           (value_after (SectorChange "Tech") SamplePage.dashboard "sort-by")) /\
    forall id, In id ["search-input"; "sector-filter"; "signal-filter"; "sort-by"] ->
      control_value w' id = value_after (SectorChange "Tech") SamplePage.dashboard id.
Proof.
  split; [exact sample_dashboard_ready|]. split; [exact sample_symbols_NoDup|].
  exact (@event_updates_table Sample.engine (SectorChange "Tech")
           SamplePage.dashboard [Sample.AAA; Sample.BBB]
           sample_dashboard_ready sample_symbols_NoDup).
Defined.


Lemma dashboard_init_waits_for_fetches_witness :
  summaryFile (DashboardPage.world (SampleIndex.start (Some SamplePage.summary)))
  = Some SamplePage.summary /\
  Summary.stocks SamplePage.summary = Val [Sample.AAA; Sample.BBB] /\
  (1 < List.length [Sample.AAA; Sample.BBB])%nat /\
  (1%nat ∉ [0%nat]) /\
  is_Some (document (DashboardPage.world (SampleIndex.start (Some SamplePage.summary)))
             !! "analysis-date") /\
  is_Some (document (DashboardPage.world (SampleIndex.start (Some SamplePage.summary)))
             !! "stock-count") /\
  exists d',
    @DashboardPage.init Sample.engine [0%nat] (SampleIndex.start (Some SamplePage.summary))
    = (Normal DashboardPage.Pending, d') /\
    content (DashboardPage.world d') "analysis-date"
    = Some (TextContent (DashboardPage.analysis_date SamplePage.summary)) /\
    content (DashboardPage.world d') "stock-count"
    = Some (TextContent (@DashboardPage.stock_count Sample.engine SamplePage.summary)) /\
    (forall id, id <> "analysis-date" -> id <> "stock-count" ->
       document (DashboardPage.world d') !! id
       = document (DashboardPage.world (SampleIndex.start (Some SamplePage.summary))) !! id) /\
    DashboardPage.sectorOptions d'
    = DashboardPage.sectorOptions (SampleIndex.start (Some SamplePage.summary)) /\
    DashboardPage.listeners d'
    = DashboardPage.listeners (SampleIndex.start (Some SamplePage.summary)) /\
    frames (DashboardPage.world d')
    = frames (DashboardPage.world (SampleIndex.start (Some SamplePage.summary))) /\
    allStocks (DashboardPage.world d')
    = allStocks (DashboardPage.world (SampleIndex.start (Some SamplePage.summary))) /\
    summaryData (DashboardPage.world d') = Val SamplePage.summary.
Proof.
  assert (Hdate : is_Some (document (DashboardPage.world
                    (SampleIndex.start (Some SamplePage.summary))) !! "analysis-date"))
    by (vm_compute; eauto).
  assert (Hcount : is_Some (document (DashboardPage.world
                     (SampleIndex.start (Some SamplePage.summary))) !! "stock-count"))
    by (vm_compute; eauto).
  assert (Hlen : (1 < List.length [Sample.AAA; Sample.BBB])%nat) by (simpl; lia).
  assert (Hout : 1%nat ∉ [0%nat])
    by (intros Hin; apply list_elem_of_singleton in Hin; discriminate).
  split; [reflexivity|]. split; [reflexivity|]. split; [exact Hlen|].
  split; [exact Hout|]. split; [exact Hdate|]. split; [exact Hcount|].
  exact (@dashboard_init_waits_for_fetches Sample.engine
           (SampleIndex.start (Some SamplePage.summary)) SamplePage.summary
           [Sample.AAA; Sample.BBB] [0%nat] 1%nat
           eq_refl eq_refl Hlen Hout Hdate Hcount).
Defined.
